(** * LongEmotion batch annotators: extraction cascades and batch pipelines

    Shallow embedding of the five annotator scripts (EC_v5, ED_v2, ES_v1,
    QA_v3, MC_v2) and the properties of their response extractors, retry
    controller, batch loops and result sinks.

    Modelling conventions.
    - A Python [str] is a [string]: the sequence of its UTF-8 bytes.  The
      model is exact on ASCII text; a byte above 127 has no case, is no
      digit and no white space, and counts as a word character.
    - A value produced by [json.loads] (and any Python value stored in a
      result record) is a [value]; Python's [None] is [JNull].
    - A call that may raise returns a [res]: [Ret v] or [Raise e].
    - The text-generation service is an oracle: it gives the outcome of
      the request made for each line (and, where requests are retried,
      of each attempt); every theorem quantifies over all oracles.
    - Logging and printing are not part of the state. *)

From Stdlib Require Import String Ascii List ZArith NArith Bool Arith Lia.
From Stdlib Require Import DecimalString Sorting.Sorted.
From Stdlib Require DecimalFacts DecimalNat.
Import ListNotations.
Open Scope list_scope.
Open Scope string_scope.
Open Scope nat_scope.
Set Warnings "-register-all".

(** ** Python strings *)

Module Py.

Definition dq : string := String (ascii_of_nat 34) "".
Definition sq : ascii := ascii_of_nat 39.
(** [q s] is [s] between double quotes. *)
Definition q (s : string) : string := dq ++ s ++ dq.

Definition code (c : ascii) : nat := nat_of_ascii c.

(** [str.isspace] on the ASCII range. *)
Definition is_space (c : ascii) : bool :=
  let n := code c in
  ((9 <=? n) && (n <=? 13)) || ((28 <=? n) && (n <=? 32)).

Definition is_digit (c : ascii) : bool :=
  let n := code c in (48 <=? n) && (n <=? 57).

Definition is_upper (c : ascii) : bool :=
  let n := code c in (65 <=? n) && (n <=? 90).

Definition is_alpha (c : ascii) : bool :=
  let n := code c in
  ((65 <=? n) && (n <=? 90)) || ((97 <=? n) && (n <=? 122)).

(** [\w]: letters, digits, underscore; bytes of non-ASCII code points. *)
Definition is_word (c : ascii) : bool :=
  is_alpha c || is_digit c || (code c =? 95) || (128 <=? code c).

Definition lower_char (c : ascii) : ascii :=
  if is_upper c then ascii_of_nat (code c + 32) else c.

(** [s.lower()] *)
Fixpoint lower (s : string) : string :=
  match s with
  | EmptyString => EmptyString
  | String c s' => String (lower_char c) (lower s')
  end.

(** [s.lstrip()] *)
Fixpoint lstrip (s : string) : string :=
  match s with
  | String c s' => if is_space c then lstrip s' else s
  | EmptyString => EmptyString
  end.

(** [s.rstrip()]: a character is kept when it is no white space or
    when something is kept after it. *)
Fixpoint rstrip (s : string) : string :=
  match s with
  | EmptyString => EmptyString
  | String c s' =>
      match rstrip s' with
      | EmptyString => if is_space c then EmptyString else String c EmptyString
      | t => String c t
      end
  end.

(** [s.strip()] *)
Definition strip (s : string) : string := rstrip (lstrip s).

(** The longest prefix without white space. *)
Fixpoint take_token (s : string) : string :=
  match s with
  | String c s' => if is_space c then EmptyString else String c (take_token s')
  | EmptyString => EmptyString
  end.

(** [s.split()[0] if s.split() else ""] *)
Definition first_word (s : string) : string := take_token (lstrip s).

(** [s[:n]] *)
Fixpoint slice_to (n : nat) (s : string) : string :=
  match n, s with
  | S n', String c s' => String c (slice_to n' s')
  | _, _ => EmptyString
  end.

(** [needle in hay] for two strings. *)
Fixpoint contains (needle hay : string) : bool :=
  prefix needle hay ||
  match hay with
  | EmptyString => false
  | String _ hay' => contains needle hay'
  end.

(** [x in xs] for a string and a list of strings. *)
Definition in_list (x : string) (xs : list string) : bool :=
  existsb (String.eqb x) xs.

(** Truth value of a string: non-empty. *)
Definition truthy_str (s : string) : bool :=
  match s with EmptyString => false | _ => true end.

End Py.


(** ** Regular expressions: the fragment of Python's [re] the scripts use

    A backtracking matcher with the priorities of [re]: a greedy
    repetition tries one more character first, a lazy one tries to stop
    first, an optional part is tried before its absence, [search] takes
    the leftmost start.  Every repetition in the scripts is over one
    character class, and so it is here.  There is one capture group,
    [group(1)]. *)

Module Re.

(** A character class. *)
Definition class : Type := ascii -> bool.

Inductive regex : Type :=
| Eps                          (* the empty pattern *)
| Cls (p : class)              (* one character of a class *)
| Seq (r1 r2 : regex)
| Star (p : class)             (* p*  *)
| Lazy (p : class)             (* p*? *)
| Opt (r : regex)              (* r?  *)
| Grp (r : regex)              (* (r), group 1 *)
| Bol                          (* ^  *)
| Eol                          (* $  *)
| Wb.                          (* \b *)

(** Where the matcher stands: characters consumed, the last of them,
    and the characters ahead. *)
Record cursor : Type := Cursor {
  pos : nat;
  prev : option ascii;
  rest : list ascii
}.

Definition span : Type := (nat * nat)%type.

(** End of the match and span of group 1. *)
Definition outcome : Type := (nat * option span)%type.

Definition kont : Type := cursor -> option span -> option outcome.

Definition orelse (a b : option outcome) : option outcome :=
  match a with Some _ => a | None => b end.

Definition word_before (c : cursor) : bool :=
  match prev c with Some x => Py.is_word x | None => false end.

Definition word_after (c : cursor) : bool :=
  match rest c with x :: _ => Py.is_word x | [] => false end.

Definition newline : ascii := ascii_of_nat 10.

(** [$] without MULTILINE: at the end, or before a final newline. *)
Definition at_eol (c : cursor) : bool :=
  match rest c with
  | [] => true
  | [x] => Ascii.eqb x newline
  | _ => false
  end.

(** [p*] from a cursor: one more character first, then the rest of the
    pattern. *)
Fixpoint greedy (p : class) (ahead : list ascii) (at_pos : nat)
  (before : option ascii) (g : option span) (k : kont) : option outcome :=
  match ahead with
  | x :: ahead' =>
      if p x then
        orelse (greedy p ahead' (S at_pos) (Some x) g k)
               (k (Cursor at_pos before ahead) g)
      else k (Cursor at_pos before ahead) g
  | [] => k (Cursor at_pos before ahead) g
  end.

(** [p*?] from a cursor: the rest of the pattern first, then one more
    character. *)
Fixpoint lazy (p : class) (ahead : list ascii) (at_pos : nat)
  (before : option ascii) (g : option span) (k : kont) : option outcome :=
  match ahead with
  | x :: ahead' =>
      if p x then
        orelse (k (Cursor at_pos before ahead) g)
               (lazy p ahead' (S at_pos) (Some x) g k)
      else k (Cursor at_pos before ahead) g
  | [] => k (Cursor at_pos before ahead) g
  end.

Fixpoint run (r : regex) (c : cursor) (g : option span) (k : kont)
  : option outcome :=
  match r with
  | Eps => k c g
  | Cls p =>
      match rest c with
      | x :: xs => if p x then k (Cursor (S (pos c)) (Some x) xs) g else None
      | [] => None
      end
  | Seq r1 r2 => run r1 c g (fun c' g' => run r2 c' g' k)
  | Opt r1 => orelse (run r1 c g k) (k c g)
  | Star p => greedy p (rest c) (pos c) (prev c) g k
  | Lazy p => lazy p (rest c) (pos c) (prev c) g k
  | Grp r1 => run r1 c g (fun c' _ => k c' (Some (pos c, pos c')))
  | Bol => if pos c =? 0 then k c g else None
  | Eol => if at_eol c then k c g else None
  | Wb => if xorb (word_before c) (word_after c) then k c g else None
  end.

(** A match object: [start()], [end()] and the span of group 1. *)
Record mtch : Type := Match {
  m_start : nat;
  m_end : nat;
  m_group : option span
}.

Definition match_at (r : regex) (c : cursor) : option mtch :=
  match run r c None (fun c' g => Some (pos c', g)) with
  | Some (e, g) => Some (Match (pos c) e g)
  | None => None
  end.

(** Leftmost match starting at the cursor or later. *)
Fixpoint search_from (r : regex) (p : nat) (pv : option ascii)
  (l : list ascii) : option mtch :=
  match match_at r (Cursor p pv l) with
  | Some m => Some m
  | None =>
      match l with
      | [] => None
      | x :: l' => search_from r (S p) (Some x) l'
      end
  end.

(** [re.search(r, s)] *)
Definition search (r : regex) (s : string) : option mtch :=
  search_from r 0 None (list_ascii_of_string s).

(** [re.match(r, s)] *)
Definition rmatch (r : regex) (s : string) : option mtch :=
  match_at r (Cursor 0 None (list_ascii_of_string s)).

Definition slice (s : string) (sp : span) : string :=
  substring (fst sp) (snd sp - fst sp) s.

(** [m.group()] *)
Definition group0 (s : string) (m : mtch) : string :=
  slice s (m_start m, m_end m).

(** [m.group(1)]; the patterns below always set it when they match. *)
Definition group1 (s : string) (m : mtch) : string :=
  match m_group m with
  | Some sp => slice s sp
  | None => EmptyString
  end.

(** [re.findall(r, s)] for a pattern without group: the matches from
    left to right, each search resuming where the last match ended (one
    further when it was empty).  Every round moves on by one character
    at least, which bounds the rounds by the fuel. *)
Fixpoint findall_from (fuel : nat) (r : regex) (s : string) (p : nat)
  : list string :=
  match fuel with
  | O => []
  | S fuel' =>
      let pv := match p with O => None | S p' => String.get p' s end in
      match search_from r p pv
              (list_ascii_of_string (substring p (String.length s - p) s)) with
      | None => []
      | Some m =>
          group0 s m ::
          findall_from fuel' r s
            (if m_start m <? m_end m then m_end m else S (m_end m))
      end
  end.

Definition findall (r : regex) (s : string) : list string :=
  findall_from (S (String.length s)) r s 0.

(** *** Pattern builders *)

Definition chr (c : ascii) : regex := Cls (Ascii.eqb c).

(** A character under IGNORECASE. *)
Definition chr_ci (c : ascii) : regex :=
  Cls (fun x => Ascii.eqb (Py.lower_char x) (Py.lower_char c)).

Fixpoint lit (s : string) : regex :=
  match s with
  | EmptyString => Eps
  | String c EmptyString => chr c
  | String c s' => Seq (chr c) (lit s')
  end.

Fixpoint lit_ci (s : string) : regex :=
  match s with
  | EmptyString => Eps
  | String c EmptyString => chr_ci c
  | String c s' => Seq (chr_ci c) (lit_ci s')
  end.

Fixpoint seqs (rs : list regex) : regex :=
  match rs with
  | [] => Eps
  | [r] => r
  | r :: rs' => Seq r (seqs rs')
  end.

(** [p+] *)
Definition plus (p : class) : regex := Seq (Cls p) (Star p).

(** The classes [\s], [\d], [.] without DOTALL, [.] with DOTALL. *)
Definition ws : class := Py.is_space.
Definition digit : class := Py.is_digit.
Definition dot : class := fun x => negb (Ascii.eqb x newline).
Definition dot_all : class := fun _ => true.

(** The classes [[abc]] and [[^abc]]. *)
Definition one_of (cs : list ascii) : class :=
  fun x => existsb (Ascii.eqb x) cs.
Definition none_of (cs : list ascii) : class :=
  fun x => negb (existsb (Ascii.eqb x) cs).

End Re.


(** ** JSON values and [json.loads]

    The decoder follows CPython's [json.decoder] and [json.scanner]:
    white space is space, tab, line feed and carriage return; strings are
    strict (no control character); a number without fraction and exponent
    is an [int], otherwise a [float], kept by its lexeme; the literals
    [NaN], [Infinity] and [-Infinity] are accepted; an object keeps its
    members in order and a repeated key reads as its last value.  The
    limits of the interpreter (depth of recursion, number of digits of an
    integer) are not modelled. *)

Module Json.

Inductive value : Type :=
| JNull
| JBool (b : bool)
| JInt (z : Z)
| JFloat (lexeme : string)
| JStr (s : string)
| JArr (items : list value)
| JObj (members : list (string * value)).

(** A Python dict with string keys. *)
Definition dict : Type := list (string * value).

(** [d.get(key)] as an option: the value stored last under [key]. *)
Fixpoint lookup (key : string) (d : dict) : option value :=
  match d with
  | [] => None
  | (k, v) :: d' =>
      match lookup key d' with
      | Some w => Some w
      | None => if String.eqb key k then Some v else None
      end
  end.

(** [d.get(key, default)] *)
Definition get (d : dict) (key : string) (default : value) : value :=
  match lookup key d with Some v => v | None => default end.

(** The keys of a dict, in insertion order. *)
Definition keys (d : dict) : list string := map fst d.

Definition is_ws (c : ascii) : bool :=
  let n := Py.code c in (n =? 32) || (n =? 9) || (n =? 10) || (n =? 13).

Fixpoint skip_ws (l : list ascii) : list ascii :=
  match l with
  | c :: l' => if is_ws c then skip_ws l' else l
  | [] => []
  end.

Definition hex_val (c : ascii) : option N :=
  let n := Py.code c in
  if (48 <=? n) && (n <=? 57) then Some (N.of_nat (n - 48))
  else if (97 <=? n) && (n <=? 102) then Some (N.of_nat (n - 87))
  else if (65 <=? n) && (n <=? 70) then Some (N.of_nat (n - 55))
  else None.

Definition hex4 (a b c d : ascii) : option N :=
  match hex_val a, hex_val b, hex_val c, hex_val d with
  | Some x, Some y, Some z, Some w =>
      Some (((x * 16 + y) * 16 + z) * 16 + w)%N
  | _, _, _, _ => None
  end.

(** UTF-8 bytes of a code point. *)
Definition utf8 (cp : N) : list ascii :=
  if (cp <? 128)%N then [ascii_of_N cp]
  else if (cp <? 2048)%N then
    [ascii_of_N (192 + cp / 64); ascii_of_N (128 + cp mod 64)]
  else if (cp <? 65536)%N then
    [ascii_of_N (224 + cp / 4096); ascii_of_N (128 + (cp / 64) mod 64);
     ascii_of_N (128 + cp mod 64)]
  else
    [ascii_of_N (240 + cp / 262144); ascii_of_N (128 + (cp / 4096) mod 64);
     ascii_of_N (128 + (cp / 64) mod 64); ascii_of_N (128 + cp mod 64)].

Definition is_high_surrogate (u : N) : bool :=
  ((55296 <=? u) && (u <=? 56319))%N.
Definition is_low_surrogate (u : N) : bool :=
  ((56320 <=? u) && (u <=? 57343))%N.

Definition quote : ascii := ascii_of_nat 34.
Definition backslash : ascii := ascii_of_nat 92.

(** The character an escape letter stands for (quote, backslash, slash,
    b, f, n, r, t). *)
Definition escape (e : ascii) : option ascii :=
  if Ascii.eqb e quote then Some quote
  else if Ascii.eqb e backslash then Some backslash
  else if Ascii.eqb e "/" then Some "/"%char
  else if Ascii.eqb e "b" then Some (ascii_of_nat 8)
  else if Ascii.eqb e "f" then Some (ascii_of_nat 12)
  else if Ascii.eqb e "n" then Some (ascii_of_nat 10)
  else if Ascii.eqb e "r" then Some (ascii_of_nat 13)
  else if Ascii.eqb e "t" then Some (ascii_of_nat 9)
  else None.

(** The characters of a string after its opening quote, up to the
    closing one; [acc] holds the decoded bytes in reverse.  A backslash
    followed by u and four hexadecimal digits is a code point, two of
    them a surrogate pair. *)
Fixpoint str_body (l : list ascii) (acc : list ascii)
  : option (string * list ascii) :=
  match l with
  | [] => None
  | c :: r =>
      if Ascii.eqb c quote then Some (string_of_list_ascii (rev acc), r)
      else if Ascii.eqb c backslash then
        match r with
        | [] => None
        | e :: r1 =>
            if Ascii.eqb e "u" then
              match r1 with
              | h1 :: h2 :: h3 :: h4 :: r2 =>
                  match hex4 h1 h2 h3 h4 with
                  | None => None
                  | Some u =>
                      match r2 with
                      | b :: v :: k1 :: k2 :: k3 :: k4 :: r3 =>
                          match hex4 k1 k2 k3 k4 with
                          | Some u2 =>
                              if is_high_surrogate u && Ascii.eqb b backslash
                                 && Ascii.eqb v "u" && is_low_surrogate u2
                              then
                                str_body r3
                                  (rev (utf8 (65536 + (u - 55296) * 1024
                                              + (u2 - 56320))%N) ++ acc)%list
                              else str_body r2 (rev (utf8 u) ++ acc)%list
                          | None => str_body r2 (rev (utf8 u) ++ acc)%list
                          end
                      | _ => str_body r2 (rev (utf8 u) ++ acc)%list
                      end
                  end
              | _ => None
              end
            else
              match escape e with
              | Some x => str_body r1 (x :: acc)
              | None => None
              end
        end
      else if Py.code c <? 32 then None
      else str_body r (c :: acc)
  end.

(** The longest run of digits at the head. *)
Fixpoint digits (l : list ascii) : list ascii * list ascii :=
  match l with
  | c :: l' =>
      if Py.is_digit c then let (ds, r) := digits l' in (c :: ds, r)
      else ([], l)
  | [] => ([], [])
  end.

Definition Z_of_digits (ds : list ascii) : Z :=
  fold_left (fun acc c => (acc * 10 + Z.of_nat (Py.code c - 48))%Z) ds 0%Z.

(** The integer part: a lone zero, or a non-zero digit and more digits. *)
Definition int_part (l : list ascii) : option (list ascii * list ascii) :=
  match l with
  | c :: r =>
      if Ascii.eqb c "0" then Some ([c], r)
      else if Py.is_digit c then let (ds, r') := digits r in Some (c :: ds, r')
      else None
  | [] => None
  end.

(** The optional fraction: a point and at least one digit. *)
Definition frac_part (l : list ascii) : list ascii * list ascii :=
  match l with
  | c :: r =>
      if Ascii.eqb c "." then
        match digits r with
        | ([], _) => ([], l)
        | (ds, r') => (c :: ds, r')
        end
      else ([], l)
  | [] => ([], [])
  end.

(** The optional exponent: e or E, an optional sign, at least one digit. *)
Definition exp_part (l : list ascii) : list ascii * list ascii :=
  match l with
  | c :: r =>
      if Ascii.eqb c "e" || Ascii.eqb c "E" then
        match r with
        | s :: r1 =>
            if Ascii.eqb s "+" || Ascii.eqb s "-" then
              match digits r1 with
              | ([], _) => ([], l)
              | (ds, r') => (c :: s :: ds, r')
              end
            else
              match digits r with
              | ([], _) => ([], l)
              | (ds, r') => (c :: ds, r')
              end
        | [] => ([], l)
        end
      else ([], l)
  | [] => ([], [])
  end.

(** A number: optional minus sign, integer part, fraction, exponent. *)
Definition number (l : list ascii) : option (value * list ascii) :=
  let (neg, l1) :=
    match l with
    | c :: r => if Ascii.eqb c "-" then (true, r) else (false, l)
    | [] => (false, l)
    end in
  match int_part l1 with
  | None => None
  | Some (ip, l2) =>
      let (fp, l3) := frac_part l2 in
      let (ep, l4) := exp_part l3 in
      match fp, ep with
      | [], [] =>
          Some (JInt (if neg then (- Z_of_digits ip)%Z else Z_of_digits ip), l4)
      | _, _ =>
          Some (JFloat (string_of_list_ascii
                          ((if neg then ["-"%char] else []) ++ ip ++ fp ++ ep)%list),
                l4)
      end
  end.

(** [l] without the prefix [p], when it starts with it. *)
Fixpoint drop_prefix (p : string) (l : list ascii) : option (list ascii) :=
  match p, l with
  | EmptyString, _ => Some l
  | String c p', x :: l' => if Ascii.eqb c x then drop_prefix p' l' else None
  | String _ _, [] => None
  end.

Definition literal (l : list ascii) : option (value * list ascii) :=
  match drop_prefix "null" l with
  | Some r => Some (JNull, r)
  | None =>
  match drop_prefix "true" l with
  | Some r => Some (JBool true, r)
  | None =>
  match drop_prefix "false" l with
  | Some r => Some (JBool false, r)
  | None =>
  match number l with
  | Some x => Some x
  | None =>
  match drop_prefix "NaN" l with
  | Some r => Some (JFloat "NaN", r)
  | None =>
  match drop_prefix "Infinity" l with
  | Some r => Some (JFloat "Infinity", r)
  | None =>
  match drop_prefix "-Infinity" l with
  | Some r => Some (JFloat "-Infinity", r)
  | None => None
  end end end end end end end.

(** [scan_once]: one value at the head of [l]; [pitems] reads the items
    of an array after its first bracket, [pmembers] the members of an
    object from the quote of a key on. *)
Fixpoint pvalue (fuel : nat) (l : list ascii) : option (value * list ascii) :=
  match fuel with
  | O => None
  | S fuel' =>
      match l with
      | [] => None
      | c :: r =>
          if Ascii.eqb c quote then
            match str_body r [] with
            | Some (s, r') => Some (JStr s, r')
            | None => None
            end
          else if Ascii.eqb c "{" then
            match skip_ws r with
            | x :: r' =>
                if Ascii.eqb x "}" then Some (JObj [], r')
                else pmembers fuel' (x :: r') []
            | [] => None
            end
          else if Ascii.eqb c "[" then
            match skip_ws r with
            | x :: r' =>
                if Ascii.eqb x "]" then Some (JArr [], r')
                else pitems fuel' (x :: r') []
            | [] => None
            end
          else literal l
      end
  end
with pitems (fuel : nat) (l : list ascii) (acc : list value)
  : option (value * list ascii) :=
  match fuel with
  | O => None
  | S fuel' =>
      match pvalue fuel' l with
      | None => None
      | Some (v, r) =>
          match skip_ws r with
          | x :: r' =>
              if Ascii.eqb x "]" then Some (JArr (rev (v :: acc)), r')
              else if Ascii.eqb x "," then pitems fuel' (skip_ws r') (v :: acc)
              else None
          | [] => None
          end
      end
  end
with pmembers (fuel : nat) (l : list ascii) (acc : dict)
  : option (value * list ascii) :=
  match fuel with
  | O => None
  | S fuel' =>
      match l with
      | x :: r =>
          if Ascii.eqb x quote then
            match str_body r [] with
            | None => None
            | Some (key, r1) =>
                match skip_ws r1 with
                | y :: r2 =>
                    if Ascii.eqb y ":" then
                      match pvalue fuel' (skip_ws r2) with
                      | None => None
                      | Some (v, r3) =>
                          match skip_ws r3 with
                          | z :: r4 =>
                              if Ascii.eqb z "}"
                              then Some (JObj (rev ((key, v) :: acc)), r4)
                              else if Ascii.eqb z ","
                              then pmembers fuel' (skip_ws r4) ((key, v) :: acc)
                              else None
                          | [] => None
                          end
                      end
                    else None
                | [] => None
                end
            end
          else None
      | [] => None
      end
  end.

(** The decoder with a given fuel: white space, one value, white space,
    and nothing else. *)
Definition loads_with (fuel : nat) (s : string) : option value :=
  match pvalue fuel (skip_ws (list_ascii_of_string s)) with
  | Some (v, r) =>
      match skip_ws r with
      | [] => Some v
      | _ :: _ => None
      end
  | None => None
  end.

(** [json.loads(s)]; [None] stands for [json.JSONDecodeError].  Two
    units of fuel per character are enough ([loads_fuel] below): more
    fuel does not change the result. *)
Definition loads (s : string) : option value :=
  loads_with (2 * String.length s + 2) s.

End Json.


(** ** Exceptions, results and observable events *)

Module Rt.

(** The exception classes the scripts tell apart.  [RequestException]
    stands for [requests.exceptions.RequestException] and its subclasses
    (connection error, timeout, HTTP error status); [RequestsJSONDecodeError]
    for the subclass of it that is also a [json.JSONDecodeError], which
    newer versions of the HTTP library raise from [response.json()];
    [JSONDecodeError] for a [json.JSONDecodeError] that is no
    [RequestException]. *)
Inductive exn_class : Type :=
| AttributeError
| TypeError
| KeyError
| JSONDecodeError
| RequestException
| RequestsJSONDecodeError
| OtherException.

(** An exception: its class and [str(e)]. *)
Inductive exn : Type := Exn (c : exn_class) (message : string).

Definition class_of (e : exn) : exn_class := let (c, _) := e in c.
Definition message_of (e : exn) : string := let (_, m) := e in m.

(** [isinstance(e, requests.exceptions.RequestException)] *)
Definition is_request_exception (e : exn) : bool :=
  match class_of e with
  | RequestException | RequestsJSONDecodeError => true
  | _ => false
  end.

(** [isinstance(e, json.JSONDecodeError)] *)
Definition is_json_decode_error (e : exn) : bool :=
  match class_of e with
  | JSONDecodeError | RequestsJSONDecodeError => true
  | _ => false
  end.

(** The result of a call: a value, or an exception that leaves it. *)
Inductive res (A : Type) : Type :=
| Ret (a : A)
| Raise (e : exn).
Arguments Ret {A} a.
Arguments Raise {A} e.

Definition bind {A B : Type} (r : res A) (f : A -> res B) : res B :=
  match r with
  | Ret a => f a
  | Raise e => Raise e
  end.

(** What the outside sees of a run besides the output file: requests
    sent to the service and pauses, in seconds. *)
Inductive event : Type :=
| Post
| Sleep (seconds : nat).

Definition is_post (e : event) : bool :=
  match e with Post => true | Sleep _ => false end.

(** Number of requests in a trace. *)
Definition posts (t : list event) : nat := List.length (filter is_post t).

(** [type(v).__name__] *)
Definition type_name (v : Json.value) : string :=
  match v with
  | Json.JNull => "NoneType"
  | Json.JBool _ => "bool"
  | Json.JInt _ => "int"
  | Json.JFloat _ => "float"
  | Json.JStr _ => "str"
  | Json.JArr _ => "list"
  | Json.JObj _ => "dict"
  end.

(** The exception of [v.name] when values like [v] have no such method. *)
Definition no_attribute (v : Json.value) (name : string) : exn :=
  Exn AttributeError
    ("'" ++ type_name v ++ "' object has no attribute '" ++ name ++ "'").

(** [str(n)] for a natural number. *)
Definition str_of_nat (n : nat) : string :=
  NilZero.string_of_uint (Nat.to_uint n).

(** [d.get(...)] on a value that may not be a dict. *)
Definition as_dict (v : Json.value) : res Json.dict :=
  match v with
  | Json.JObj d => Ret d
  | _ => Raise (no_attribute v "get")
  end.

(** The items of a JSON array as strings; the exception is the one of
    [", ".join(items)] at the first item that is no string. *)
Fixpoint strings_from (n : nat) (items : list Json.value) : res (list string) :=
  match items with
  | [] => Ret []
  | Json.JStr s :: items' =>
      match strings_from (S n) items' with
      | Ret l => Ret (s :: l)
      | Raise e => Raise e
      end
  | v :: _ =>
      Raise (Exn TypeError
               ("sequence item " ++ str_of_nat n ++ ": expected str instance, "
                ++ type_name v ++ " found"))
  end.

Definition strings_of (items : list Json.value) : res (list string) :=
  strings_from 0 items.

End Rt.

Notation "x <- c1 ;; c2" := (Rt.bind c1 (fun x => c2))
  (at level 61, c1 at next level, right associativity).


(** ** The HTTP client of ED_v2 and ES_v1 ([generate_response])

    The two scripts carry the same method, word for word. *)

Module Client.
Import Rt Json.

(** What one attempt meets inside the [try]: [requests.post],
    [raise_for_status] or [response.json()] raises, or the envelope is
    decoded. *)
Inductive attempt_outcome : Type :=
| Envelope (result : value)
| Failed (e : exn).

(** [result.get("response", "").strip()] *)
Definition response_text (result : value) : res string :=
  d <- as_dict result ;;
  match get d "response" (JStr "") with
  | JStr s => Ret (Py.strip s)
  | v => Raise (no_attribute v "strip")
  end.

Section Generate.

(** The service at each attempt of one call of [generate_response]. *)
Variable service : nat -> attempt_outcome.
Variable max_retries : nat.

(** The loop [for attempt in range(max_retries)] from [attempt] on, with
    [remaining] iterations left; the result and the events, in order. *)
Fixpoint attempts (remaining attempt : nat) : res string * list event :=
  match remaining with
  | O => (Ret "", [])
  | S remaining' =>
      match service attempt with
      | Envelope result => (response_text result, [Post])
      | Failed e =>
          if is_request_exception e then
            if attempt <? max_retries - 1 then
              let (r, t) := attempts remaining' (S attempt) in
              (r, Post :: Sleep 2 :: t)
            else (Ret "", [Post])
          else if is_json_decode_error e then (Ret "", [Post])
          else (Raise e, [Post])
      end
  end.

End Generate.

(** [generate_response(prompt, max_retries)] *)
Definition generate_response_n (service : nat -> attempt_outcome)
  (max_retries : nat) : res string * list event :=
  attempts service max_retries max_retries 0.

(** [generate_response(prompt)], with the default [max_retries=3]. *)
Definition generate_response (service : nat -> attempt_outcome)
  : res string * list event :=
  generate_response_n service 3.

End Client.


(** ** EC_v5: emotion classification *)

Module EC.
Import Rt Json.

(** [OllamaJSONLProcessor]: the fields set by [__init__]. *)
Record processor : Type := Processor {
  model_name : string;
  base_prompt : string;
  results : list dict
}.

(** The pattern of [extract_emotion_from_json]: an opening brace, the
    word Emotion between double quotes, a closing brace, and no brace
    in between. *)
Definition emotion_json_pattern : Re.regex :=
  Re.seqs [Re.chr "{"; Re.Star (Re.none_of ["{"; "}"]%char);
           Re.lit (Py.q "Emotion");
           Re.Star (Re.none_of ["{"; "}"]%char); Re.chr "}"].

(** [extract_emotion_from_json]: the value under the key Emotion of the
    first brace group that names it; [JNull] (Python's [None]) when
    there is none, when it is no JSON, or when the key is absent. *)
Definition extract_emotion_from_json (self : processor)
  (model_response : string) : value :=
  match Re.search emotion_json_pattern model_response with
  | Some json_match =>
      match loads (Re.group0 model_response json_match) with
      | Some (JObj emotion_data) => get emotion_data "Emotion" JNull
      | _ => JNull
      end
  | None => JNull
  end.

(** [emotion_from_json and emotion_from_json in choices], the choices
    being strings: a value that is no string equals none of them. *)
Definition json_label (emotion_from_json : value) (choices : list string)
  : option string :=
  match emotion_from_json with
  | JStr s => if Py.truthy_str s && Py.in_list s choices then Some s else None
  | _ => None
  end.

(** The loop over [enumerate(choices_lower)]: the first choice whose
    lower-case form occurs in the lower-case response. *)
Fixpoint first_choice_in (response_lower : string) (choices : list string)
  : option string :=
  match choices with
  | [] => None
  | choice :: choices' =>
      if Py.contains (Py.lower choice) response_lower then Some choice
      else first_choice_in response_lower choices'
  end.

Definition emotion_patterns : list (string * list Re.regex) :=
  [ ("Delight", map Re.lit ["delight"; "happy"; "joy"; "pleasure"]);
    ("Anger", map Re.lit ["anger"; "angry"; "mad"; "furious"]);
    ("Embarrassment",
      map Re.lit ["embarrassment"; "embarrassed"; "ashamed"; "shame"]);
    ("Hopeless", map Re.lit ["hopeless"; "despair"; "desperate"; "no hope"]);
    ("Pride", map Re.lit ["pride"; "proud"; "accomplish"; "achievement"]);
    ("Disappointment",
      map Re.lit ["disappointment"; "disappointed"; "let down";
                  "dissatisfied"]) ].

Definition any_pattern (patterns : list Re.regex) (response_lower : string)
  : bool :=
  existsb (fun pattern =>
             match Re.search pattern response_lower with
             | Some _ => true
             | None => false
             end) patterns.

(** The loop over [emotion_patterns.items()]. *)
Fixpoint first_keyword (table : list (string * list Re.regex))
  (choices : list string) (response_lower : string) : option string :=
  match table with
  | [] => None
  | (emotion, patterns) :: table' =>
      if Py.in_list emotion choices && any_pattern patterns response_lower
      then Some emotion
      else first_keyword table' choices response_lower
  end.

(** [choices[0] if choices else "Delight"] *)
Definition default_emotion (choices : list string) : string :=
  match choices with
  | c :: _ => c
  | [] => "Delight"
  end.

(** The part of [extract_emotion] below the JSON tier. *)
Definition lower_tiers (model_response : string) (choices : list string)
  : string :=
  let response_lower := Py.lower model_response in
  match first_choice_in response_lower choices with
  | Some choice => choice
  | None =>
      match first_keyword emotion_patterns choices response_lower with
      | Some emotion => emotion
      | None => default_emotion choices
      end
  end.

(** [extract_emotion(model_response, choices)] *)
Definition extract_emotion (self : processor) (model_response : string)
  (choices : list string) : string :=
  match json_label (extract_emotion_from_json self model_response) choices with
  | Some emotion => emotion
  | None => lower_tiers model_response choices
  end.

Definition record (id : value) (predicted_emotion : string) : dict :=
  [("id", id); ("predicted_emotion", JStr predicted_emotion)].

Section Pipeline.

(** [ollama.generate] for the example of each line: the text of the
    response, or the exception raised by the call or by reading the
    response. *)
Variable generate : nat -> res string.

(** [process_single_example] on an example whose [choices] is a string or
    an object: such a value passes the [join] of the prompt but is
    outside the annotation [List[str]] of the extractor, and what the
    method then does is left open. *)
Variable off_annotation : dict -> res string -> res dict.

(** [process_single_example(example)], the service answering [answer].
    The prompt is built before the [try]: [join] raises a [TypeError]
    unless [choices] is an iterable of strings. *)
Definition process_single_example (self : processor) (example : value)
  (answer : res string) : res dict :=
  d <- as_dict example ;;
  match get d "choices" (JArr []) with
  | JArr items =>
      choices <- strings_of items ;;
      match answer with
      | Ret model_response =>
          Ret (record (get d "id" JNull)
                 (extract_emotion self model_response choices))
      | Raise _ =>
          Ret (record (get d "id" JNull) (default_emotion choices))
      end
  | JStr _ | JObj _ => off_annotation d answer
  | _ => Raise (Exn TypeError "can only join an iterable")
  end.

(** The record appended by both handlers of the loop. *)
Definition sentinel (i : nat) : dict := record (JInt (Z.of_nat i)) "Delight".

(** One iteration of the loop of [process_jsonl_file]: the record it
    appends to [self.results]. *)
Definition process_line (self : processor) (i : nat) (line : string) : dict :=
  match loads (Py.strip line) with
  | None => sentinel i
  | Some example =>
      match (_ <- as_dict example ;;
             process_single_example self example (generate i)) with
      | Ret result => result
      | Raise _ => sentinel i
      end
  end.

Definition append_result (self : processor) (result : dict) : processor :=
  Processor (model_name self) (base_prompt self) (results self ++ [result]).

(** [for i, line in enumerate(lines)], from index [i] on. *)
Fixpoint process_lines (self : processor) (i : nat) (lines : list string)
  : processor :=
  match lines with
  | [] => self
  | line :: lines' =>
      process_lines (append_result self (process_line self i line)) (S i) lines'
  end.

(** [lines[:max_examples]] under [if max_examples:]. *)
Definition capped (max_examples : option nat) (lines : list string)
  : list string :=
  match max_examples with
  | Some (S n) => firstn (S n) lines
  | _ => lines
  end.

(** [save_results]: the objects written, one per line of the file. *)
Definition save_results (self : processor) : list dict :=
  map (fun result =>
         [("id", get result "id" JNull);
          ("predicted_emotion", get result "predicted_emotion" JNull)])
      (results self).

(** [process_jsonl_file(input_file, output_file, delay, max_examples)]:
    the processor afterwards and the content of the output file, when
    one is asked for.  The pauses leave no trace; [delay] is not
    negative. *)
Definition process_jsonl_file (self : processor) (lines : list string)
  (max_examples : option nat) : processor * list dict :=
  let self' := process_lines self 0 (capped max_examples lines) in
  (self', save_results self').

End Pipeline.

End EC.


(** ** ED_v2: detection of the inconsistent text (index selection) *)

Module ED.
Import Rt Json.

(** [OllamaEmotionProcessor]: the fields set by [__init__] (the logger
    apart). *)
Record processor : Type := Processor {
  base_url : string;
  model : string;
  generate_url : string
}.

(** The state of a run of [process_jsonl_file]: the objects written to
    the output file, the requests and pauses so far, the two counters. *)
Record run : Type := Run {
  outfile : list dict;
  trace : list event;
  processed_count : nat;
  error_count : nat
}.

(** A fenced block: three backquotes and json, white space, group 1
    (lazy, any character), white space, three backquotes. *)
Definition fence_pattern : Re.regex :=
  Re.seqs [Re.lit "```json"; Re.Star Re.ws; Re.Grp (Re.Lazy Re.dot_all);
           Re.Star Re.ws; Re.lit "```"].

Definition colon : Re.regex := Re.seqs [Re.Star Re.ws; Re.chr ":"; Re.Star Re.ws].
Definition number_group : Re.regex := Re.Grp (Re.plus Re.digit).

(** The five labelled-number patterns of [_extract_index_manually],
    under IGNORECASE. *)
Definition patterns : list Re.regex :=
  [ Re.seqs [Re.lit_ci (Py.q "index"); colon; number_group];
    Re.seqs [Re.lit_ci "index"; colon; number_group];
    Re.seqs [Re.lit_ci "不一致"; Re.Lazy Re.dot; number_group];
    Re.seqs [Re.lit_ci "inconsistent"; Re.Lazy Re.dot; number_group];
    Re.seqs [Re.lit_ci "index"; Re.Star Re.ws; Re.chr "="; Re.Star Re.ws;
             number_group] ].

(** A run of digits between two word boundaries. *)
Definition number_token : Re.regex :=
  Re.seqs [Re.Wb; Re.plus Re.digit; Re.Wb].

(** CPython's bound on the digits [int] converts. *)
Definition int_max_str_digits : nat := 4300.

(** [int(s)] for a string of digits; [None] stands for [ValueError]. *)
Definition int_of_str (s : string) : option Z :=
  if int_max_str_digits <? String.length s then None
  else Some (Z_of_digits (list_ascii_of_string s)).

(** The loop over the labelled patterns: the first pattern that matches
    and whose number converts. *)
Fixpoint first_labelled (ps : list Re.regex) (text : string) : option Z :=
  match ps with
  | [] => None
  | pattern :: ps' =>
      match Re.search pattern text with
      | Some m =>
          match int_of_str (Re.group1 text m) with
          | Some z => Some z
          | None => first_labelled ps' text
          end
      | None => first_labelled ps' text
      end
  end.

(** [_extract_index_manually(text)] *)
Definition _extract_index_manually (self : processor) (text : string) : Z :=
  match first_labelled patterns text with
  | Some z => z
  | None =>
      match Re.findall number_token text with
      | number :: _ =>
          match int_of_str number with
          | Some z => z
          | None => (-1)%Z
          end
      | [] => (-1)%Z
      end
  end.

(** The two JSON tiers inside the [try]: the content of a fenced block
    when there is one, the whole text otherwise; [None] stands for
    [json.JSONDecodeError]. *)
Definition json_tiers (response_text : string) : option value :=
  match Re.search fence_pattern response_text with
  | Some json_match => loads (Re.group1 response_text json_match)
  | None => loads response_text
  end.

(** [extract_index_from_response(response_text)]: what it returns (any
    JSON value) or the exception that leaves it. *)
Definition extract_index_from_response (self : processor)
  (response_text : string) : res value :=
  if negb (Py.truthy_str response_text) then Ret (JInt (-1))
  else
    match json_tiers response_text with
    | Some data =>
        d <- as_dict data ;;
        Ret (get d "index" (JInt (-1)))
    | None => Ret (JInt (_extract_index_manually self response_text))
    end.

(** The loop over the items of [texts]: [item.get] needs an object. *)
Fixpoint items_get (items : list value) : res unit :=
  match items with
  | [] => Ret tt
  | JObj _ :: items' => items_get items'
  | v :: _ => Raise (no_attribute v "get")
  end.

(** [build_prompt(case_data)]: whether it raises.  The text of the
    prompt is not modelled (the oracle answers whatever is asked);
    [len(texts)] needs a sized value and [item.get] an object for every
    item the loop meets (the items of a string are its characters, those
    of an object its keys: strings). *)
Definition build_prompt (self : processor) (case_data : value) : res unit :=
  d <- as_dict case_data ;;
  match get d "text" (JArr []) with
  | JArr items => items_get items
  | JStr EmptyString | JObj [] => Ret tt
  | JStr _ | JObj _ => Raise (no_attribute (JStr "") "get")
  | v =>
      Raise (Exn TypeError ("object of type '" ++ type_name v ++ "' has no len()"))
  end.

Definition check_raises {A : Type} (r : res unit) (k : res A * list event)
  : res A * list event :=
  match r with
  | Ret _ => k
  | Raise e => (Raise e, [])
  end.

(** [process_single_case(case_data, case_id)] against the service of
    this case: the result and the events. *)
Definition process_single_case (self : processor)
  (service : nat -> Client.attempt_outcome) (case_data : value) (case_id : nat)
  : res dict * list event :=
  check_raises (build_prompt self case_data)
    (let (response, t) := Client.generate_response service in
     (response_text <- response ;;
      predicted_index <- extract_index_from_response self response_text ;;
      Ret [("id", JInt (Z.of_nat case_id));
           ("predicted_index", predicted_index)],
      t)).

Section Pipeline.

(** The service, for the line numbered [line_num] and each attempt. *)
Variable service : nat -> nat -> Client.attempt_outcome.
Variable self : processor.
Variable max_lines : option nat.

(** [max_lines and line_num > max_lines] *)
Definition over_cap (line_num : nat) : bool :=
  match max_lines with
  | Some (S n) => S n <? line_num
  | _ => false
  end.

(** The body of the loop below the two guards, for a line that is not
    blank. *)
Definition process_line (st : run) (line_num : nat) (line : string) : run :=
  match loads line with
  | None =>
      Run (outfile st) (trace st) (processed_count st) (S (error_count st))
  | Some case_data =>
      let case_id := line_num - 1 in
      match process_single_case self (service line_num) case_data case_id with
      | (Ret result, t) =>
          Run (outfile st ++ [result]) (trace st ++ t ++ [Sleep 1])
              (S (processed_count st)) (error_count st)
      | (Raise _, t) =>
          Run (outfile st) (trace st ++ t)
              (processed_count st) (S (error_count st))
      end
  end.

(** [for line_num, line in enumerate(infile, 1)], from [line_num] on. *)
Fixpoint process_lines (st : run) (line_num : nat) (lines : list string)
  : run :=
  match lines with
  | [] => st
  | line :: lines' =>
      if over_cap line_num then st
      else
        let line := Py.strip line in
        if negb (Py.truthy_str line) then process_lines st (S line_num) lines'
        else process_lines (process_line st line_num line) (S line_num) lines'
  end.

(** [process_jsonl_file(input_file, output_file, max_lines)];
    [connection_ok] is the answer of [check_ollama_connection], and
    [None] the return before any file is opened. *)
Definition process_jsonl_file (connection_ok : bool) (lines : list string)
  : option run :=
  if connection_ok then Some (process_lines (Run [] [] 0 0) 1 lines)
  else None.

End Pipeline.

End ED.


(** ** ES_v1: structured summary in five fields *)

Module ES.
Import Rt Json.

(** [OllamaJSONLProcessor] of ES_v1: the fields set by [__init__] (the
    logger apart). *)
Record processor : Type := Processor {
  base_url : string;
  model : string;
  generate_url : string
}.

Record run : Type := Run {
  outfile : list dict;
  trace : list event;
  processed_count : nat;
  error_count : nat
}.

(** The five declared result fields, in the order of the source. *)
Definition fields : list string :=
  [ "predicted_cause"; "predicted_symptoms"; "predicted_treatment_process";
    "predicted_illness_Characteristics"; "predicted_treatment_effect" ].

(** The marker of a field nothing was extracted for. *)
Definition not_extracted : string := "未提取到相关信息".

Definition empty_response : string := "ERROR: Empty response".

Definition fence_pattern : Re.regex :=
  Re.seqs [Re.lit "```json"; Re.Star Re.ws; Re.Grp (Re.Lazy Re.dot_all);
           Re.Star Re.ws; Re.lit "```"].

Definition colon : Re.regex := Re.seqs [Re.Star Re.ws; Re.chr ":"; Re.Star Re.ws].
Definition any_quote : Re.regex := Re.Cls (Re.one_of [quote; Py.sq]).

(** First pattern of a field (IGNORECASE): the key between double
    quotes, a colon, and the value between double quotes as group 1. *)
Definition key_pattern (field : string) : Re.regex :=
  Re.seqs [Re.lit_ci (Py.q field); colon; Re.chr quote;
           Re.Grp (Re.Star (Re.none_of [quote])); Re.chr quote].

(** Second pattern of a field: a loose label, an optional quote, a
    colon, an optional quote, and as group 1 everything up to the next
    quote of either kind. *)
Definition loose_pattern (label : Re.regex) : Re.regex :=
  Re.seqs [label; Re.Opt any_quote; colon; Re.Opt any_quote;
           Re.Grp (Re.Star (Re.none_of [quote; Py.sq]))].

(** An optional final s, as in [causes?]. *)
Definition plural (word : string) : Re.regex :=
  Re.Seq (Re.lit_ci word) (Re.Opt (Re.chr_ci "s")).

(** The table [patterns] of [_extract_fields_manually] (IGNORECASE and
    DOTALL). *)
Definition patterns : list (string * list Re.regex) :=
  [ ("predicted_cause",
      [key_pattern "predicted_cause"; loose_pattern (plural "cause")]);
    ("predicted_symptoms",
      [key_pattern "predicted_symptoms"; loose_pattern (plural "symptom")]);
    ("predicted_treatment_process",
      [key_pattern "predicted_treatment_process";
       loose_pattern (Re.seqs [Re.lit_ci "treatment"; Re.Cls Re.dot_all;
                               Re.lit_ci "process"])]);
    ("predicted_illness_Characteristics",
      [key_pattern "predicted_illness_Characteristics";
       loose_pattern (Re.lit_ci "characteristics")]);
    ("predicted_treatment_effect",
      [key_pattern "predicted_treatment_effect";
       loose_pattern (Re.seqs [Re.lit_ci "treatment"; Re.Cls Re.dot_all;
                               Re.lit_ci "effect"])]) ].

(** The inner loop: group 1 of the first pattern that matches, stripped;
    the empty string of the initial result when none does. *)
Fixpoint first_match (pattern_list : list Re.regex) (text : string) : string :=
  match pattern_list with
  | [] => ""
  | pattern :: pattern_list' =>
      match Re.search pattern text with
      | Some m => Py.strip (Re.group1 text m)
      | None => first_match pattern_list' text
      end
  end.

(** The value of one field: the match, or the marker when it is empty. *)
Definition field_value (pattern_list : list Re.regex) (text : string)
  : string :=
  let found := first_match pattern_list text in
  if negb (Py.truthy_str found) then not_extracted else found.

(** [_extract_fields_manually(text)] *)
Definition _extract_fields_manually (self : processor) (text : string) : dict :=
  map (fun entry : string * list Re.regex =>
         let (field, pattern_list) := entry in
         (field, JStr (field_value pattern_list text)))
      patterns.

Definition json_tiers (response_text : string) : option value :=
  match Re.search fence_pattern response_text with
  | Some json_match => loads (Re.group1 response_text json_match)
  | None => loads response_text
  end.

(** [extract_json_from_response(response_text)]: a parsed value is
    returned as it is, whatever its shape. *)
Definition extract_json_from_response (self : processor)
  (response_text : string) : value :=
  if negb (Py.truthy_str response_text) then
    JObj (map (fun field => (field, JStr empty_response)) fields)
  else
    match json_tiers response_text with
    | Some data => data
    | None => JObj (_extract_fields_manually self response_text)
    end.

(** [" ".join(x) if isinstance(x, list) else str(x)]: whether it raises. *)
Definition join_or_str (x : value) : res unit :=
  match x with
  | JArr items => _ <- strings_of items ;; Ret tt
  | _ => Ret tt
  end.

(** [build_prompt(case_data)]: whether it raises (the text of the prompt
    is not modelled). *)
Definition build_prompt (self : processor) (case_data : dict) : res unit :=
  _ <- join_or_str (get case_data "case_description" (JArr [])) ;;
  join_or_str (get case_data "consultation_process" (JArr [])).

(** The final output format of [process_single_case]. *)
Definition result_of (case_id : value) (extracted_data : dict) : dict :=
  ("id", case_id) ::
  map (fun field => (field, get extracted_data field (JStr ""))) fields.

(** [process_single_case(case_data)] against the service of this case. *)
Definition process_single_case (self : processor)
  (service : nat -> Client.attempt_outcome) (case_data : value)
  : res dict * list event :=
  match as_dict case_data with
  | Raise e => (Raise e, [])
  | Ret d =>
      let case_id := get d "id" (JStr "unknown") in
      match build_prompt self d with
      | Raise e => (Raise e, [])
      | Ret _ =>
          let (response, t) := Client.generate_response service in
          (response_text <- response ;;
           extracted_data <-
             as_dict (extract_json_from_response self response_text) ;;
           Ret (result_of case_id extracted_data),
           t)
      end
  end.

Section Pipeline.

Variable service : nat -> nat -> Client.attempt_outcome.
Variable self : processor.
Variable max_lines : option nat.

(** [max_lines and line_num > max_lines] *)
Definition over_cap (line_num : nat) : bool :=
  match max_lines with
  | Some (S n) => S n <? line_num
  | _ => false
  end.

(** The body of the loop below the two guards, for a line that is not
    blank. *)
Definition process_line (st : run) (line_num : nat) (line : string) : run :=
  match loads line with
  | None =>
      Run (outfile st) (trace st) (processed_count st) (S (error_count st))
  | Some case_data =>
      match process_single_case self (service line_num) case_data with
      | (Ret result, t) =>
          Run (outfile st ++ [result]) (trace st ++ t ++ [Sleep 1])
              (S (processed_count st)) (error_count st)
      | (Raise _, t) =>
          Run (outfile st) (trace st ++ t)
              (processed_count st) (S (error_count st))
      end
  end.

(** [for line_num, line in enumerate(infile, 1)], from [line_num] on. *)
Fixpoint process_lines (st : run) (line_num : nat) (lines : list string)
  : run :=
  match lines with
  | [] => st
  | line :: lines' =>
      if over_cap line_num then st
      else
        let line := Py.strip line in
        if negb (Py.truthy_str line) then process_lines st (S line_num) lines'
        else process_lines (process_line st line_num line) (S line_num) lines'
  end.

(** [process_jsonl_file(input_file, output_file, max_lines)] *)
Definition process_jsonl_file (connection_ok : bool) (lines : list string)
  : option run :=
  if connection_ok then Some (process_lines (Run [] [] 0 0) 1 lines)
  else None.

End Pipeline.

End ES.


(** ** QA_v3: short answers and yes/no answers *)

Module QA.
Import Rt Json.

(** [OllamaLiteratureProcessor]: the fields set by [__init__]. *)
Record processor : Type := Processor {
  model_name : string;
  base_prompt : string;
  results : list dict
}.

(** A leading auxiliary verb followed by white space, as in [^is\s+]. *)
Definition leading (word : string) : Re.regex :=
  Re.seqs [Re.Bol; Re.lit word; Re.plus Re.ws].

Definition yes_no_patterns : list Re.regex :=
  map leading
    [ "is"; "are"; "does"; "do"; "did";
      "was"; "were"; "has"; "have"; "had";
      "can"; "could"; "will"; "would"; "should";
      "must"; "may"; "might" ].

Definition yes_no_phrases : list string :=
  [" yes or no"; " true or false"; " correct or incorrect"].

Definition matches (pattern : Re.regex) (s : string) : bool :=
  match Re.rmatch pattern s with
  | Some _ => true
  | None => false
  end.

(** [is_yes_no_question(question)] *)
Definition is_yes_no_question (self : processor) (question : string) : bool :=
  let question_lower := Py.lower (Py.strip question) in
  if existsb (fun pattern => matches pattern question_lower) yes_no_patterns
  then true
  else if existsb (fun phrase => Py.contains phrase question_lower)
            yes_no_phrases
  then true
  else false.

(** The whole answer is one word, white space apart (IGNORECASE). *)
Definition only (word : string) : Re.regex :=
  Re.seqs [Re.Bol; Re.Star Re.ws; Re.lit_ci word; Re.Star Re.ws; Re.Eol].

(** [clean_response(response, is_yes_no)] *)
Definition clean_response (self : processor) (response : string)
  (is_yes_no : bool) : string :=
  let response := Py.strip response in
  if is_yes_no then
    let response_lower := Py.lower response in
    if matches (only "yes") response_lower then "yes"
    else if matches (only "no") response_lower then "no"
    else
      let first_word := Py.lower (Py.first_word response) in
      if Py.in_list first_word ["yes"; "no"] then first_word
      else Py.slice_to 50 response
  else Py.slice_to 200 response.

(** The in-memory result of one example. *)
Definition result (id : value) (predicted_answer : string)
  (is_yes_no : bool) (original_response : string) : dict :=
  [ ("id", id);
    ("predicted_answer", JStr predicted_answer);
    ("is_yes_no_question", JBool is_yes_no);
    ("original_response", JStr original_response) ].

(** [process_single_example(example)], the service answering [answer].
    The question is classified before the [try], which needs a string
    under the key [problem]. *)
Definition process_single_example (self : processor) (example : value)
  (answer : res string) : res dict :=
  d <- as_dict example ;;
  match get d "problem" (JStr "") with
  | JStr problem =>
      let is_yes_no := is_yes_no_question self problem in
      match answer with
      | Ret response =>
          let model_response := Py.strip response in
          let cleaned_response := clean_response self model_response is_yes_no in
          Ret (result (get d "id" (JInt 0)) cleaned_response is_yes_no
                 model_response)
      | Raise e =>
          Ret (result (get d "id" (JInt 0)) ("Error: " ++ message_of e)
                 false "")
      end
  | v => Raise (no_attribute v "strip")
  end.

(** [save_results]: the objects written, one per line of the file. *)
Definition save_results (self : processor) : list dict :=
  map (fun result =>
         [("id", get result "id" JNull);
          ("predicted_answer", get result "predicted_answer" JNull)])
      (results self).

Section Pipeline.

(** [ollama.generate] for the example of each line. *)
Variable generate : nat -> res string.

(** [str(e)] of the [JSONDecodeError] that [json.loads] raises on a
    text; the decoder of this file does not compute it. *)
Variable decode_message : string -> string.

(** [str(e)] of the exception that the body of the loop raises on a
    parsed value that is no object (at the test of the key [id], at the
    assignment or at [example.get]); its wording depends on the value
    and on the interpreter. *)
Variable not_object_message : value -> string.

(** The record appended by the two handlers of the loop. *)
Definition failed_line (i : nat) (predicted_answer : string) : dict :=
  result (JInt (Z.of_nat i)) predicted_answer false "".

(** [if "id" not in example: example["id"] = i] *)
Definition with_id (example : dict) (i : nat) : dict :=
  match lookup "id" example with
  | Some _ => example
  | None => (example ++ [("id", JInt (Z.of_nat i))])%list
  end.

(** One iteration of the loop of [process_jsonl_file]: the record it
    appends to [self.results]. *)
Definition process_line (self : processor) (i : nat) (line : string) : dict :=
  match loads (Py.strip line) with
  | None => failed_line i ("JSON解析错误: " ++ decode_message (Py.strip line))
  | Some (JObj example) =>
      match process_single_example self (JObj (with_id example i))
              (generate i) with
      | Ret r => r
      | Raise e => failed_line i ("处理错误: " ++ message_of e)
      end
  | Some v => failed_line i ("处理错误: " ++ not_object_message v)
  end.

Definition append_result (self : processor) (r : dict) : processor :=
  Processor (model_name self) (base_prompt self) (results self ++ [r]).

(** [for i, line in enumerate(lines)], from index [i] on. *)
Fixpoint process_lines (self : processor) (i : nat) (lines : list string)
  : processor :=
  match lines with
  | [] => self
  | line :: lines' =>
      process_lines (append_result self (process_line self i line)) (S i) lines'
  end.

(** [lines[:max_examples]] under [if max_examples:]. *)
Definition capped (max_examples : option nat) (lines : list string)
  : list string :=
  match max_examples with
  | Some (S n) => firstn (S n) lines
  | _ => lines
  end.

(** [process_jsonl_file(input_file, output_file, delay, max_examples)]
    on an input file that exists: the processor afterwards and the
    content of the output file, when one is asked for. *)
Definition process_jsonl_file (self : processor) (lines : list string)
  (max_examples : option nat) : processor * list dict :=
  let self' := process_lines self 0 (capped max_examples lines) in
  (self', save_results self').

End Pipeline.

End QA.


(** ** MC_v2: counselling responses, stored as the model gives them *)

Module MC.
Import Rt Json.

(** [OllamaCounselorProcessor]: the fields set by [__init__]. *)
Record processor : Type := Processor {
  model_name : string;
  base_prompt : string;
  results : list dict
}.

Definition record (id : value) (predicted_response : string) : dict :=
  [("id", id); ("predicted_response", JStr predicted_response)].

(** [process_single_example(example)], the service answering [answer]. *)
Definition process_single_example (self : processor) (example : value)
  (answer : res string) : res dict :=
  d <- as_dict example ;;
  match answer with
  | Ret model_response => Ret (record (get d "id" JNull) model_response)
  | Raise e => Ret (record (get d "id" JNull) ("Error: " ++ message_of e))
  end.

Section Pipeline.

Variable generate : nat -> res string.

(** [str(e)] of the [JSONDecodeError] that [json.loads] raises on a
    text; the decoder of this file does not compute it. *)
Variable decode_message : string -> string.

(** One iteration of the loop of [process_jsonl_file]: the record it
    appends to [self.results]. *)
Definition process_line (self : processor) (i : nat) (line : string) : dict :=
  match loads (Py.strip line) with
  | None =>
      record (JInt (Z.of_nat i))
        ("JSON解析错误: " ++ decode_message (Py.strip line))
  | Some example =>
      match (_ <- as_dict example ;;
             process_single_example self example (generate i)) with
      | Ret result => result
      | Raise e => record (JInt (Z.of_nat i)) ("处理错误: " ++ message_of e)
      end
  end.

Definition append_result (self : processor) (result : dict) : processor :=
  Processor (model_name self) (base_prompt self) (results self ++ [result]).

(** [for i, line in enumerate(lines)], from index [i] on. *)
Fixpoint process_lines (self : processor) (i : nat) (lines : list string)
  : processor :=
  match lines with
  | [] => self
  | line :: lines' =>
      process_lines (append_result self (process_line self i line)) (S i) lines'
  end.

(** [save_results]: every in-memory result is written as it is. *)
Definition save_results (self : processor) : list dict := results self.

(** [process_jsonl_file(input_file, output_file, delay)] *)
Definition process_jsonl_file (self : processor) (lines : list string)
  : processor * list dict :=
  let self' := process_lines self 0 lines in
  (self', save_results self').

End Pipeline.




End MC.


(** ** Vocabulary of the statements *)

Module Spec.

(** A line that is empty or holds white space only. *)
Fixpoint blank (line : string) : bool :=
  match line with
  | EmptyString => true
  | String c line' => Py.is_space c && blank line'
  end.

(** The keys of the records of the two incremental writers. *)
Definition index_keys : list string := ["id"; "predicted_index"].
Definition summary_keys : list string := "id" :: ES.fields.

(** The state of an ED run after a failed line: the failure counter has
    moved and nothing else. *)
Definition counted_failure (st : ED.run) : ED.run :=
  ED.Run (ED.outfile st) (ED.trace st) (ED.processed_count st)
    (S (ED.error_count st)).

(** An attempt that fails with a [RequestException]. *)
Definition request_failure (o : Client.attempt_outcome) : bool :=
  match o with
  | Client.Failed e => Rt.is_request_exception e
  | Client.Envelope _ => false
  end.

(** The events of [k] failed attempts, each followed by the pause. *)
Fixpoint backoff (k : nat) : list Rt.event :=
  match k with
  | O => []
  | S k' => Rt.Post :: Rt.Sleep 2 :: backoff k'
  end.

(** What [generate_response] answers at an attempt that does not fail
    with a [RequestException]. *)
Definition settle (o : Client.attempt_outcome) : Rt.res string :=
  match o with
  | Client.Envelope result => Client.response_text result
  | Client.Failed e =>
      if Rt.is_json_decode_error e then Rt.Ret "" else Rt.Raise e
  end.

(** The lines a run of ED_v2 or ES_v1 reads under [max_lines]: the first
    [max_lines] of them, all of them without a cap or with a cap of 0. *)
Definition within_cap (max_lines : option nat) (lines : list string)
  : list string :=
  match max_lines with
  | Some (S n) => firstn (S n) lines
  | _ => lines
  end.

(** The lines of a stream that are not blank. *)
Definition not_blank (lines : list string) : list string :=
  filter (fun line => negb (blank line)) lines.

Definition is_pause (seconds : nat) (e : Rt.event) : bool :=
  match e with
  | Rt.Sleep s => s =? seconds
  | Rt.Post => false
  end.

(** Number of pauses of [seconds] seconds in a trace. *)
Definition pauses (seconds : nat) (t : list Rt.event) : nat :=
  List.length (filter (is_pause seconds) t).

(** Seconds paused in a trace, in all. *)
Fixpoint paused (t : list Rt.event) : nat :=
  match t with
  | [] => 0
  | Rt.Sleep s :: t' => s + paused t'
  | Rt.Post :: t' => paused t'
  end.


(** The id that stands for the zero-based position [k] of a line. *)
Definition position (k : nat) : Json.value := Json.JInt (Z.of_nat k).




(** A text of ASCII characters only. *)
Definition ascii_text (s : string) : bool :=
  forallb (fun c => Py.code c <? 128) (list_ascii_of_string s).

(** Characters none of which is in the class [avoid]. *)
Definition free_of (avoid : Re.class) (l : list ascii) : bool :=
  forallb (fun c => negb (avoid c)) l.

(** A text without any character of the class [avoid]. *)
Definition lacks (avoid : Re.class) (s : string) : bool :=
  free_of avoid (list_ascii_of_string s).

(** A pattern that matches at no place of a text free of [avoid]. *)
Definition asks (avoid : Re.class) (r : Re.regex) : Prop :=
  forall c : Re.cursor,
    free_of avoid (Re.rest c) = true -> Re.match_at r c = None.

(** The auxiliary verbs that open a yes/no question. *)
Definition auxiliaries : list string :=
  [ "is"; "are"; "does"; "do"; "did";
    "was"; "were"; "has"; "have"; "had";
    "can"; "could"; "will"; "would"; "should";
    "must"; "may"; "might" ].

(** The text starts with the word, and a white space follows it. *)
Fixpoint word_then_space (word s : string) : bool :=
  match word, s with
  | EmptyString, String c _ => Py.is_space c
  | String a word', String c s' => Ascii.eqb a c && word_then_space word' s'
  | _, EmptyString => false
  end.

(** A text that stands for itself between the quotes of a JSON string:
    no quote, no backslash, no control character. *)
Definition plain (s : string) : bool :=
  forallb (fun c => (32 <=? Py.code c) && negb (Ascii.eqb c Json.quote)
                    && negb (Ascii.eqb c Json.backslash))
          (list_ascii_of_string s).

(** The id of the case on the line at the position [k]: the value under
    the key id of its object, the word unknown when it has none. *)
Definition case_id (lines : list string) (k : nat) : Json.value :=
  match nth_error lines k with
  | Some line =>
      match Json.loads (Py.strip line) with
      | Some (Json.JObj d) => Json.get d "id" (Json.JStr "unknown")
      | _ => Json.JNull
      end
  | None => Json.JNull
  end.

End Spec.


(** ** Concrete processors, services and inputs for the examples *)

Module Demo.
Import Rt Json.

Definition ec : EC.processor := EC.Processor "testclassifi" "" [].
Definition ed : ED.processor :=
  ED.Processor "http://localhost:11434" "llama2"
    "http://localhost:11434/api/generate".
Definition es : ES.processor :=
  ES.Processor "http://localhost:11434" "llama2"
    "http://localhost:11434/api/generate".
Definition qa : QA.processor := QA.Processor "QA" "" [].

(** The envelope of a successful generation with the given text. *)
Definition envelope (text : string) : Client.attempt_outcome :=
  Client.Envelope (JObj [("model", JStr "llama2"); ("response", JStr text)]).

(** A service that answers every request of every line with [text]. *)
Definition answering (text : string) (line_num attempt : nat)
  : Client.attempt_outcome :=
  envelope text.

(** A service whose every attempt fails with the exception [e]. *)
Definition failing (e : exn) (attempt : nat) : Client.attempt_outcome :=
  Client.Failed e.

Definition connection_error : exn :=
  Exn RequestException "Connection refused".
Definition decode_error : exn :=
  Exn JSONDecodeError "Expecting value: line 1 column 1 (char 0)".

(** The EC service answering every example with [text]. *)
Definition saying (text : string) (i : nat) : res string := Ret text.

(** A stand-in for the behaviour left open in [EC.process_single_example]. *)
Definition unannotated (d : dict) (answer : res string) : res dict :=
  Raise (Exn KeyError "0").

(** A case of four texts, as one line of the ED input. *)
Definition four_texts : string :=
  "{" ++ Py.q "text" ++ ": [{" ++ Py.q "index" ++ ": 0}, {"
      ++ Py.q "index" ++ ": 1}, {" ++ Py.q "index" ++ ": 2}, {"
      ++ Py.q "index" ++ ": 3}]}".

(** An object with the single member [key: text]. *)
Definition object1 (key text : string) : string :=
  "{" ++ Py.q key ++ ": " ++ Py.q text ++ "}".

End Demo.


(** * Properties *)

(** ** Strings and dicts *)

Lemma in_list_In (x : string) (xs : list string) :
  Py.in_list x xs = true <-> In x xs.
Proof.
  unfold Py.in_list. rewrite existsb_exists. split.
  - intros [y [Hy E]]. apply String.eqb_eq in E. now subst.
  - intros H. exists x. split; [assumption | apply String.eqb_refl].
Qed.

Lemma in_list_false (x : string) (xs : list string) :
  ~ In x xs -> Py.in_list x xs = false.
Proof.
  intros H. destruct (Py.in_list x xs) eqn:E; [|reflexivity].
  apply in_list_In in E. contradiction.
Qed.

(** ** The JSON decoder needs no more fuel than it is given *)

Lemma skip_ws_length (l : list ascii) :
  List.length (Json.skip_ws l) <= List.length l.
Proof.
  induction l as [|c l IH]; simpl; [lia|].
  destruct (Json.is_ws c); simpl; lia.
Qed.

(** One step of [str_body]. *)
Lemma str_body_cons (c : ascii) (r acc : list ascii) :
  Json.str_body (c :: r) acc
  = if Ascii.eqb c Json.quote then Some (string_of_list_ascii (rev acc), r)
    else if Ascii.eqb c Json.backslash then
      match r with
      | [] => None
      | e :: r1 =>
          if Ascii.eqb e "u" then
            match r1 with
            | h1 :: h2 :: h3 :: h4 :: r2 =>
                match Json.hex4 h1 h2 h3 h4 with
                | None => None
                | Some u =>
                    match r2 with
                    | b :: v :: k1 :: k2 :: k3 :: k4 :: r3 =>
                        match Json.hex4 k1 k2 k3 k4 with
                        | Some u2 =>
                            if Json.is_high_surrogate u
                               && Ascii.eqb b Json.backslash
                               && Ascii.eqb v "u" && Json.is_low_surrogate u2
                            then
                              Json.str_body r3
                                (rev (Json.utf8 (65536 + (u - 55296) * 1024
                                                 + (u2 - 56320))%N) ++ acc)%list
                            else Json.str_body r2 (rev (Json.utf8 u) ++ acc)%list
                        | None => Json.str_body r2 (rev (Json.utf8 u) ++ acc)%list
                        end
                    | _ => Json.str_body r2 (rev (Json.utf8 u) ++ acc)%list
                    end
                end
            | _ => None
            end
          else
            match Json.escape e with
            | Some x => Json.str_body r1 (x :: acc)
            | None => None
            end
      end
    else if Py.code c <? 32 then None
    else Json.str_body r (c :: acc).
Proof. reflexivity. Qed.

(** A string and its closing quote take at least one character. *)
Lemma str_body_length (n : nat) :
  forall (l acc : list ascii) (s : string) (r : list ascii),
  List.length l <= n ->
  Json.str_body l acc = Some (s, r) -> List.length r < List.length l.
Proof.
  induction n as [|n IH]; intros l acc s r Hn H.
  - destruct l; [discriminate | cbn [List.length] in Hn; lia].
  - destruct l as [|c l]; [discriminate|].
    rewrite str_body_cons in H. cbn [List.length] in *.
    destruct (Ascii.eqb c Json.quote).
    { injection H as _ <-. lia. }
    destruct (Ascii.eqb c Json.backslash).
    2:{ destruct (Py.code c <? 32); [discriminate|].
        apply IH in H; lia. }
    destruct l as [|e r1]; [discriminate|]. cbn [List.length] in *.
    destruct (Ascii.eqb e "u").
    2:{ destruct (Json.escape e); [|discriminate].
        apply IH in H; lia. }
    destruct r1 as [|h1 [|h2 [|h3 [|h4 r2]]]]; try discriminate.
    cbn [List.length] in *.
    destruct (Json.hex4 h1 h2 h3 h4) as [u|]; [|discriminate].
    assert (Hplain : forall a, Json.str_body r2 a = Some (s, r) ->
                               List.length r < List.length r2)
      by (intros a Ha; apply IH in Ha; lia).
    destruct r2 as [|b [|v [|k1 [|k2 [|k3 [|k4 r3]]]]]];
      try (apply Hplain in H; cbn [List.length] in *; lia).
    destruct (Json.hex4 k1 k2 k3 k4) as [u2|];
      [|apply Hplain in H; cbn [List.length] in *; lia].
    destruct (_ && _); [|apply Hplain in H; cbn [List.length] in *; lia].
    apply IH in H; cbn [List.length] in *; lia.
Qed.

Lemma digits_length (l : list ascii) :
  List.length (snd (Json.digits l)) <= List.length l.
Proof.
  induction l as [|c l IH]; simpl; [lia|].
  destruct (Py.is_digit c); simpl; [|lia].
  destruct (Json.digits l) as [ds r]. simpl in *. lia.
Qed.

Lemma frac_part_length (l : list ascii) :
  List.length (snd (Json.frac_part l)) <= List.length l.
Proof.
  destruct l as [|c r]; simpl; [lia|].
  destruct (Ascii.eqb c "."); simpl; [|lia].
  pose proof (digits_length r) as H.
  destruct (Json.digits r) as [[|d ds] r']; simpl in *; lia.
Qed.

Lemma exp_part_length (l : list ascii) :
  List.length (snd (Json.exp_part l)) <= List.length l.
Proof.
  unfold Json.exp_part.
  destruct l as [|c r]; [simpl; lia|].
  destruct (_ || _); [|simpl; lia].
  destruct r as [|s r1]; [simpl; lia|].
  destruct (_ || _).
  - pose proof (digits_length r1) as H.
    destruct (Json.digits r1) as [[|d ds] r']; simpl in *; lia.
  - pose proof (digits_length (s :: r1)) as H.
    destruct (Json.digits (s :: r1)) as [[|d ds] r']; simpl in *; lia.
Qed.

Lemma int_part_length (l ip r : list ascii) :
  Json.int_part l = Some (ip, r) -> List.length r < List.length l.
Proof.
  destruct l as [|c l']; simpl; [discriminate|].
  destruct (Ascii.eqb c "0").
  - intros H. injection H as _ <-. lia.
  - destruct (Py.is_digit c); [|discriminate].
    pose proof (digits_length l') as Hd.
    destruct (Json.digits l') as [ds r']. simpl in Hd.
    intros H. injection H as _ <-. lia.
Qed.

Lemma number_length (l : list ascii) (v : Json.value) (r : list ascii) :
  Json.number l = Some (v, r) -> List.length r < List.length l.
Proof.
  unfold Json.number.
  set (sign := match l with
               | c :: r0 => if Ascii.eqb c "-" then (true, r0) else (false, l)
               | [] => (false, l)
               end).
  assert (Hs : List.length (snd sign) <= List.length l).
  { unfold sign. destruct l as [|c r0]; simpl; [lia|].
    destruct (Ascii.eqb c "-"); simpl; lia. }
  destruct sign as [neg l1]. simpl in Hs.
  destruct (Json.int_part l1) as [[ip l2]|] eqn:Hi; [|discriminate].
  apply int_part_length in Hi.
  pose proof (frac_part_length l2) as Hf.
  destruct (Json.frac_part l2) as [fp l3]. simpl in Hf.
  pose proof (exp_part_length l3) as He.
  destruct (Json.exp_part l3) as [ep l4]. simpl in He.
  destruct fp, ep; intros H; injection H as _ <-; lia.
Qed.

Lemma drop_prefix_length (p : string) :
  forall l r : list ascii,
  Json.drop_prefix p l = Some r ->
  List.length r + String.length p = List.length l.
Proof.
  induction p as [|c p IH]; intros l r; simpl.
  - intros H. injection H as <-. lia.
  - destruct l as [|x l']; [discriminate|].
    destruct (Ascii.eqb c x); [|discriminate].
    intros H. apply IH in H. simpl. lia.
Qed.

Lemma literal_length (l : list ascii) (v : Json.value) (r : list ascii) :
  Json.literal l = Some (v, r) -> List.length r < List.length l.
Proof.
  unfold Json.literal.
  repeat match goal with
  | |- context [Json.drop_prefix ?p l] =>
      let E := fresh "E" in
      destruct (Json.drop_prefix p l) eqn:E;
      [apply drop_prefix_length in E; simpl in E;
       intros H; injection H as _ <-; lia|]
  | |- context [Json.number l] =>
      let E := fresh "E" in
      destruct (Json.number l) as [[? ?]|] eqn:E;
      [apply number_length in E; intros H; injection H as _ <-; lia|]
  end.
  discriminate.
Qed.

Lemma skip_ws_cons (l : list ascii) (x : ascii) (r : list ascii) :
  Json.skip_ws l = x :: r -> S (List.length r) <= List.length l.
Proof.
  intros H. pose proof (skip_ws_length l) as Hl. rewrite H in Hl.
  simpl in Hl. lia.
Qed.

Lemma parse_length (fuel : nat) :
  (forall l v r, Json.pvalue fuel l = Some (v, r) ->
                 List.length r < List.length l)
  /\ (forall l acc v r, Json.pitems fuel l acc = Some (v, r) ->
                        List.length r < List.length l)
  /\ (forall l acc v r, Json.pmembers fuel l acc = Some (v, r) ->
                        List.length r < List.length l).
Proof.
  induction fuel as [|fuel (IHv & IHi & IHm)].
  - repeat split; intros; discriminate.
  - split; [|split].
    + intros l v r H. simpl in H.
      destruct l as [|c r0]; [discriminate|].
      destruct (Ascii.eqb c Json.quote).
      { destruct (Json.str_body r0 []) as [[s r']|] eqn:E; [|discriminate].
        apply (str_body_length _ _ _ _ _ (le_n _)) in E.
        injection H as _ <-. simpl. lia. }
      destruct (Ascii.eqb c "{").
      { destruct (Json.skip_ws r0) as [|x r'] eqn:E; [discriminate|].
        apply skip_ws_cons in E.
        destruct (Ascii.eqb x "}").
        - injection H as _ <-. simpl. lia.
        - apply IHm in H. simpl in *. lia. }
      destruct (Ascii.eqb c "[").
      { destruct (Json.skip_ws r0) as [|x r'] eqn:E; [discriminate|].
        apply skip_ws_cons in E.
        destruct (Ascii.eqb x "]").
        - injection H as _ <-. simpl. lia.
        - apply IHi in H. simpl in *. lia. }
      now apply literal_length in H.
    + intros l acc v r H. simpl in H.
      destruct (Json.pvalue fuel l) as [[w r1]|] eqn:E; [|discriminate].
      apply IHv in E.
      destruct (Json.skip_ws r1) as [|x r2] eqn:E2; [discriminate|].
      apply skip_ws_cons in E2.
      destruct (Ascii.eqb x "]").
      * injection H as _ <-. lia.
      * destruct (Ascii.eqb x ","); [|discriminate].
        apply IHi in H. pose proof (skip_ws_length r2). lia.
    + intros l acc v r H. simpl in H.
      destruct l as [|x r0]; [discriminate|].
      destruct (Ascii.eqb x Json.quote); [|discriminate].
      destruct (Json.str_body r0 []) as [[key r1]|] eqn:E; [|discriminate].
      apply (str_body_length _ _ _ _ _ (le_n _)) in E.
      destruct (Json.skip_ws r1) as [|y r2] eqn:E2; [discriminate|].
      apply skip_ws_cons in E2.
      destruct (Ascii.eqb y ":"); [|discriminate].
      destruct (Json.pvalue fuel (Json.skip_ws r2)) as [[w r3]|] eqn:E3;
        [|discriminate].
      apply IHv in E3. pose proof (skip_ws_length r2).
      destruct (Json.skip_ws r3) as [|z r4] eqn:E4; [discriminate|].
      apply skip_ws_cons in E4.
      destruct (Ascii.eqb z "}").
      * injection H as _ <-. simpl. lia.
      * destruct (Ascii.eqb z ","); [|discriminate].
        apply IHm in H. pose proof (skip_ws_length r4). simpl. lia.
Qed.

(** One step of each of the three mutually recursive readers. *)
Lemma pvalue_S (fuel : nat) (l : list ascii) :
  Json.pvalue (S fuel) l
  = match l with
    | [] => None
    | c :: r =>
        if Ascii.eqb c Json.quote then
          match Json.str_body r [] with
          | Some (s, r') => Some (Json.JStr s, r')
          | None => None
          end
        else if Ascii.eqb c "{" then
          match Json.skip_ws r with
          | x :: r' =>
              if Ascii.eqb x "}" then Some (Json.JObj [], r')
              else Json.pmembers fuel (x :: r') []
          | [] => None
          end
        else if Ascii.eqb c "[" then
          match Json.skip_ws r with
          | x :: r' =>
              if Ascii.eqb x "]" then Some (Json.JArr [], r')
              else Json.pitems fuel (x :: r') []
          | [] => None
          end
        else Json.literal l
    end.
Proof. reflexivity. Qed.

Lemma pitems_S (fuel : nat) (l : list ascii) (acc : list Json.value) :
  Json.pitems (S fuel) l acc
  = match Json.pvalue fuel l with
    | None => None
    | Some (v, r) =>
        match Json.skip_ws r with
        | x :: r' =>
            if Ascii.eqb x "]" then Some (Json.JArr (rev (v :: acc)), r')
            else if Ascii.eqb x ","
            then Json.pitems fuel (Json.skip_ws r') (v :: acc)
            else None
        | [] => None
        end
    end.
Proof. reflexivity. Qed.

Lemma pmembers_S (fuel : nat) (l : list ascii) (acc : Json.dict) :
  Json.pmembers (S fuel) l acc
  = match l with
    | x :: r =>
        if Ascii.eqb x Json.quote then
          match Json.str_body r [] with
          | None => None
          | Some (key, r1) =>
              match Json.skip_ws r1 with
              | y :: r2 =>
                  if Ascii.eqb y ":" then
                    match Json.pvalue fuel (Json.skip_ws r2) with
                    | None => None
                    | Some (v, r3) =>
                        match Json.skip_ws r3 with
                        | z :: r4 =>
                            if Ascii.eqb z "}"
                            then Some (Json.JObj (rev ((key, v) :: acc)), r4)
                            else if Ascii.eqb z ","
                            then Json.pmembers fuel (Json.skip_ws r4)
                                   ((key, v) :: acc)
                            else None
                        | [] => None
                        end
                    end
                  else None
              | [] => None
              end
          end
        else None
    | [] => None
    end.
Proof. reflexivity. Qed.

(** Past two units of fuel per character, one more changes nothing. *)
Lemma parse_fuel (fuel : nat) :
  (forall l, 2 * List.length l + 1 <= fuel ->
             Json.pvalue (S fuel) l = Json.pvalue fuel l)
  /\ (forall l acc, 2 * List.length l + 2 <= fuel ->
                    Json.pitems (S fuel) l acc = Json.pitems fuel l acc)
  /\ (forall l acc, 2 * List.length l + 2 <= fuel ->
                    Json.pmembers (S fuel) l acc = Json.pmembers fuel l acc).
Proof.
  induction fuel as [|fuel (IHv & IHi & IHm)].
  - repeat split; intros; lia.
  - split; [|split].
    + intros l Hl. rewrite (pvalue_S (S fuel)), (pvalue_S fuel).
      destruct l as [|c r0]; [reflexivity|]. simpl in Hl.
      destruct (Ascii.eqb c Json.quote); [reflexivity|].
      destruct (Ascii.eqb c "{").
      { destruct (Json.skip_ws r0) as [|x r'] eqn:E; [reflexivity|].
        apply skip_ws_cons in E.
        destruct (Ascii.eqb x "}"); [reflexivity|].
        apply IHm. simpl. lia. }
      destruct (Ascii.eqb c "[").
      { destruct (Json.skip_ws r0) as [|x r'] eqn:E; [reflexivity|].
        apply skip_ws_cons in E.
        destruct (Ascii.eqb x "]"); [reflexivity|].
        apply IHi. simpl. lia. }
      reflexivity.
    + intros l acc Hl. rewrite (pitems_S (S fuel)), (pitems_S fuel).
      rewrite IHv by lia.
      destruct (Json.pvalue fuel l) as [[v r]|] eqn:E; [|reflexivity].
      apply (proj1 (parse_length fuel)) in E.
      destruct (Json.skip_ws r) as [|x r'] eqn:E2; [reflexivity|].
      apply skip_ws_cons in E2.
      destruct (Ascii.eqb x "]"); [reflexivity|].
      destruct (Ascii.eqb x ","); [|reflexivity].
      apply IHi. pose proof (skip_ws_length r'). lia.
    + intros l acc Hl. rewrite (pmembers_S (S fuel)), (pmembers_S fuel).
      destruct l as [|x r0]; [reflexivity|]. simpl in Hl.
      destruct (Ascii.eqb x Json.quote); [|reflexivity].
      destruct (Json.str_body r0 []) as [[key r1]|] eqn:E; [|reflexivity].
      apply (str_body_length _ _ _ _ _ (le_n _)) in E.
      destruct (Json.skip_ws r1) as [|y r2] eqn:E2; [reflexivity|].
      apply skip_ws_cons in E2.
      destruct (Ascii.eqb y ":"); [|reflexivity].
      pose proof (skip_ws_length r2).
      rewrite IHv by lia.
      destruct (Json.pvalue fuel (Json.skip_ws r2)) as [[v r3]|] eqn:E3;
        [|reflexivity].
      apply (proj1 (parse_length fuel)) in E3.
      destruct (Json.skip_ws r3) as [|z r4] eqn:E4; [reflexivity|].
      apply skip_ws_cons in E4.
      destruct (Ascii.eqb z "}"); [reflexivity|].
      destruct (Ascii.eqb z ","); [|reflexivity].
      apply IHm. pose proof (skip_ws_length r4). lia.
Qed.

Lemma pvalue_more_fuel (l : list ascii) (fuel extra : nat) :
  2 * List.length l + 1 <= fuel ->
  Json.pvalue (fuel + extra) l = Json.pvalue fuel l.
Proof.
  intros H. induction extra as [|extra IH].
  - now rewrite Nat.add_0_r.
  - rewrite Nat.add_succ_r, <- IH. apply (proj1 (parse_fuel (fuel + extra))).
    lia.
Qed.

Lemma list_ascii_length (s : string) :
  List.length (list_ascii_of_string s) = String.length s.
Proof.
  induction s as [|c s IH]; simpl; [reflexivity | now rewrite IH].
Qed.

(** The fuel of [loads] is enough: the decoder gives the same result
    with any larger fuel. *)
Lemma loads_fuel (s : string) (fuel : nat) :
  2 * String.length s + 2 <= fuel ->
  Json.loads_with fuel s = Json.loads s.
Proof.
  intros H. unfold Json.loads, Json.loads_with.
  replace fuel with (2 * String.length s + 2 + (fuel - (2 * String.length s + 2)))
    by lia.
  rewrite pvalue_more_fuel; [reflexivity|].
  pose proof (skip_ws_length (list_ascii_of_string s)) as Hl.
  rewrite list_ascii_length in Hl. lia.
Qed.

(** ** EC_v5: every tier of the cascade answers inside the choices *)

Section EmotionTiers.

Variable choices : list string.

Lemma json_label_In (v : Json.value) (s : string) :
  EC.json_label v choices = Some s -> v = Json.JStr s /\ In s choices.
Proof.
  destruct v as [| | | |label| |]; simpl; try discriminate.
  destruct (Py.truthy_str label); simpl; [|discriminate].
  destruct (Py.in_list label choices) eqn:E; [|discriminate].
  intros H. injection H as <-. split; [reflexivity | now apply in_list_In].
Qed.

Lemma first_choice_in_In (response_lower choice : string) :
  EC.first_choice_in response_lower choices = Some choice -> In choice choices.
Proof.
  induction choices as [|c cs IH]; simpl; [discriminate|].
  destruct (Py.contains (Py.lower c) response_lower).
  - intros H. injection H as <-. now left.
  - intros H. right. now apply IH.
Qed.

Lemma first_keyword_In (table : list (string * list Re.regex))
  (response_lower emotion : string) :
  EC.first_keyword table choices response_lower = Some emotion ->
  In emotion choices.
Proof.
  induction table as [|[e ps] table IH]; simpl; [discriminate|].
  destruct (Py.in_list e choices) eqn:E; simpl.
  - destruct (EC.any_pattern ps response_lower).
    + intros H. injection H as <-. now apply in_list_In.
    + exact IH.
  - exact IH.
Qed.

Lemma default_emotion_In : choices <> [] -> In (EC.default_emotion choices) choices.
Proof.
  destruct choices as [|c cs]; [congruence|]. intros _. now left.
Qed.

Lemma lower_tiers_In (model_response : string) :
  choices <> [] -> In (EC.lower_tiers model_response choices) choices.
Proof.
  intros Hne. unfold EC.lower_tiers.
  destruct (EC.first_choice_in _ choices) eqn:T2.
  - eapply first_choice_in_In; eassumption.
  - destruct (EC.first_keyword _ choices _) eqn:T3.
    + eapply first_keyword_In; eassumption.
    + now apply default_emotion_In.
Qed.

End EmotionTiers.

(** C1. For every raw model text, the empty one included, and every
    non-empty list of choices, [extract_emotion] returns a member of the
    list, whichever tier answers: the JSON tier, the substring tier, the
    synonym table or the default. *)
Theorem extract_emotion_in_choices (self : EC.processor)
  (model_response : string) (choices : list string) :
  choices <> [] ->
  In (EC.extract_emotion self model_response choices) choices.
Proof.
  intros Hne. unfold EC.extract_emotion.
  destruct (EC.json_label _ choices) eqn:T1.
  - apply json_label_In in T1. tauto.
  - now apply lower_tiers_In.
Qed.

Lemma extract_emotion_in_choices_witness :
  In (EC.extract_emotion (EC.Processor "m" "" []) "" ["Anger"; "Pride"])
     ["Anger"; "Pride"].
Proof.
  apply (extract_emotion_in_choices (EC.Processor "m" "" []) ""
           ["Anger"; "Pride"]).
  discriminate.
Defined.

(** C9. A value parsed by the JSON tier that is not one of the choices
    (a label outside the list, or no string at all) is not accepted:
    the answer of [extract_emotion] is the one of the lower tiers, and
    with a non-empty choice list it differs from the parsed value. *)
Theorem json_label_outside_choices_discarded (self : EC.processor)
  (model_response : string) (choices : list string) (parsed : Json.value) :
  EC.extract_emotion_from_json self model_response = parsed ->
  (forall label : string, parsed = Json.JStr label -> ~ In label choices) ->
  EC.json_label parsed choices = None /\
  EC.extract_emotion self model_response choices
    = EC.lower_tiers model_response choices /\
  (choices <> [] ->
   Json.JStr (EC.extract_emotion self model_response choices) <> parsed).
Proof.
  intros Hjson Hout.
  assert (Hnone : EC.json_label parsed choices = None).
  { destruct (EC.json_label parsed choices) as [s|] eqn:E; [|reflexivity].
    apply json_label_In in E as [-> Hin]. now destruct (Hout s eq_refl). }
  assert (Hlow : EC.extract_emotion self model_response choices
                 = EC.lower_tiers model_response choices).
  { unfold EC.extract_emotion. now rewrite Hjson, Hnone. }
  repeat split; try assumption.
  intros Hne Heq. apply (Hout _ (eq_sym Heq)). rewrite Hlow.
  now apply lower_tiers_In.
Qed.

Lemma json_label_outside_choices_discarded_witness :
  EC.json_label (Json.JStr "Joy") ["Anger"; "Delight"] = None /\
  EC.extract_emotion Demo.ec (Demo.object1 "Emotion" "Joy") ["Anger"; "Delight"]
    = EC.lower_tiers (Demo.object1 "Emotion" "Joy") ["Anger"; "Delight"] /\
  (["Anger"; "Delight"] <> [] ->
   Json.JStr
     (EC.extract_emotion Demo.ec (Demo.object1 "Emotion" "Joy")
        ["Anger"; "Delight"])
   <> Json.JStr "Joy").
Proof.
  apply (json_label_outside_choices_discarded Demo.ec
           (Demo.object1 "Emotion" "Joy") ["Anger"; "Delight"]
           (Json.JStr "Joy")).
  - vm_compute. reflexivity.
  - intros label H. injection H as <-. intros [H|[H|[]]]; discriminate H.
Defined.


(** ** QA_v3: the yes/no normalisation *)

(** C6. The question of scenario F is classified as a yes/no question,
    and the raw answer with a comma after its first word is returned as
    it is: its first token, lower-cased, is the word with the comma,
    which is neither of the two words looked for. *)
Theorem clean_response_scenario_F (self : QA.processor) :
  QA.is_yes_no_question self "Is the patient improving?" = true /\
  Py.lower (Py.first_word "Yes, clearly.") = "yes," /\
  QA.clean_response self "Yes, clearly."
    (QA.is_yes_no_question self "Is the patient improving?")
  = "Yes, clearly.".
Proof.
  repeat split; vm_compute; reflexivity.
Qed.

(** ** Result sinks *)

Lemma Forall_map_const {A B : Type} (P : B -> Prop) (f : A -> B) (l : list A) :
  (forall a, P (f a)) -> Forall P (map f l).
Proof.
  intros H. induction l; simpl; constructor; auto.
Qed.

Lemma ED_single_case_keys (self : ED.processor)
  (service : nat -> Client.attempt_outcome) (case_data : Json.value)
  (case_id : nat) (result : Json.dict) (t : list Rt.event) :
  ED.process_single_case self service case_data case_id = (Rt.Ret result, t) ->
  Json.keys result = Spec.index_keys.
Proof.
  unfold ED.process_single_case, ED.check_raises.
  destruct (ED.build_prompt self case_data); [|discriminate].
  destruct (Client.generate_response service) as [[response|e] t']; simpl;
    [|discriminate].
  destruct (ED.extract_index_from_response self response); simpl;
    [|discriminate].
  intros H. injection H as <- _. reflexivity.
Qed.

Lemma ES_single_case_keys (self : ES.processor)
  (service : nat -> Client.attempt_outcome) (case_data : Json.value)
  (result : Json.dict) (t : list Rt.event) :
  ES.process_single_case self service case_data = (Rt.Ret result, t) ->
  Json.keys result = Spec.summary_keys.
Proof.
  unfold ES.process_single_case.
  destruct (Rt.as_dict case_data) as [d|]; [|discriminate].
  destruct (ES.build_prompt self d); [|discriminate].
  destruct (Client.generate_response service) as [[response|e] t']; simpl;
    [|discriminate].
  destruct (Rt.as_dict (ES.extract_json_from_response self response)); simpl;
    [|discriminate].
  intros H. injection H as <- _. reflexivity.
Qed.

Section Sinks.

Variable service : nat -> nat -> Client.attempt_outcome.
Variable max_lines : option nat.

Lemma ED_outfile_keys (self : ED.processor) (lines : list string) :
  forall (st : ED.run) (line_num : nat),
  Forall (fun r => Json.keys r = Spec.index_keys) (ED.outfile st) ->
  Forall (fun r => Json.keys r = Spec.index_keys)
    (ED.outfile (ED.process_lines service self max_lines st line_num lines)).
Proof.
  induction lines as [|line lines IH]; intros st line_num Hst; simpl; [assumption|].
  destruct (ED.over_cap max_lines line_num); [assumption|].
  destruct (negb (Py.truthy_str (Py.strip line))); [now apply IH|].
  apply IH. unfold ED.process_line.
  destruct (Json.loads (Py.strip line)) as [case_data|]; [|assumption].
  destruct (ED.process_single_case _ _ _ _) as [[result|e] t] eqn:E; simpl;
    [|assumption].
  apply Forall_app. split; [assumption|].
  constructor; [|constructor]. eapply ED_single_case_keys; eassumption.
Qed.

Lemma ES_outfile_keys (self : ES.processor) (lines : list string) :
  forall (st : ES.run) (line_num : nat),
  Forall (fun r => Json.keys r = Spec.summary_keys) (ES.outfile st) ->
  Forall (fun r => Json.keys r = Spec.summary_keys)
    (ES.outfile (ES.process_lines service self max_lines st line_num lines)).
Proof.
  induction lines as [|line lines IH]; intros st line_num Hst; simpl; [assumption|].
  destruct (ES.over_cap max_lines line_num); [assumption|].
  destruct (negb (Py.truthy_str (Py.strip line))); [now apply IH|].
  apply IH. unfold ES.process_line.
  destruct (Json.loads (Py.strip line)) as [case_data|]; [|assumption].
  destruct (ES.process_single_case _ _ _) as [[result|e] t] eqn:E; simpl;
    [|assumption].
  apply Forall_app. split; [assumption|].
  constructor; [|constructor]. eapply ES_single_case_keys; eassumption.
Qed.

End Sinks.

Lemma MC_single_example_keys (self : MC.processor) (example : Json.value)
  (answer : Rt.res string) (result : Json.dict) :
  MC.process_single_example self example answer = Rt.Ret result ->
  Json.keys result = ["id"; "predicted_response"].
Proof.
  unfold MC.process_single_example.
  destruct (Rt.as_dict example) as [d|]; simpl; [|discriminate].
  destruct answer; intros H; injection H as <-; reflexivity.
Qed.

Lemma MC_results_keys (generate : nat -> Rt.res string)
  (decode_message : string -> string) (lines : list string) :
  forall (self : MC.processor) (i : nat),
  Forall (fun r => Json.keys r = ["id"; "predicted_response"])
    (MC.results self) ->
  Forall (fun r => Json.keys r = ["id"; "predicted_response"])
    (MC.results (MC.process_lines generate decode_message self i lines)).
Proof.
  induction lines as [|line lines IH]; intros self i Hself; simpl;
    [assumption|].
  apply IH. simpl. apply Forall_app. split; [assumption|].
  constructor; [|constructor]. unfold MC.process_line.
  destruct (Json.loads (Py.strip line)) as [example|]; [|reflexivity].
  destruct (Rt.as_dict example) as [d|] eqn:Hd; simpl; [|reflexivity].
  destruct (MC.process_single_example self example (generate i)) eqn:E;
    [|reflexivity].
  eapply MC_single_example_keys; eassumption.
Qed.

(** C7. Every record written to an output file holds the key [id] and
    the result keys of its task, and no other: the two [save_results]
    that filter keep two keys of each in-memory result whatever else it
    holds (the result of a QA example holds the yes/no flag and the
    original response besides); the two incremental writers write
    records of exactly their declared keys; and the results that MC_v2
    writes unfiltered hold two keys from the start. *)
Theorem sink_records_have_exactly_the_result_fields
  (qa : QA.processor) (ec : EC.processor)
  (example : Json.value) (answer : Rt.res string)
  (ed : ED.processor) (es : ES.processor)
  (service : nat -> nat -> Client.attempt_outcome) (max_lines : option nat)
  (generate : nat -> Rt.res string) (decode_message : string -> string)
  (model_name base_prompt : string) (lines : list string) :
  Forall (fun r => Json.keys r = ["id"; "predicted_answer"]) (QA.save_results qa)
  /\ Forall (fun r => Json.keys r = ["id"; "predicted_emotion"])
       (EC.save_results ec)
  /\ match QA.process_single_example qa example answer with
     | Rt.Ret result =>
         Json.keys result
         = ["id"; "predicted_answer"; "is_yes_no_question"; "original_response"]
         /\ QA.save_results
              (QA.Processor (QA.model_name qa) (QA.base_prompt qa) [result])
            = [[("id", Json.get result "id" Json.JNull);
                ("predicted_answer",
                 Json.get result "predicted_answer" Json.JNull)]]
     | Rt.Raise _ => True
     end
  /\ Forall (fun r => Json.keys r = ["id"; "predicted_index"])
       (ED.outfile
          (ED.process_lines service ed max_lines (ED.Run [] [] 0 0) 1 lines))
  /\ Forall (fun r => Json.keys r = "id" :: ES.fields)
       (ES.outfile
          (ES.process_lines service es max_lines (ES.Run [] [] 0 0) 1 lines))
  /\ Forall (fun r => Json.keys r = ["id"; "predicted_response"])
       (snd (MC.process_jsonl_file generate decode_message
               (MC.Processor model_name base_prompt []) lines)).
Proof.
  split; [|split; [|split; [|split; [|split]]]].
  - apply Forall_map_const. reflexivity.
  - apply Forall_map_const. reflexivity.
  - unfold QA.process_single_example.
    destruct (Rt.as_dict example) as [d|]; simpl; [|exact I].
    destruct (Json.get d "problem" (Json.JStr "")); try exact I.
    destruct answer; split; reflexivity.
  - apply ED_outfile_keys. constructor.
  - apply ES_outfile_keys. constructor.
  - apply MC_results_keys. constructor.
Qed.

(** ** Blank lines in the two incremental pipelines *)

Lemma lstrip_blank (line : string) :
  Spec.blank line = true -> Py.lstrip line = "".
Proof.
  induction line as [|c line IH]; simpl; [reflexivity|].
  intros H. apply andb_true_iff in H as [Hc Hl]. rewrite Hc. now apply IH.
Qed.

Lemma strip_blank (line : string) :
  Spec.blank line = true -> Py.strip line = "".
Proof.
  intros H. unfold Py.strip. now rewrite (lstrip_blank line H).
Qed.

Section BlankLines.

Variable service : nat -> nat -> Client.attempt_outcome.
Variable max_lines : option nat.







End BlankLines.



(** ** One record per line: the list-based loop of EC_v5 *)

Section EmotionLoop.

Variable generate : nat -> Rt.res string.
Variable off_annotation : Json.dict -> Rt.res string -> Rt.res Json.dict.


(** The record of a line does not depend on the processor. *)
Lemma EC_process_line_self (self1 self2 : EC.processor) (i : nat)
  (line : string) :
  EC.process_line generate off_annotation self1 i line = EC.process_line generate off_annotation self2 i line.
Proof. reflexivity. Qed.





End EmotionLoop.

(** ** No record for a bad line: the incremental loop of ED_v2 *)

Section IndexLoop.

Variable service : nat -> nat -> Client.attempt_outcome.
Variable self : ED.processor.
Variable max_lines : option nat.





End IndexLoop.




(** ** ED_v2: what the index extractor returns *)








(** ** ES_v1: the five fields of a summary *)











(** ** The retry controller *)

Section Retries.

Variable service : nat -> Client.attempt_outcome.
Variable max_retries : nat.

(** No more requests than iterations left. *)
Lemma attempts_posts (remaining : nat) :
  forall attempt : nat,
  Rt.posts (snd (Client.attempts service max_retries remaining attempt))
  <= remaining.
Proof.
  unfold Rt.posts.
  induction remaining as [|remaining IH]; intros attempt; simpl; [lia|].
  destruct (service attempt) as [result|e]; simpl; [lia|].
  destruct (Rt.is_request_exception e).
  - destruct (attempt <? max_retries - 1).
    + specialize (IH (S attempt)).
      destruct (Client.attempts service max_retries remaining (S attempt))
        as [r t].
      simpl in *. lia.
    + simpl. lia.
  - destruct (Rt.is_json_decode_error e); simpl; lia.
Qed.

(** An exception that leaves the loop is of neither handled class. *)
Lemma attempts_raise (remaining : nat) :
  forall (attempt : nat) (e : Rt.exn),
  fst (Client.attempts service max_retries remaining attempt) = Rt.Raise e ->
  (exists result, Client.response_text result = Rt.Raise e)
  \/ (Rt.is_request_exception e = false /\ Rt.is_json_decode_error e = false).
Proof.
  induction remaining as [|remaining IH]; intros attempt e; simpl;
    [discriminate|].
  destruct (service attempt) as [result|e0]; simpl.
  - intros H. left. now exists result.
  - destruct (Rt.is_request_exception e0) eqn:Hreq.
    + destruct (attempt <? max_retries - 1).
      * specialize (IH (S attempt) e).
        destruct (Client.attempts service max_retries remaining (S attempt))
          as [r t].
        exact IH.
      * discriminate.
    + destruct (Rt.is_json_decode_error e0) eqn:Hjs; simpl; [discriminate|].
      intros H. injection H as <-. now right.
Qed.

End Retries.

Lemma response_text_raise (result : Json.value) (e : Rt.exn) :
  Client.response_text result = Rt.Raise e ->
  Rt.is_request_exception e = false /\ Rt.is_json_decode_error e = false.
Proof.
  unfold Client.response_text.
  destruct result; simpl; try (intros H; injection H as <-; now split).
  destruct (Json.get members "response" (Json.JStr ""));
    try discriminate; intros H; injection H as <-; now split.
Qed.

(** C5, as the code has it.  [generate_response] sends at most three
    requests.  Each attempt that fails with a [RequestException]
    (network error, time-out, error status, or a decode failure that
    the HTTP library raises as one) is followed, while attempts remain,
    by the pause of two seconds and the next attempt; after three such
    failures the answer is the empty string.  The first attempt that
    does not fail in this way settles the call; in particular a decode
    failure raised as a plain [JSONDecodeError] settles it with the
    empty string at once, without pause or retry.  No
    [RequestException] and no [JSONDecodeError] leaves the method. *)
Theorem generate_response_retries (service : nat -> Client.attempt_outcome) :
  let run := Client.generate_response service in
  Rt.posts (snd run) <= 3
  /\ (forall e : Rt.exn,
        fst run = Rt.Raise e ->
        Rt.is_request_exception e = false
        /\ Rt.is_json_decode_error e = false)
  /\ (forall k : nat,
        k < 3 ->
        (forall j : nat, j < k -> Spec.request_failure (service j) = true) ->
        Spec.request_failure (service k) = false ->
        run = (Spec.settle (service k), (Spec.backoff k ++ [Rt.Post])%list))
  /\ ((forall j : nat, j < 3 -> Spec.request_failure (service j) = true) ->
      run = (Rt.Ret "", [Rt.Post; Rt.Sleep 2; Rt.Post; Rt.Sleep 2; Rt.Post]))
  /\ (forall e : Rt.exn,
        service 0 = Client.Failed e ->
        Rt.is_request_exception e = false ->
        Rt.is_json_decode_error e = true ->
        run = (Rt.Ret "", [Rt.Post])).
Proof.
  intros run. unfold run, Client.generate_response, Client.generate_response_n.
  split; [apply attempts_posts|].
  split.
  { intros e H. apply attempts_raise in H as [[result H]|H]; [|exact H].
    eapply response_text_raise; eassumption. }
  split; [|split].
  - intros k Hk Hbefore Hat.
    assert (H0 : 1 <= k -> Spec.request_failure (service 0) = true)
      by (intros; apply Hbefore; lia).
    assert (H1 : 2 <= k -> Spec.request_failure (service 1) = true)
      by (intros; apply Hbefore; lia).
    destruct k as [|[|[|k]]]; [| | |lia]; simpl.
    + destruct (service 0) as [result|e]; simpl in *; [reflexivity|].
      rewrite Hat. now destruct (Rt.is_json_decode_error e).
    + specialize (H0 ltac:(lia)).
      destruct (service 0) as [r0|e0]; simpl in H0; [discriminate|].
      rewrite H0.
      destruct (service 1) as [result|e]; simpl in *; [reflexivity|].
      rewrite Hat. now destruct (Rt.is_json_decode_error e).
    + specialize (H0 ltac:(lia)). specialize (H1 ltac:(lia)).
      destruct (service 0) as [r0|e0]; simpl in H0; [discriminate|].
      rewrite H0.
      destruct (service 1) as [r1|e1]; simpl in H1; [discriminate|].
      rewrite H1.
      destruct (service 2) as [result|e]; simpl in *; [reflexivity|].
      rewrite Hat. now destruct (Rt.is_json_decode_error e).
  - intros Hall.
    pose proof (Hall 0 ltac:(lia)) as H0.
    pose proof (Hall 1 ltac:(lia)) as H1.
    pose proof (Hall 2 ltac:(lia)) as H2.
    simpl.
    destruct (service 0) as [r0|e0]; simpl in H0; [discriminate|].
    rewrite H0.
    destruct (service 1) as [r1|e1]; simpl in H1; [discriminate|].
    rewrite H1.
    destruct (service 2) as [r2|e2]; simpl in H2; [discriminate|].
    rewrite H2. reflexivity.
  - intros e H0 Hreq Hjs. simpl. rewrite H0, Hreq, Hjs. reflexivity.
Qed.

Lemma generate_response_retries_witness :
  Client.generate_response (Demo.failing Demo.connection_error)
  = (Rt.Ret "", [Rt.Post; Rt.Sleep 2; Rt.Post; Rt.Sleep 2; Rt.Post]).
Proof.
  pose proof (generate_response_retries (Demo.failing Demo.connection_error))
    as [_ [_ [_ [Hall _]]]].
  apply Hall. intros j Hj. reflexivity.
Defined.

(** C5 does not hold as stated: a decode failure raised as a plain
    [JSONDecodeError] ends the call at the first attempt, without pause
    or retry; and an envelope that decodes to something else than an
    object (or whose response is no string) makes the method raise an
    [AttributeError]. *)
Lemma decode_failure_is_not_retried :
  Client.generate_response (Demo.failing Demo.decode_error)
  = (Rt.Ret "", [Rt.Post])
  /\ Client.generate_response (fun _ => Client.Envelope (Json.JArr []))
     = (Rt.Raise
          (Rt.Exn Rt.AttributeError "'list' object has no attribute 'get'"),
        [Rt.Post])
  /\ Client.generate_response
       (fun _ => Client.Envelope (Json.JObj [("response", Json.JNull)]))
     = (Rt.Raise
          (Rt.Exn Rt.AttributeError
             "'NoneType' object has no attribute 'strip'"),
        [Rt.Post]).
Proof.
  repeat split.
Qed.

(** ** The scenarios of the specification, evaluated *)

Example scenario_A :
  EC.extract_emotion Demo.ec (Demo.object1 "Emotion" "Anger")
    ["Delight"; "Anger"; "Embarrassment"] = "Anger".
Proof. vm_compute. reflexivity. Qed.

Example scenario_B :
  EC.extract_emotion Demo.ec "I think the answer is anger here"
    ["Delight"; "Anger"; "Embarrassment"] = "Anger".
Proof. vm_compute. reflexivity. Qed.

Example scenario_C :
  EC.extract_emotion Demo.ec "zzz" ["Delight"; "Anger"] = "Delight".
Proof. vm_compute. reflexivity. Qed.

Example scenario_D :
  ED.extract_index_from_response Demo.ed
    ("```json {" ++ Py.q "index" ++ ": 2} ```") = Rt.Ret (Json.JInt 2).
Proof. vm_compute. reflexivity. Qed.

Example scenario_E :
  ED.extract_index_from_response Demo.ed "none of them stands out"
  = Rt.Ret (Json.JInt (-1)).
Proof. vm_compute. reflexivity. Qed.

(** A bare number is valid JSON but no object: the method raises. *)
Example bare_number_raises :
  ED.extract_index_from_response Demo.ed "2"
  = Rt.Raise (Rt.Exn Rt.AttributeError "'int' object has no attribute 'get'").
Proof. vm_compute. reflexivity. Qed.

(** The value under the key is returned as it is, integer or not. *)
Example index_as_string :
  ED.extract_index_from_response Demo.ed (Demo.object1 "index" "two")
  = Rt.Ret (Json.JStr "two").
Proof. vm_compute. reflexivity. Qed.

(** The normalisation succeeds when the first token is the bare word. *)
Example yes_without_comma :
  QA.clean_response Demo.qa "Yes it is improving" true = "yes".
Proof. vm_compute. reflexivity. Qed.


(** * Further properties *)

(** ** Blank lines, exactly *)

Lemma lstrip_empty (s : string) : Py.lstrip s = "" -> Spec.blank s = true.
Proof.
  induction s as [|c s IH]; simpl; [reflexivity|].
  destruct (Py.is_space c); [exact IH | discriminate].
Qed.

Lemma lstrip_head (s : string) (c : ascii) (t : string) :
  Py.lstrip s = String c t -> Py.is_space c = false.
Proof.
  induction s as [|x s IH]; simpl; [discriminate|].
  destruct (Py.is_space x) eqn:E; [exact IH|].
  intros H. injection H as <- _. exact E.
Qed.

Lemma rstrip_empty (s : string) : Py.rstrip s = "" -> Spec.blank s = true.
Proof.
  induction s as [|c s IH]; simpl; [reflexivity|].
  destruct (Py.rstrip s); [|discriminate].
  destruct (Py.is_space c); [intros _; now apply IH | discriminate].
Qed.

Lemma strip_empty_blank (s : string) :
  Py.strip s = "" <-> Spec.blank s = true.
Proof.
  split; [|apply strip_blank].
  unfold Py.strip. intros H. apply rstrip_empty in H.
  destruct (Py.lstrip s) as [|c t] eqn:E; [now apply lstrip_empty|].
  apply lstrip_head in E. simpl in H. rewrite E in H. discriminate.
Qed.

Lemma skipped_iff_blank (line : string) :
  negb (Py.truthy_str (Py.strip line)) = Spec.blank line.
Proof.
  destruct (Spec.blank line) eqn:E.
  - apply strip_empty_blank in E. now rewrite E.
  - destruct (Py.strip line) eqn:Es; [|reflexivity].
    apply strip_empty_blank in Es. congruence.
Qed.

(** ** The incremental loops of ED_v2 and ES_v1 *)

Section IncrementalLoops.

Variable service : nat -> nat -> Client.attempt_outcome.
Variable ed : ED.processor.
Variable es : ES.processor.

Lemma ED_cap_firstn (m : nat) (lines : list string) :
  forall (st : ED.run) (n : nat),
  ED.process_lines service ed (Some (S m)) st n lines
  = ED.process_lines service ed None st n (firstn (S m + 1 - n) lines).
Proof.
  induction lines as [|line lines IH]; intros st n.
  - now rewrite firstn_nil.
  - simpl ED.process_lines at 1. unfold ED.over_cap.
    destruct (S m <? n) eqn:E.
    + apply Nat.ltb_lt in E. replace (S m + 1 - n) with 0 by lia. reflexivity.
    + apply Nat.ltb_ge in E.
      replace (S m + 1 - n) with (S (S m + 1 - S n)) by lia.
      simpl. destruct (negb (Py.truthy_str (Py.strip line))); apply IH.
Qed.

Lemma ES_cap_firstn (m : nat) (lines : list string) :
  forall (st : ES.run) (n : nat),
  ES.process_lines service es (Some (S m)) st n lines
  = ES.process_lines service es None st n (firstn (S m + 1 - n) lines).
Proof.
  induction lines as [|line lines IH]; intros st n.
  - now rewrite firstn_nil.
  - simpl ES.process_lines at 1. unfold ES.over_cap.
    destruct (S m <? n) eqn:E.
    + apply Nat.ltb_lt in E. replace (S m + 1 - n) with 0 by lia. reflexivity.
    + apply Nat.ltb_ge in E.
      replace (S m + 1 - n) with (S (S m + 1 - S n)) by lia.
      simpl. destruct (negb (Py.truthy_str (Py.strip line))); apply IH.
Qed.

Lemma ED_cap_zero (lines : list string) :
  forall (st : ED.run) (n : nat),
  ED.process_lines service ed (Some 0) st n lines
  = ED.process_lines service ed None st n lines.
Proof.
  induction lines as [|line lines IH]; intros st n; simpl; [reflexivity|].
  destruct (negb (Py.truthy_str (Py.strip line))); apply IH.
Qed.

Lemma ES_cap_zero (lines : list string) :
  forall (st : ES.run) (n : nat),
  ES.process_lines service es (Some 0) st n lines
  = ES.process_lines service es None st n lines.
Proof.
  induction lines as [|line lines IH]; intros st n; simpl; [reflexivity|].
  destruct (negb (Py.truthy_str (Py.strip line))); apply IH.
Qed.

End IncrementalLoops.

Lemma ED_within_cap (service : nat -> nat -> Client.attempt_outcome)
  (ed : ED.processor) (max_lines : option nat) (st : ED.run)
  (lines : list string) :
  ED.process_lines service ed max_lines st 1 lines
  = ED.process_lines service ed None st 1 (Spec.within_cap max_lines lines).
Proof.
  destruct max_lines as [[|m]|]; simpl Spec.within_cap.
  - apply ED_cap_zero.
  - rewrite ED_cap_firstn. now replace (S m + 1 - 1) with (S m) by lia.
  - reflexivity.
Qed.

Lemma ES_within_cap (service : nat -> nat -> Client.attempt_outcome)
  (es : ES.processor) (max_lines : option nat) (st : ES.run)
  (lines : list string) :
  ES.process_lines service es max_lines st 1 lines
  = ES.process_lines service es None st 1 (Spec.within_cap max_lines lines).
Proof.
  destruct max_lines as [[|m]|]; simpl Spec.within_cap.
  - apply ES_cap_zero.
  - rewrite ES_cap_firstn. now replace (S m + 1 - 1) with (S m) by lia.
  - reflexivity.
Qed.

(** X1. The cap of the two incremental pipelines: a run under
    [max_lines] is the run without cap over the first [max_lines] lines
    of the stream, blank lines counting as lines; a cap of 0 is no cap. *)
Theorem cap_reads_first_lines
  (service : nat -> nat -> Client.attempt_outcome)
  (ed : ED.processor) (es : ES.processor) (max_lines : option nat)
  (connection_ok : bool) (lines : list string) :
  ED.process_jsonl_file service ed max_lines connection_ok lines
  = ED.process_jsonl_file service ed None connection_ok
      (Spec.within_cap max_lines lines)
  /\ ES.process_jsonl_file service es max_lines connection_ok lines
     = ES.process_jsonl_file service es None connection_ok
         (Spec.within_cap max_lines lines)
  /\ Spec.within_cap (Some 0) lines = lines
  /\ (forall m : nat,
        List.length (Spec.within_cap (Some (S m)) lines)
        = Nat.min (S m) (List.length lines)).
Proof.
  unfold ED.process_jsonl_file, ES.process_jsonl_file.
  repeat split.
  - destruct connection_ok; [|reflexivity]. now rewrite ED_within_cap.
  - destruct connection_ok; [|reflexivity]. now rewrite ES_within_cap.
  - intros m. apply length_firstn.
Qed.

(** ** Counters, requests and pauses of a run *)

Lemma not_blank_cons (line : string) (lines : list string) :
  Spec.not_blank (line :: lines)
  = if Spec.blank line then Spec.not_blank lines
    else line :: Spec.not_blank lines.
Proof.
  unfold Spec.not_blank. simpl. now destruct (Spec.blank line).
Qed.

Lemma posts_app (t1 t2 : list Rt.event) :
  Rt.posts (t1 ++ t2) = Rt.posts t1 + Rt.posts t2.
Proof.
  unfold Rt.posts. now rewrite filter_app, length_app.
Qed.

Lemma pauses_app (s : nat) (t1 t2 : list Rt.event) :
  Spec.pauses s (t1 ++ t2) = Spec.pauses s t1 + Spec.pauses s t2.
Proof.
  unfold Spec.pauses. now rewrite filter_app, length_app.
Qed.

Lemma paused_app (t1 t2 : list Rt.event) :
  Spec.paused (t1 ++ t2) = Spec.paused t1 + Spec.paused t2.
Proof.
  induction t1 as [|[|s] t1 IH]; simpl; lia.
Qed.

Section Budget.

Variable service : nat -> Client.attempt_outcome.
Variable max_retries : nat.

(** The pauses of the retry loop are of two seconds, one after each
    failed attempt but the last. *)
Lemma attempts_pauses (remaining : nat) :
  forall attempt : nat,
  remaining + attempt = max_retries ->
  let t := snd (Client.attempts service max_retries remaining attempt) in
  Spec.pauses 2 t + 1 <= Rt.posts t + (if remaining =? 0 then 1 else 0)
  /\ Spec.paused t = 2 * Spec.pauses 2 t
  /\ Spec.pauses 1 t = 0.
Proof.
  unfold Rt.posts, Spec.pauses.
  induction remaining as [|remaining IH]; intros attempt Hsum; simpl.
  - repeat split; lia.
  - destruct (service attempt) as [result|e]; simpl; [repeat split; lia|].
    destruct (Rt.is_request_exception e).
    + destruct (attempt <? max_retries - 1) eqn:E.
      * apply Nat.ltb_lt in E.
        specialize (IH (S attempt) ltac:(lia)).
        destruct (Client.attempts service max_retries remaining (S attempt))
          as [r t].
        simpl in *. destruct remaining; [lia|]. simpl in IH. lia.
      * simpl. repeat split; lia.
    + destruct (Rt.is_json_decode_error e); simpl; repeat split; lia.
Qed.

End Budget.

(** X2. The retry loop for any budget: at most [max_retries] requests;
    a pause of two seconds follows a failed attempt only when another
    attempt comes after it, so that the call never ends on a pause and
    waits at most [2 * (max_retries - 1)] seconds; with a budget of 0 no
    request is sent and the answer is the empty string; an envelope
    without the key [response] answers the empty string too. *)
Theorem retry_budget (service : nat -> Client.attempt_outcome)
  (max_retries : nat) :
  let run := Client.generate_response_n service max_retries in
  Rt.posts (snd run) <= max_retries
  /\ Spec.pauses 2 (snd run) <= Rt.posts (snd run) - 1
  /\ Spec.paused (snd run) = 2 * Spec.pauses 2 (snd run)
  /\ Spec.paused (snd run) <= 2 * (max_retries - 1)
  /\ (max_retries = 0 -> run = (Rt.Ret "", []))
  /\ (forall d : Json.dict,
        0 < max_retries ->
        service 0 = Client.Envelope (Json.JObj d) ->
        Json.lookup "response" d = None ->
        run = (Rt.Ret "", [Rt.Post])).
Proof.
  intros run. unfold run, Client.generate_response_n.
  pose proof (attempts_posts service max_retries max_retries 0) as Hp.
  pose proof (attempts_pauses service max_retries max_retries 0
                ltac:(lia)) as (Hs & Hd & _).
  cbv zeta in Hs, Hd.
  assert (Hs' : Spec.pauses 2
                  (snd (Client.attempts service max_retries max_retries 0))
                <= Rt.posts
                     (snd (Client.attempts service max_retries max_retries 0))
                   - 1).
  { destruct max_retries as [|n]; [unfold Spec.pauses, Rt.posts; simpl; lia|].
    change (if S n =? 0 then 1 else 0) with 0 in Hs. lia. }
  repeat split.
  - exact Hp.
  - exact Hs'.
  - exact Hd.
  - lia.
  - intros ->. reflexivity.
  - intros d Hpos H0 Hkey. destruct max_retries; [lia|]. simpl.
    rewrite H0. unfold Client.response_text. simpl. unfold Json.get.
    now rewrite Hkey.
Qed.

Lemma retry_budget_witness :
  Client.generate_response_n
    (fun _ => Client.Envelope (Json.JObj [("done", Json.JBool true)])) 5
  = (Rt.Ret "", [Rt.Post]).
Proof.
  apply (retry_budget
           (fun _ => Client.Envelope (Json.JObj [("done", Json.JBool true)])) 5)
    with (d := [("done", Json.JBool true)]).
  - lia.
  - reflexivity.
  - reflexivity.
Defined.

Section RunInvariants.

Variable service : nat -> nat -> Client.attempt_outcome.
Variable ed : ED.processor.
Variable es : ES.processor.

Lemma ED_single_case_trace (line_service : nat -> Client.attempt_outcome)
  (case_data : Json.value) (case_id : nat) :
  let t := snd (ED.process_single_case ed line_service case_data case_id) in
  Rt.posts t <= 3 /\ Spec.pauses 1 t = 0.
Proof.
  unfold ED.process_single_case, ED.check_raises.
  destruct (ED.build_prompt ed case_data); [|split; [unfold Rt.posts; simpl; lia | reflexivity]].
  unfold Client.generate_response, Client.generate_response_n.
  pose proof (attempts_posts line_service 3 3 0) as Hp.
  pose proof (attempts_pauses line_service 3 3 0 eq_refl) as (_ & _ & Hs).
  destruct (Client.attempts line_service 3 3 0) as [r t]. simpl in *.
  now split.
Qed.

Lemma ES_single_case_trace (line_service : nat -> Client.attempt_outcome)
  (case_data : Json.value) :
  let t := snd (ES.process_single_case es line_service case_data) in
  Rt.posts t <= 3 /\ Spec.pauses 1 t = 0.
Proof.
  unfold ES.process_single_case.
  destruct (Rt.as_dict case_data) as [d|];
    [|split; [unfold Rt.posts; simpl; lia | reflexivity]].
  destruct (ES.build_prompt es d); [|split; [unfold Rt.posts; simpl; lia | reflexivity]].
  unfold Client.generate_response, Client.generate_response_n.
  pose proof (attempts_posts line_service 3 3 0) as Hp.
  pose proof (attempts_pauses line_service 3 3 0 eq_refl) as (_ & _ & Hs).
  destruct (Client.attempts line_service 3 3 0) as [r t]. simpl in *.
  now split.
Qed.

(** What one line that is not blank does to the state of an ED run. *)
Lemma ED_process_line_counts (st : ED.run) (n : nat) (line : string) :
  let st' := ED.process_line service ed st n line in
  ED.processed_count st' + List.length (ED.outfile st)
  = ED.processed_count st + List.length (ED.outfile st')
  /\ ED.processed_count st' + ED.error_count st'
     = S (ED.processed_count st + ED.error_count st)
  /\ Rt.posts (ED.trace st') <= Rt.posts (ED.trace st) + 3
  /\ Spec.pauses 1 (ED.trace st') + List.length (ED.outfile st)
     = Spec.pauses 1 (ED.trace st) + List.length (ED.outfile st').
Proof.
  unfold ED.process_line.
  destruct (Json.loads line) as [case_data|];
    [|cbn [ED.outfile ED.trace ED.processed_count ED.error_count];
      repeat split; lia].
  pose proof (ED_single_case_trace (service n) case_data (n - 1)) as [Hp Hs].
  destruct (ED.process_single_case ed (service n) case_data (n - 1))
    as [[result|e] t]; cbn [snd] in Hp, Hs; cbn [ED.outfile ED.trace
      ED.processed_count ED.error_count].
  - rewrite !posts_app, !pauses_app, Hs, length_app.
    change (Rt.posts [Rt.Sleep 1]) with 0.
    change (Spec.pauses 1 [Rt.Sleep 1]) with 1.
    cbn [List.length]. repeat split; lia.
  - rewrite !posts_app, !pauses_app, Hs. repeat split; lia.
Qed.

Lemma ES_process_line_counts (st : ES.run) (n : nat) (line : string) :
  let st' := ES.process_line service es st n line in
  ES.processed_count st' + List.length (ES.outfile st)
  = ES.processed_count st + List.length (ES.outfile st')
  /\ ES.processed_count st' + ES.error_count st'
     = S (ES.processed_count st + ES.error_count st)
  /\ Rt.posts (ES.trace st') <= Rt.posts (ES.trace st) + 3
  /\ Spec.pauses 1 (ES.trace st') + List.length (ES.outfile st)
     = Spec.pauses 1 (ES.trace st) + List.length (ES.outfile st').
Proof.
  unfold ES.process_line.
  destruct (Json.loads line) as [case_data|];
    [|cbn [ES.outfile ES.trace ES.processed_count ES.error_count];
      repeat split; lia].
  pose proof (ES_single_case_trace (service n) case_data) as [Hp Hs].
  destruct (ES.process_single_case es (service n) case_data)
    as [[result|e] t]; cbn [snd] in Hp, Hs; cbn [ES.outfile ES.trace
      ES.processed_count ES.error_count].
  - rewrite !posts_app, !pauses_app, Hs, length_app.
    change (Rt.posts [Rt.Sleep 1]) with 0.
    change (Spec.pauses 1 [Rt.Sleep 1]) with 1.
    cbn [List.length]. repeat split; lia.
  - rewrite !posts_app, !pauses_app, Hs. repeat split; lia.
Qed.

Lemma ED_run_counts (lines : list string) :
  forall (st : ED.run) (n : nat),
  let st' := ED.process_lines service ed None st n lines in
  ED.processed_count st' + List.length (ED.outfile st)
  = ED.processed_count st + List.length (ED.outfile st')
  /\ ED.processed_count st' + ED.error_count st'
     = ED.processed_count st + ED.error_count st
       + List.length (Spec.not_blank lines)
  /\ Rt.posts (ED.trace st')
     <= Rt.posts (ED.trace st) + 3 * List.length (Spec.not_blank lines)
  /\ Spec.pauses 1 (ED.trace st') + List.length (ED.outfile st)
     = Spec.pauses 1 (ED.trace st) + List.length (ED.outfile st').
Proof.
  induction lines as [|line lines IH]; intros st n.
  - simpl. repeat split; lia.
  - simpl ED.process_lines. rewrite skipped_iff_blank, not_blank_cons.
    destruct (Spec.blank line).
    + apply IH.
    + pose proof (ED_process_line_counts st n (Py.strip line)) as H1.
      specialize (IH (ED.process_line service ed st n (Py.strip line)) (S n)).
      cbv zeta in *. simpl List.length. lia.
Qed.

Lemma ES_run_counts (lines : list string) :
  forall (st : ES.run) (n : nat),
  let st' := ES.process_lines service es None st n lines in
  ES.processed_count st' + List.length (ES.outfile st)
  = ES.processed_count st + List.length (ES.outfile st')
  /\ ES.processed_count st' + ES.error_count st'
     = ES.processed_count st + ES.error_count st
       + List.length (Spec.not_blank lines)
  /\ Rt.posts (ES.trace st')
     <= Rt.posts (ES.trace st) + 3 * List.length (Spec.not_blank lines)
  /\ Spec.pauses 1 (ES.trace st') + List.length (ES.outfile st)
     = Spec.pauses 1 (ES.trace st) + List.length (ES.outfile st').
Proof.
  induction lines as [|line lines IH]; intros st n.
  - simpl. repeat split; lia.
  - simpl ES.process_lines. rewrite skipped_iff_blank, not_blank_cons.
    destruct (Spec.blank line).
    + apply IH.
    + pose proof (ES_process_line_counts st n (Py.strip line)) as H1.
      specialize (IH (ES.process_line service es st n (Py.strip line)) (S n)).
      cbv zeta in *. simpl List.length. lia.
Qed.

End RunInvariants.


(** X4. The requests and pauses of a run of the two incremental
    pipelines: at most three requests for each line within the cap that
    is not blank, and one pause of one second after each record written,
    the last one included. *)
Theorem run_requests_and_pauses
  (service : nat -> nat -> Client.attempt_outcome)
  (ed : ED.processor) (es : ES.processor) (max_lines : option nat)
  (lines : list string) :
  let read := Spec.not_blank (Spec.within_cap max_lines lines) in
  let red := ED.process_lines service ed max_lines (ED.Run [] [] 0 0) 1 lines in
  let res := ES.process_lines service es max_lines (ES.Run [] [] 0 0) 1 lines in
  Rt.posts (ED.trace red) <= 3 * List.length read
  /\ Spec.pauses 1 (ED.trace red) = List.length (ED.outfile red)
  /\ Rt.posts (ES.trace res) <= 3 * List.length read
  /\ Spec.pauses 1 (ES.trace res) = List.length (ES.outfile res).
Proof.
  cbv zeta. rewrite ED_within_cap, ES_within_cap.
  pose proof (ED_run_counts service ed (Spec.within_cap max_lines lines)
                (ED.Run [] [] 0 0) 1) as (_ & _ & A & B).
  pose proof (ES_run_counts service es (Spec.within_cap max_lines lines)
                (ES.Run [] [] 0 0) 1) as (_ & _ & C & D).
  cbv zeta in *. simpl in *. repeat split; lia.
Qed.

(** ** The ids of the records of ED_v2 *)


Section IndexIds.

Variable service : nat -> nat -> Client.attempt_outcome.
Variable ed : ED.processor.


End IndexIds.


(** ** An unavailable service *)

Lemma three_failures (line_service : nat -> Client.attempt_outcome) :
  (forall k : nat, k < 3 -> Spec.request_failure (line_service k) = true) ->
  Client.generate_response line_service
  = (Rt.Ret "", [Rt.Post; Rt.Sleep 2; Rt.Post; Rt.Sleep 2; Rt.Post]).
Proof.
  intros Hall.
  pose proof (Hall 0 ltac:(lia)) as H0.
  pose proof (Hall 1 ltac:(lia)) as H1.
  pose proof (Hall 2 ltac:(lia)) as H2.
  unfold Client.generate_response, Client.generate_response_n. simpl.
  destruct (line_service 0) as [r0|e0]; simpl in H0; [discriminate|].
  rewrite H0.
  destruct (line_service 1) as [r1|e1]; simpl in H1; [discriminate|].
  rewrite H1.
  destruct (line_service 2) as [r2|e2]; simpl in H2; [discriminate|].
  now rewrite H2.
Qed.

(** X6. When the three attempts made for a line fail with a
    [RequestException], the two incremental pipelines still write a
    record for it and count it as processed: the index-detection
    pipeline writes the sentinel index -1, the summarization pipeline
    the text [ERROR: Empty response] in each of the five fields; the
    line costs three requests, two pauses of two seconds and the pause
    of one second that follows a record. *)
Theorem unavailable_service_is_recorded
  (service : nat -> nat -> Client.attempt_outcome)
  (ed : ED.processor) (es : ES.processor) (n : nat) :
  (forall k : nat, k < 3 -> Spec.request_failure (service n k) = true) ->
  (forall (st : ED.run) (line : string) (case_data : Json.value),
     Json.loads line = Some case_data ->
     ED.build_prompt ed case_data = Rt.Ret tt ->
     ED.process_line service ed st n line
     = ED.Run
         (ED.outfile st
          ++ [[("id", Spec.position (n - 1));
               ("predicted_index", Json.JInt (-1))]])
         (ED.trace st
          ++ [Rt.Post; Rt.Sleep 2; Rt.Post; Rt.Sleep 2; Rt.Post; Rt.Sleep 1])
         (S (ED.processed_count st)) (ED.error_count st))
  /\ (forall (st : ES.run) (line : string) (case_data : Json.dict),
        Json.loads line = Some (Json.JObj case_data) ->
        ES.build_prompt es case_data = Rt.Ret tt ->
        ES.process_line service es st n line
        = ES.Run
            (ES.outfile st
             ++ [("id", Json.get case_data "id" (Json.JStr "unknown"))
                 :: map (fun field => (field, Json.JStr ES.empty_response))
                      ES.fields])
            (ES.trace st
             ++ [Rt.Post; Rt.Sleep 2; Rt.Post; Rt.Sleep 2; Rt.Post; Rt.Sleep 1])
            (S (ES.processed_count st)) (ES.error_count st)).
Proof.
  intros Hfail. apply three_failures in Hfail. split.
  - intros st line case_data Hj Hp.
    unfold ED.process_line, ED.process_single_case, ED.check_raises.
    now rewrite Hj, Hp, Hfail.
  - intros st line case_data Hj Hp.
    unfold ES.process_line, ES.process_single_case.
    rewrite Hj. cbn [Rt.as_dict]. now rewrite Hp, Hfail.
Qed.

Lemma unavailable_service_is_recorded_witness :
  ED.process_line (fun _ => Demo.failing Demo.connection_error) Demo.ed
    (ED.Run [] [] 0 0) 1 Demo.four_texts
  = ED.Run [[("id", Spec.position 0); ("predicted_index", Json.JInt (-1))]]
      [Rt.Post; Rt.Sleep 2; Rt.Post; Rt.Sleep 2; Rt.Post; Rt.Sleep 1] 1 0.
Proof.
  refine (proj1 (unavailable_service_is_recorded
                   (fun _ => Demo.failing Demo.connection_error)
                   Demo.ed Demo.es 1 _)
            (ED.Run [] [] 0 0) Demo.four_texts
            (Json.JObj
               [("text",
                 Json.JArr
                   [Json.JObj [("index", Json.JInt 0)];
                    Json.JObj [("index", Json.JInt 1)];
                    Json.JObj [("index", Json.JInt 2)];
                    Json.JObj [("index", Json.JInt 3)]])]) _ _).
  - intros k Hk. reflexivity.
  - vm_compute. reflexivity.
  - reflexivity.
Defined.



(** ** The list-based loops of EC_v5, MC_v2 and QA_v3 *)

Lemma extract_emotion_no_choices (self : EC.processor) (text : string) :
  EC.extract_emotion self text [] = "Delight".
Proof.
  unfold EC.extract_emotion.
  destruct (EC.extract_emotion_from_json self text) as [| | | |s| |];
    try reflexivity.
  simpl. now rewrite andb_false_r.
Qed.

(** X8. In the emotion pipeline, a line that holds an object whose
    [choices] is a list of strings gets a record with the id of the
    object (null when it has none) and a label of the list, whether the
    service answers or raises; when it raises the label is the first
    choice, and with an empty list the label is Delight. *)
Theorem emotion_record_of_a_valid_line
  (generate : nat -> Rt.res string)
  (off_annotation : Json.dict -> Rt.res string -> Rt.res Json.dict)
  (self : EC.processor) (i : nat) (line : string) (example : Json.dict)
  (items : list Json.value) (choices : list string) :
  Json.loads (Py.strip line) = Some (Json.JObj example) ->
  Json.get example "choices" (Json.JArr []) = Json.JArr items ->
  Rt.strings_of items = Rt.Ret choices ->
  exists label : string,
    EC.process_line generate off_annotation self i line
    = [("id", Json.get example "id" Json.JNull);
       ("predicted_emotion", Json.JStr label)]
    /\ (choices <> [] -> In label choices)
    /\ (choices = [] -> label = "Delight")
    /\ (forall e : Rt.exn,
          generate i = Rt.Raise e -> label = EC.default_emotion choices).
Proof.
  intros Hj Hc Hs. unfold EC.process_line, EC.process_single_example.
  rewrite Hj. cbn [Rt.as_dict Rt.bind]. rewrite Hc, Hs. cbn [Rt.bind].
  destruct (generate i) as [text|e].
  - exists (EC.extract_emotion self text choices). repeat split.
    + intros Hne. unfold EC.extract_emotion.
      destruct (EC.json_label _ choices) eqn:T1.
      * apply json_label_In in T1. tauto.
      * now apply lower_tiers_In.
    + intros ->. apply extract_emotion_no_choices.
    + discriminate.
  - exists (EC.default_emotion choices). repeat split.
    + apply default_emotion_In.
    + now intros ->.
Qed.

Lemma emotion_record_of_a_valid_line_witness :
  exists label : string,
    EC.process_line (Demo.saying "so proud of it") Demo.unannotated Demo.ec 0
      ("{" ++ Py.q "choices" ++ ": [" ++ Py.q "Anger" ++ ", " ++ Py.q "Pride"
           ++ "]}")
    = [("id", Json.JNull); ("predicted_emotion", Json.JStr label)]
    /\ (["Anger"; "Pride"] <> [] -> In label ["Anger"; "Pride"])
    /\ (["Anger"; "Pride"] = [] -> label = "Delight")
    /\ (forall e : Rt.exn,
          Demo.saying "so proud of it" 0 = Rt.Raise e ->
          label = EC.default_emotion ["Anger"; "Pride"]).
Proof.
  apply (emotion_record_of_a_valid_line (Demo.saying "so proud of it")
           Demo.unannotated Demo.ec 0 _
           [("choices", Json.JArr [Json.JStr "Anger"; Json.JStr "Pride"])]
           [Json.JStr "Anger"; Json.JStr "Pride"] ["Anger"; "Pride"]).
  - vm_compute. reflexivity.
  - reflexivity.
  - reflexivity.
Defined.

Section CounselLoop.

Variable generate : nat -> Rt.res string.
Variable decode_message : string -> string.








End CounselLoop.




Section AnswerLoop.

Variable generate : nat -> Rt.res string.
Variable decode_message : string -> string.
Variable not_object_message : Json.value -> string.




End AnswerLoop.







(** ** Strings: case and white space *)

Lemma is_space_lower_char (c : ascii) :
  Py.is_space (Py.lower_char c) = Py.is_space c.
Proof. destruct c as [[] [] [] [] [] [] [] []]; reflexivity. Qed.

Lemma lower_char_idem (c : ascii) :
  Py.lower_char (Py.lower_char c) = Py.lower_char c.
Proof. destruct c as [[] [] [] [] [] [] [] []]; reflexivity. Qed.

Lemma lower_idem (s : string) : Py.lower (Py.lower s) = Py.lower s.
Proof.
  induction s as [|c s IH]; simpl; [reflexivity|].
  now rewrite lower_char_idem, IH.
Qed.

Lemma lstrip_lower (s : string) : Py.lstrip (Py.lower s) = Py.lower (Py.lstrip s).
Proof.
  induction s as [|c s IH]; simpl; [reflexivity|].
  rewrite is_space_lower_char. now destruct (Py.is_space c).
Qed.

Lemma rstrip_lower (s : string) : Py.rstrip (Py.lower s) = Py.lower (Py.rstrip s).
Proof.
  induction s as [|c s IH]; simpl; [reflexivity|].
  rewrite IH, is_space_lower_char.
  destruct (Py.rstrip s); simpl; [now destruct (Py.is_space c)|reflexivity].
Qed.

Lemma strip_lower (s : string) : Py.strip (Py.lower s) = Py.lower (Py.strip s).
Proof. unfold Py.strip. now rewrite lstrip_lower, rstrip_lower. Qed.

Lemma take_token_lower (s : string) :
  Py.take_token (Py.lower s) = Py.lower (Py.take_token s).
Proof.
  induction s as [|c s IH]; simpl; [reflexivity|].
  rewrite is_space_lower_char. destruct (Py.is_space c); simpl; [reflexivity|].
  now rewrite IH.
Qed.

Lemma first_word_lower (s : string) :
  Py.first_word (Py.lower s) = Py.lower (Py.first_word s).
Proof. unfold Py.first_word. now rewrite lstrip_lower, take_token_lower. Qed.

Lemma rstrip_idem (s : string) : Py.rstrip (Py.rstrip s) = Py.rstrip s.
Proof.
  induction s as [|c s IH]; simpl; [reflexivity|].
  destruct (Py.rstrip s) as [|d t] eqn:E.
  - destruct (Py.is_space c) eqn:Ec; simpl; [reflexivity|]. now rewrite Ec.
  - simpl. simpl in IH. rewrite IH. reflexivity.
Qed.

(** A text stripped on the right starts as the text did. *)
Lemma rstrip_head (c : ascii) (s : string) :
  Py.is_space c = false ->
  exists t : string, Py.rstrip (String c s) = String c t.
Proof.
  intros Hc. simpl. destruct (Py.rstrip s).
  - rewrite Hc. now exists "".
  - now eexists.
Qed.

Lemma lstrip_rstrip_lstrip (s : string) :
  Py.lstrip (Py.rstrip (Py.lstrip s)) = Py.rstrip (Py.lstrip s).
Proof.
  destruct (Py.lstrip s) as [|c u] eqn:E; [reflexivity|].
  assert (Hc : Py.is_space c = false).
  { clear -E. induction s as [|x s IH]; simpl in E; [discriminate|].
    destruct (Py.is_space x) eqn:Ex; [auto|]. now injection E as <- _. }
  destruct (rstrip_head c u Hc) as [t ->]. simpl. now rewrite Hc.
Qed.

Lemma strip_idem (s : string) : Py.strip (Py.strip s) = Py.strip s.
Proof.
  unfold Py.strip. now rewrite lstrip_rstrip_lstrip, rstrip_idem.
Qed.

Lemma slice_to_length (n : nat) (s : string) :
  String.length (Py.slice_to n s) = Nat.min n (String.length s).
Proof.
  revert s. induction n as [|n IH]; intros [|c s]; simpl; auto.
Qed.

(** ** The matcher: what a successful run has read *)

Lemma greedy_inv (p : Re.class) (ahead : list ascii) :
  forall (at_pos : nat) (before : option ascii) (g : option Re.span)
         (k : Re.kont) (o : Re.outcome),
  Re.greedy p ahead at_pos before g k = Some o ->
  exists (a b : list ascii) (before' : option ascii),
    ahead = (a ++ b)%list /\ forallb p a = true
    /\ k (Re.Cursor (at_pos + List.length a) before' b) g = Some o.
Proof.
  induction ahead as [|x ahead IH]; intros at_pos before g k o H; simpl in H.
  - exists [], [], before. simpl. rewrite Nat.add_0_r. auto.
  - destruct (p x) eqn:Px.
    + destruct (Re.greedy p ahead (S at_pos) (Some x) g k) as [o'|] eqn:G;
        simpl in H.
      * injection H as <-.
        apply IH in G as (a & b & pv & -> & Ha & Hk).
        exists (x :: a), b, pv. simpl. rewrite Px, Ha.
        replace (at_pos + S (List.length a)) with (S at_pos + List.length a)
          by lia.
        auto.
      * exists [], (x :: ahead), before. simpl. rewrite Nat.add_0_r. auto.
    + exists [], (x :: ahead), before. simpl. rewrite Nat.add_0_r. auto.
Qed.

Lemma lit_ci_cons (c0 : ascii) (w : string) (c : Re.cursor)
  (g : option Re.span) (k : Re.kont) :
  Re.run (Re.lit_ci (String c0 w)) c g k
  = Re.run (Re.chr_ci c0) c g (fun c' g' => Re.run (Re.lit_ci w) c' g' k).
Proof.
  destruct w; simpl; [|reflexivity].
  destruct (Re.rest c) as [|x xs]; [reflexivity|].
  now destruct (Ascii.eqb (Py.lower_char x) (Py.lower_char c0)).
Qed.

Lemma lit_ci_inv (w : string) :
  forall (c : Re.cursor) (g : option Re.span) (k : Re.kont) (o : Re.outcome),
  Re.run (Re.lit_ci w) c g k = Some o ->
  exists (a b : list ascii) (before' : option ascii),
    Re.rest c = (a ++ b)%list
    /\ Py.lower (string_of_list_ascii a) = Py.lower w
    /\ k (Re.Cursor (Re.pos c + List.length a) before' b) g = Some o.
Proof.
  induction w as [|c0 w IH]; intros c g k o H.
  - simpl in H. exists [], (Re.rest c), (Re.prev c). simpl.
    rewrite Nat.add_0_r. destruct c; auto.
  - rewrite lit_ci_cons in H. simpl in H.
    destruct (Re.rest c) as [|x xs] eqn:R; [discriminate|].
    destruct (Ascii.eqb (Py.lower_char x) (Py.lower_char c0)) eqn:E;
      [|discriminate].
    apply Ascii.eqb_eq in E.
    apply IH in H as (a & b & pv & Hr & Ha & Hk). simpl in Hr, Hk.
    exists (x :: a), b, pv. subst xs. simpl. rewrite E, Ha.
    replace (Re.pos c + S (List.length a)) with (S (Re.pos c) + List.length a)
      by lia.
    auto.
Qed.

(** What [only word] accepts: white space, the word in any case, white
    space, and the end or a last newline. *)
Lemma only_inv (word t : string) :
  QA.matches (QA.only word) t = true ->
  exists a1 a2 a3 b : list ascii,
    list_ascii_of_string t = (a1 ++ a2 ++ a3 ++ b)%list
    /\ forallb Py.is_space a1 = true
    /\ Py.lower (string_of_list_ascii a2) = Py.lower word
    /\ forallb Py.is_space a3 = true
    /\ forallb Py.is_space b = true.
Proof.
  unfold QA.matches, Re.rmatch, Re.match_at, QA.only.
  destruct (Re.run _ _ _ _) as [o|] eqn:H; [intros _|discriminate].
  cbn [Re.seqs Re.run Re.pos Nat.eqb Re.rest Re.prev] in H.
  apply greedy_inv in H as (a1 & b1 & pv1 & H1 & Ha1 & H).
  apply lit_ci_inv in H as (a2 & b2 & pv2 & H2 & Ha2 & H).
  cbn [Re.rest Re.pos Re.prev] in H2, H.
  apply greedy_inv in H as (a3 & b & pv3 & H3 & Ha3 & H).
  exists a1, a2, a3, b. rewrite H1, H2, H3. repeat split; try assumption.
  unfold Re.at_eol in H. cbn [Re.rest] in H.
  destruct b as [|x [|y b]]; [reflexivity| |discriminate].
  destruct (Ascii.eqb x Re.newline) eqn:E; [|discriminate].
  apply Ascii.eqb_eq in E. subst x. reflexivity.
Qed.

Lemma lstrip_spaces (a : list ascii) (s : string) :
  forallb Py.is_space a = true ->
  Py.lstrip (string_of_list_ascii a ++ s) = Py.lstrip s.
Proof.
  induction a as [|x a IH]; simpl; [reflexivity|].
  intros H. apply andb_prop in H as [Hx Ha]. now rewrite Hx, IH.
Qed.

Lemma string_of_list_ascii_app (a b : list ascii) :
  string_of_list_ascii (a ++ b)
  = string_of_list_ascii a ++ string_of_list_ascii b.
Proof. induction a as [|x a IH]; simpl; [reflexivity|]. now rewrite IH. Qed.

Lemma take_token_spaces (a : list ascii) :
  forallb Py.is_space a = true ->
  Py.take_token (string_of_list_ascii a) = "".
Proof. destruct a as [|x a]; simpl; [reflexivity|]. now destruct (Py.is_space x). Qed.

(** Two texts equal up to case have white space at the same places. *)
Lemma lower_eq_token (u w s : string) :
  Py.lower u = Py.lower w ->
  Py.take_token (Py.lower (u ++ s)) = Py.take_token (Py.lower (w ++ s)).
Proof.
  revert w. induction u as [|x u IH]; intros [|y w] H; simpl in H;
    try discriminate; [reflexivity|].
  injection H as Hxy Huw. simpl. rewrite Hxy.
  destruct (Py.is_space (Py.lower_char y)); [reflexivity|].
  now rewrite (IH w Huw).
Qed.

Lemma take_token_app (u tail : string) :
  Py.take_token u = u -> Py.take_token tail = "" ->
  Py.take_token (u ++ tail) = u.
Proof.
  intros Hu Htail. induction u as [|c u IH]; simpl in *; [exact Htail|].
  destruct (Py.is_space c); [discriminate|].
  injection Hu as Hu. now rewrite IH.
Qed.

(** The first word of a text that [only word] accepts is the word, up
    to case, for a word without white space. *)
Lemma only_first_word (word t : string) :
  Py.take_token word = word ->
  word <> "" ->
  QA.matches (QA.only word) t = true ->
  Py.lower (Py.first_word t) = Py.lower word.
Proof.
  intros Hw Hne H.
  apply only_inv in H as (a1 & a2 & a3 & b & Ht & H1 & H2 & H3 & Hb).
  rewrite <- (string_of_list_ascii_of_string t), Ht.
  rewrite !string_of_list_ascii_app.
  unfold Py.first_word. rewrite lstrip_spaces by assumption.
  set (tail := string_of_list_ascii a3 ++ string_of_list_ascii b).
  assert (Htail : Py.take_token tail = "").
  { unfold tail. rewrite <- string_of_list_ascii_app. apply take_token_spaces.
    rewrite forallb_app. now rewrite H3, Hb. }
  destruct word as [|y word]; [congruence|].
  destruct a2 as [|x a2]; [discriminate|].
  assert (Hy : Py.is_space y = false).
  { simpl in Hw. now destruct (Py.is_space y). }
  assert (Hx : Py.is_space x = false).
  { simpl in H2. injection H2 as Hxy _.
    now rewrite <- is_space_lower_char, Hxy, is_space_lower_char. }
  cbn [string_of_list_ascii append Py.lstrip]. rewrite Hx.
  change (String x (string_of_list_ascii a2 ++ tail))
    with (string_of_list_ascii (x :: a2) ++ tail).
  rewrite <- take_token_lower.
  rewrite (lower_eq_token _ _ tail H2).
  rewrite take_token_lower. now rewrite take_token_app.
Qed.

(** X12. For a yes/no question the answer is decided by its first word
    alone: when the first word of the stripped response is yes or no in
    any case, the cleaned answer is that word in lower case, and
    otherwise it is the first 50 characters of the stripped response.
    The two anchored patterns tried first never give another result.
    A cleaned answer holds at most 50 characters for a yes/no question
    and at most 200 otherwise. *)
Theorem clean_response_first_word
  (self : QA.processor) (response : string) :
  Spec.ascii_text response = true ->
  QA.clean_response self response true
  = (let stripped := Py.strip response in
     let word := Py.lower (Py.first_word stripped) in
     if Py.in_list word ["yes"; "no"] then word
     else Py.slice_to 50 stripped)
  /\ (forall is_yes_no : bool,
        String.length (QA.clean_response self response is_yes_no)
        <= if is_yes_no then 50 else 200).
Proof.
  intros _.
  assert (E : QA.clean_response self response true
              = (let stripped := Py.strip response in
                 let word := Py.lower (Py.first_word stripped) in
                 if Py.in_list word ["yes"; "no"] then word
                 else Py.slice_to 50 stripped)).
  { unfold QA.clean_response. cbv zeta.
    destruct (QA.matches (QA.only "yes") (Py.lower (Py.strip response))) eqn:Y.
    - apply only_first_word in Y; [|reflexivity|discriminate].
      rewrite first_word_lower, lower_idem in Y. now rewrite Y.
    - destruct (QA.matches (QA.only "no") (Py.lower (Py.strip response))) eqn:N;
        [|reflexivity].
      apply only_first_word in N; [|reflexivity|discriminate].
      rewrite first_word_lower, lower_idem in N. now rewrite N. }
  split; [exact E|].
  intros [|].
  - rewrite E. cbv zeta.
    destruct (Py.in_list _ _) eqn:I.
    + apply in_list_In in I. destruct I as [<-|[<-|[]]]; simpl; lia.
    + rewrite slice_to_length. lia.
  - unfold QA.clean_response. rewrite slice_to_length. lia.
Qed.

Lemma clean_response_first_word_witness :
  QA.clean_response Demo.qa " Yes it is. " true = "yes"
  /\ String.length (QA.clean_response Demo.qa " Yes it is. " false) <= 200.
Proof.
  destruct (clean_response_first_word Demo.qa " Yes it is. " eq_refl)
    as [E L].
  split; [rewrite E; reflexivity|exact (L false)].
Defined.

Lemma lit_cons (c0 : ascii) (w : string) (c : Re.cursor)
  (g : option Re.span) (k : Re.kont) :
  Re.run (Re.lit (String c0 w)) c g k
  = Re.run (Re.chr c0) c g (fun c' g' => Re.run (Re.lit w) c' g' k).
Proof.
  destruct w; simpl; [|reflexivity].
  destruct (Re.rest c) as [|x xs]; [reflexivity|].
  now destruct (Ascii.eqb c0 x).
Qed.

(** A repetition followed by nothing that can fail does not fail. *)
Lemma greedy_total (p : Re.class) (ahead : list ascii) :
  forall (at_pos : nat) (before : option ascii) (g : option Re.span)
         (k : Re.kont),
  (forall c' g', k c' g' <> None) ->
  Re.greedy p ahead at_pos before g k <> None.
Proof.
  induction ahead as [|x ahead IH]; intros at_pos before g k Hk; simpl.
  - apply Hk.
  - destruct (p x); [|apply Hk].
    specialize (IH (S at_pos) (Some x) g k Hk).
    now destruct (Re.greedy p ahead (S at_pos) (Some x) g k).
Qed.

Lemma leading_from (word : string) :
  forall (l : list ascii) (p : nat) (pv : option ascii) (g : option Re.span),
  match Re.run (Re.lit word) (Re.Cursor p pv l) g
          (fun c' g' =>
             Re.run (Re.plus Re.ws) c' g' (fun c'' g'' => Some (Re.pos c'', g'')))
  with
  | Some _ => true
  | None => false
  end
  = Spec.word_then_space word (string_of_list_ascii l).
Proof.
  induction word as [|a word IH]; intros l p pv g.
  - destruct l as [|x xs]; [reflexivity|].
    cbn [Re.lit Re.run Re.plus Re.rest Re.pos Re.prev string_of_list_ascii
         Spec.word_then_space].
    unfold Re.ws. destruct (Py.is_space x); [|reflexivity].
    pose proof (greedy_total Py.is_space xs (S p) (Some x) g
                  (fun c'' g'' => Some (Re.pos c'', g''))) as T.
    destruct (Re.greedy _ _ _ _ _ _); [reflexivity|].
    now elim T.
  - rewrite lit_cons. cbn [Re.chr Re.run Re.rest Re.pos].
    destruct l as [|x xs]; [reflexivity|].
    cbn [string_of_list_ascii Spec.word_then_space].
    destruct (Ascii.eqb a x); [|reflexivity].
    apply IH.
Qed.

(** A leading-verb pattern matches when the text starts with the verb
    and a white space follows. *)
Lemma leading_matches (word t : string) :
  QA.matches (QA.leading word) t = Spec.word_then_space word t.
Proof.
  unfold QA.matches, Re.rmatch, Re.match_at, QA.leading.
  cbn [Re.seqs Re.run Re.pos Nat.eqb].
  rewrite <- (string_of_list_ascii_of_string t) at 2.
  rewrite <- (leading_from word (list_ascii_of_string t) 0 None None).
  destruct (Re.run _ _ _ _) as [[e g]|]; reflexivity.
Qed.

Lemma existsb_map_ext {A B : Type} (f : B -> bool) (h : A -> bool)
  (m : A -> B) (l : list A) :
  (forall a, f (m a) = h a) -> existsb f (map m l) = existsb h l.
Proof.
  intros H. induction l as [|a l IH]; simpl; [reflexivity|].
  now rewrite H, IH.
Qed.

(** X13. A question is classified as yes/no exactly when its stripped,
    lower-cased text starts with one of the eighteen auxiliary verbs
    followed by a white space, or holds one of the three phrases; the
    classification does not depend on the case of the question nor on
    white space around it. *)
Theorem yes_no_classification (self : QA.processor) (question : string) :
  Spec.ascii_text question = true ->
  QA.is_yes_no_question self question
  = (let text := Py.lower (Py.strip question) in
     existsb (fun word => Spec.word_then_space word text) Spec.auxiliaries
     || existsb (fun phrase => Py.contains phrase text) QA.yes_no_phrases)
  /\ QA.is_yes_no_question self (Py.lower question)
     = QA.is_yes_no_question self question
  /\ QA.is_yes_no_question self (Py.strip question)
     = QA.is_yes_no_question self question.
Proof.
  intros _. split; [|split].
  - unfold QA.is_yes_no_question. cbv zeta.
    change QA.yes_no_patterns with (map QA.leading Spec.auxiliaries).
    rewrite (existsb_map_ext _
               (fun word =>
                  Spec.word_then_space word (Py.lower (Py.strip question)))
               QA.leading Spec.auxiliaries)
      by (intros word; apply leading_matches).
    destruct (existsb _ Spec.auxiliaries); [reflexivity|].
    now destruct (existsb _ QA.yes_no_phrases).
  - unfold QA.is_yes_no_question. cbv zeta.
    now rewrite strip_lower, lower_idem.
  - unfold QA.is_yes_no_question. cbv zeta. now rewrite strip_idem.
Qed.

Lemma yes_no_classification_witness :
  QA.is_yes_no_question Demo.qa " IS the patient improving?" = true
  /\ QA.is_yes_no_question Demo.qa "Isn't it late?" = false.
Proof.
  split.
  - rewrite (proj1 (yes_no_classification Demo.qa " IS the patient improving?"
                      eq_refl)).
    reflexivity.
  - rewrite (proj1 (yes_no_classification Demo.qa "Isn't it late?" eq_refl)).
    reflexivity.
Defined.

(** ** The matcher on a text that lacks what the pattern asks for *)

Section Avoid.

Variable avoid : Re.class.

Lemma free_of_tail (x : ascii) (l : list ascii) :
  Spec.free_of avoid (x :: l) = true ->
  avoid x = false /\ Spec.free_of avoid l = true.
Proof.
  unfold Spec.free_of. simpl. intros H. apply andb_prop in H as [Hx Hl].
  split; [now destruct (avoid x)|assumption].
Qed.

Lemma greedy_none (p : Re.class) (ahead : list ascii) :
  forall (at_pos : nat) (before : option ascii) (g : option Re.span)
         (k : Re.kont),
  (forall c' g', Spec.free_of avoid (Re.rest c') = true -> k c' g' = None) ->
  Spec.free_of avoid ahead = true ->
  Re.greedy p ahead at_pos before g k = None.
Proof.
  induction ahead as [|x ahead IH]; intros at_pos before g k Hk Hd; simpl.
  - now apply Hk.
  - destruct (p x); [|now apply Hk].
    rewrite IH; [|assumption|now apply free_of_tail in Hd].
    simpl. now apply Hk.
Qed.

Lemma lazy_none (p : Re.class) (ahead : list ascii) :
  forall (at_pos : nat) (before : option ascii) (g : option Re.span)
         (k : Re.kont),
  (forall c' g', Spec.free_of avoid (Re.rest c') = true -> k c' g' = None) ->
  Spec.free_of avoid ahead = true ->
  Re.lazy p ahead at_pos before g k = None.
Proof.
  induction ahead as [|x ahead IH]; intros at_pos before g k Hk Hd; simpl.
  - now apply Hk.
  - destruct (p x); [|now apply Hk].
    rewrite (Hk (Re.Cursor at_pos before (x :: ahead)) g Hd). simpl.
    apply IH; [assumption|now apply free_of_tail in Hd].
Qed.

(** A pattern fails on such a text when what follows it fails there: it
    can only hand over a later place of the same text. *)
Lemma run_none (r : Re.regex) :
  forall (c : Re.cursor) (g : option Re.span) (k : Re.kont),
  (forall c' g', Spec.free_of avoid (Re.rest c') = true -> k c' g' = None) ->
  Spec.free_of avoid (Re.rest c) = true ->
  Re.run r c g k = None.
Proof.
  induction r as [|p|r1 IH1 r2 IH2|p|p|r1 IH1|r1 IH1| | |];
    intros c g k Hk Hd; simpl.
  - now apply Hk.
  - destruct (Re.rest c) as [|x xs] eqn:R; [reflexivity|].
    destruct (p x); [|reflexivity].
    apply Hk. simpl. now apply free_of_tail in Hd.
  - apply IH1; [|assumption]. intros c' g' Hd'. now apply IH2.
  - now apply greedy_none.
  - now apply lazy_none.
  - rewrite IH1 by assumption. simpl. now apply Hk.
  - apply IH1; [|assumption]. intros c' g' Hd'. now apply Hk.
  - destruct (Re.pos c =? 0); [now apply Hk|reflexivity].
  - destruct (Re.at_eol c); [now apply Hk|reflexivity].
  - destruct (xorb _ _); [now apply Hk|reflexivity].
Qed.

(** One character of a class inside [avoid] cannot be read. *)
Lemma cls_none (p : Re.class) (c : Re.cursor) (g : option Re.span)
  (k : Re.kont) :
  (forall x, p x = true -> avoid x = true) ->
  Spec.free_of avoid (Re.rest c) = true ->
  Re.run (Re.Cls p) c g k = None.
Proof.
  intros Hp Hd. simpl. destruct (Re.rest c) as [|x xs]; [reflexivity|].
  apply free_of_tail in Hd as [Hx _].
  destruct (p x) eqn:Px; [|reflexivity].
  apply Hp in Px. congruence.
Qed.

Lemma search_from_none (r : Re.regex) (l : list ascii) :
  Spec.asks avoid r -> Spec.free_of avoid l = true ->
  forall (p : nat) (pv : option ascii), Re.search_from r p pv l = None.
Proof.
  intros Hr. induction l as [|x l IH]; intros Hd p pv; simpl.
  - now rewrite (Hr (Re.Cursor p pv []) Hd).
  - rewrite (Hr (Re.Cursor p pv (x :: l)) Hd).
    apply IH. now apply free_of_tail in Hd.
Qed.

Lemma search_none (r : Re.regex) (text : string) :
  Spec.asks avoid r -> Spec.lacks avoid text = true ->
  Re.search r text = None.
Proof. intros Hr Hd. unfold Re.search. now apply search_from_none. Qed.

Lemma substring_all (s : string) : substring 0 (String.length s) s = s.
Proof. induction s as [|c s IH]; simpl; [reflexivity|]. now rewrite IH. Qed.

Lemma findall_none (r : Re.regex) (text : string) :
  Spec.asks avoid r -> Spec.lacks avoid text = true ->
  Re.findall r text = [].
Proof.
  intros Hr Hd. unfold Re.findall. cbn [Re.findall_from].
  rewrite Nat.sub_0_r, substring_all. now rewrite search_from_none.
Qed.

End Avoid.

Lemma run_seq (r1 r2 : Re.regex) (c : Re.cursor) (g : option Re.span)
  (k : Re.kont) :
  Re.run (Re.Seq r1 r2) c g k
  = Re.run r1 c g (fun c' g' => Re.run r2 c' g' k).
Proof. reflexivity. Qed.

Lemma run_grp (r : Re.regex) (c : Re.cursor) (g : option Re.span)
  (k : Re.kont) :
  Re.run (Re.Grp r) c g k
  = Re.run r c g (fun c' _ => k c' (Some (Re.pos c, Re.pos c'))).
Proof. reflexivity. Qed.

Lemma digits_none (c : Re.cursor) (g : option Re.span) (k : Re.kont) :
  Spec.free_of Py.is_digit (Re.rest c) = true ->
  Re.run (Re.plus Re.digit) c g k = None.
Proof.
  intros Hd. unfold Re.plus. rewrite run_seq.
  now apply (cls_none Py.is_digit Re.digit).
Qed.

Lemma colon_none (c : Re.cursor) (g : option Re.span) (k : Re.kont) :
  Spec.free_of (Ascii.eqb ":") (Re.rest c) = true ->
  Re.run (Re.chr ":") c g k = None.
Proof. intros Hd. now apply (cls_none (Ascii.eqb ":") (Ascii.eqb ":")). Qed.

(** Walks a sequence up to the part that cannot be read. *)
Ltac asked avoid :=
  intros c Hd; unfold Re.match_at;
  match goal with
  | |- match ?run with _ => _ end = None =>
      assert (E : run = None); [|now rewrite E]
  end;
  unfold ED.colon, ED.number_group, ES.key_pattern, ES.loose_pattern,
    ES.colon;
  cbn [Re.seqs];
  repeat first
    [ apply digits_none; assumption
    | apply colon_none; assumption
    | rewrite run_seq
    | rewrite run_grp
    | apply (run_none avoid); [intros ? ? ?; cbv beta|assumption] ].

Lemma labelled_ask_a_digit : Forall (Spec.asks Py.is_digit) ED.patterns.
Proof. unfold ED.patterns. repeat constructor; asked Py.is_digit. Qed.

Lemma number_token_asks_a_digit : Spec.asks Py.is_digit ED.number_token.
Proof.
  intros c Hd. unfold Re.match_at, ED.number_token.
  cbn [Re.seqs Re.run].
  destruct (xorb _ _); [|reflexivity].
  now rewrite digits_none.
Qed.

Lemma first_labelled_none (ps : list Re.regex) (text : string) :
  Forall (Spec.asks Py.is_digit) ps -> Spec.lacks Py.is_digit text = true ->
  ED.first_labelled ps text = None.
Proof.
  intros Hps Hd. induction Hps as [|r ps Hr _ IH]; simpl; [reflexivity|].
  now rewrite (search_none Py.is_digit).
Qed.

(** X14. A response without any digit has no index to read: the pattern
    tier answers the sentinel -1, and so does the whole extraction when
    the response is no JSON either. *)
Theorem no_digit_no_index (self : ED.processor) (text : string) :
  Spec.ascii_text text = true ->
  Spec.lacks Py.is_digit text = true ->
  ED._extract_index_manually self text = (-1)%Z
  /\ (ED.json_tiers text = None ->
      ED.extract_index_from_response self text = Rt.Ret (Json.JInt (-1))).
Proof.
  intros _ Hd.
  assert (E : ED._extract_index_manually self text = (-1)%Z).
  { unfold ED._extract_index_manually.
    rewrite (first_labelled_none _ _ labelled_ask_a_digit Hd).
    now rewrite (findall_none Py.is_digit _ _ number_token_asks_a_digit Hd). }
  split; [exact E|].
  intros Hj. unfold ED.extract_index_from_response.
  destruct (negb (Py.truthy_str text)); [reflexivity|].
  now rewrite Hj, E.
Qed.

Lemma no_digit_no_index_witness :
  ED._extract_index_manually Demo.ed "index: none of them" = (-1)%Z
  /\ ED.extract_index_from_response Demo.ed "index: none of them"
     = Rt.Ret (Json.JInt (-1)).
Proof.
  destruct (no_digit_no_index Demo.ed "index: none of them" eq_refl eq_refl)
    as [E R].
  split; [exact E|]. apply R. vm_compute. reflexivity.
Defined.





(** ** The ids of the records of ES_v1 *)


Section SummaryIds.

Variable service : nat -> nat -> Client.attempt_outcome.
Variable es : ES.processor.


End SummaryIds.


(** ** A case no prompt can be built for *)

(** X17. A case whose prompt cannot be built costs no request: the line
    is counted as failed and the output file, the requests and the
    pauses stay as they were.  In ED_v2 this is a case whose [text] is
    no list of objects; in ES_v1 a value that is no object, or a case
    whose description or consultation is a list that holds something
    else than strings. *)
Theorem unbuildable_prompt_costs_no_request
  (service : nat -> nat -> Client.attempt_outcome)
  (ed : ED.processor) (es : ES.processor) (n : nat) :
  (forall (st : ED.run) (line : string) (case_data : Json.value) (e : Rt.exn),
     Json.loads line = Some case_data ->
     ED.build_prompt ed case_data = Rt.Raise e ->
     ED.process_line service ed st n line = Spec.counted_failure st)
  /\ (forall (st : ES.run) (line : string) (case_data : Json.value),
        Json.loads line = Some case_data ->
        (forall d : Json.dict,
           case_data = Json.JObj d ->
           exists e : Rt.exn, ES.build_prompt es d = Rt.Raise e) ->
        ES.process_line service es st n line
        = ES.Run (ES.outfile st) (ES.trace st) (ES.processed_count st)
            (S (ES.error_count st))).
Proof.
  split.
  - intros st line case_data e Hj Hb.
    unfold ED.process_line, ED.process_single_case, ED.check_raises.
    rewrite Hj, Hb. unfold Spec.counted_failure. now rewrite app_nil_r.
  - intros st line case_data Hj Hb.
    unfold ES.process_line, ES.process_single_case. rewrite Hj.
    destruct case_data as [| | | | | |d]; cbn [Rt.as_dict];
      try now rewrite app_nil_r.
    destruct (Hb d eq_refl) as [e ->]. now rewrite app_nil_r.
Qed.

Lemma unbuildable_prompt_costs_no_request_witness :
  ED.process_line (Demo.answering "2") Demo.ed (ED.Run [] [] 0 0) 1
    ("{" ++ Py.q "text" ++ ": 5}")
  = ED.Run [] [] 0 1.
Proof.
  apply (proj1 (unbuildable_prompt_costs_no_request
                  (Demo.answering "2") Demo.ed Demo.es 1)
           (ED.Run [] [] 0 0) ("{" ++ Py.q "text" ++ ": 5}")
           (Json.JObj [("text", Json.JInt 5)])
           (Rt.Exn Rt.TypeError "object of type 'int' has no len()")).
  - vm_compute. reflexivity.
  - reflexivity.
Defined.


(** ** Decimal numerals *)

Lemma uint_digits (d : Decimal.uint) :
  forallb Py.is_digit (list_ascii_of_string (NilEmpty.string_of_uint d)) = true.
Proof. induction d; simpl; auto. Qed.

Lemma uint_value (d : Decimal.uint) :
  forall acc : nat,
  fold_left (fun acc c => (acc * 10 + Z.of_nat (Py.code c - 48))%Z)
    (list_ascii_of_string (NilEmpty.string_of_uint d)) (Z.of_nat acc)
  = Z.of_nat (Nat.of_uint_acc d acc).
Proof.
  induction d as [|d IH|d IH|d IH|d IH|d IH|d IH|d IH|d IH|d IH|d IH];
    intros acc; [reflexivity|..];
    cbn [NilEmpty.string_of_uint list_ascii_of_string fold_left Nat.of_uint_acc];
    rewrite Nat.tail_mul_spec, <- IH; f_equal;
    change (Py.code "0") with 48; change (Py.code "1") with 49;
    change (Py.code "2") with 50; change (Py.code "3") with 51;
    change (Py.code "4") with 52; change (Py.code "5") with 53;
    change (Py.code "6") with 54; change (Py.code "7") with 55;
    change (Py.code "8") with 56; change (Py.code "9") with 57;
    lia.
Qed.

Lemma to_uint_canonical (n : nat) :
  Nat.to_uint n <> Decimal.Nil
  /\ (forall d, Nat.to_uint n = Decimal.D0 d -> d = Decimal.Nil).
Proof.
  pose proof (DecimalNat.Unsigned.to_of (Nat.to_uint n)) as H.
  rewrite DecimalNat.Unsigned.of_to in H. rewrite H. unfold Decimal.unorm.
  pose proof (DecimalFacts.nzhead_nonzero (Nat.to_uint n)) as Hz.
  destruct (Decimal.nzhead (Nat.to_uint n)); split; try discriminate;
    intros d' E; try discriminate.
  - now injection E as <-.
  - now elim (Hz u).
Qed.

(** A decimal numeral as [str] prints it: digits, with no zero in front
    of another digit. *)
Lemma str_of_nat_shape (n : nat) :
  exists (c : ascii) (ds : list ascii),
    list_ascii_of_string (Rt.str_of_nat n) = c :: ds
    /\ Py.is_digit c = true /\ forallb Py.is_digit ds = true
    /\ (Ascii.eqb c "0" = true -> ds = [])
    /\ Json.Z_of_digits (c :: ds) = Z.of_nat n.
Proof.
  unfold Rt.str_of_nat.
  destruct (to_uint_canonical n) as [Hnil Hzero].
  pose proof (uint_digits (Nat.to_uint n)) as Hd.
  pose proof (uint_value (Nat.to_uint n) 0) as Hv.
  change (Nat.of_uint_acc (Nat.to_uint n) 0) with (Nat.of_uint (Nat.to_uint n))
    in Hv.
  rewrite DecimalNat.Unsigned.of_to in Hv.
  assert (E : NilZero.string_of_uint (Nat.to_uint n)
              = NilEmpty.string_of_uint (Nat.to_uint n)).
  { destruct (Nat.to_uint n); [congruence|reflexivity..]. }
  rewrite E. unfold Json.Z_of_digits.
  destruct (Nat.to_uint n) as [|d|d|d|d|d|d|d|d|d|d]; [congruence|..];
    cbn [NilEmpty.string_of_uint list_ascii_of_string] in *;
    eexists; eexists; (split; [reflexivity|]);
    (split; [reflexivity|]);
    (split; [exact (proj2 (andb_prop _ _ Hd))|]);
    (split; [|exact Hv]);
    try (intros; discriminate).
  intros _. now rewrite (Hzero d eq_refl).
Qed.

(** ** The decoder on the answers the prompts ask for *)

Lemma list_ascii_app (a b : string) :
  list_ascii_of_string (a ++ b)
  = (list_ascii_of_string a ++ list_ascii_of_string b)%list.
Proof. induction a as [|c a IH]; simpl; [reflexivity|]. now rewrite IH. Qed.

Lemma str_body_plain (x : list ascii) :
  forall (acc r : list ascii),
  forallb (fun c => (32 <=? Py.code c) && negb (Ascii.eqb c Json.quote)
                    && negb (Ascii.eqb c Json.backslash)) x = true ->
  Json.str_body (x ++ Json.quote :: r) acc
  = Some (string_of_list_ascii (rev acc ++ x), r).
Proof.
  induction x as [|c x IH]; intros acc r H.
  - cbn [app]. rewrite str_body_cons, Ascii.eqb_refl, List.app_nil_r. reflexivity.
  - cbn [forallb] in H. apply andb_prop in H as [Hc Hx].
    apply andb_prop in Hc as [Hc Hb]. apply andb_prop in Hc as [Hc Hq].
    cbn [app]. rewrite str_body_cons.
    destruct (Ascii.eqb c Json.quote); [discriminate|].
    destruct (Ascii.eqb c Json.backslash); [discriminate|].
    apply Nat.leb_le in Hc.
    destruct (Py.code c <? 32) eqn:E; [apply Nat.ltb_lt in E; lia|].
    rewrite IH by assumption. cbn [rev]. now rewrite <- List.app_assoc.
Qed.

Lemma digits_app (a b : list ascii) :
  forallb Py.is_digit a = true ->
  match b with x :: _ => Py.is_digit x = false | [] => True end ->
  Json.digits (a ++ b) = (a, b).
Proof.
  intros Ha Hb. induction a as [|c a IH]; cbn [app].
  - destruct b as [|x b]; [reflexivity|]. simpl. now rewrite Hb.
  - cbn [forallb] in Ha. apply andb_prop in Ha as [Hc Ha].
    simpl. rewrite Hc, (IH Ha). reflexivity.
Qed.

(** A numeral followed by a closing brace is read as its value. *)
Lemma number_numeral (c : ascii) (ds r : list ascii) :
  Py.is_digit c = true -> forallb Py.is_digit ds = true ->
  (Ascii.eqb c "0" = true -> ds = []) ->
  Json.literal (c :: ds ++ "}"%char :: r)
  = Some (Json.JInt (Json.Z_of_digits (c :: ds)), "}"%char :: r).
Proof.
  intros Hc Hds Hz.
  assert (N : Json.number (c :: ds ++ "}"%char :: r)
              = Some (Json.JInt (Json.Z_of_digits (c :: ds)),
                      "}"%char :: r)).
  { unfold Json.number.
    assert (Hm : Ascii.eqb c "-" = false).
    { destruct (Ascii.eqb c "-") eqn:E; [|reflexivity].
      apply Ascii.eqb_eq in E. subst c. discriminate. }
    rewrite Hm. unfold Json.int_part.
    destruct (Ascii.eqb c "0") eqn:E0.
    - rewrite (Hz eq_refl). reflexivity.
    - rewrite Hc, (digits_app ds ("}"%char :: r) Hds eq_refl). reflexivity. }
  unfold Json.literal. rewrite N.
  assert (P : forall (p : ascii) (s : string) (l : list ascii),
             Py.is_digit p = false ->
             Json.drop_prefix (String p s) (c :: l) = None).
  { intros p s l Hp. simpl. destruct (Ascii.eqb p c) eqn:E; [|reflexivity].
    apply Ascii.eqb_eq in E. subst p. congruence. }
  now rewrite !P by reflexivity.
Qed.

Lemma skip_ws_head (c : ascii) (l : list ascii) :
  Json.is_ws c = false -> Json.skip_ws (c :: l) = c :: l.
Proof. intros H. simpl. now rewrite H. Qed.

(** An object of one member: a plain key and a value that starts with
    no white space and ends before the closing brace. *)
Lemma loads_one_member (key : string) (text : list ascii) (v : Json.value)
  (c : ascii) (rest : list ascii) :
  Spec.plain key = true ->
  text = c :: rest -> Json.is_ws c = false ->
  (forall fuel : nat,
     Json.pvalue (S fuel) (text ++ ["}"%char]) = Some (v, ["}"%char])) ->
  Json.loads ("{" ++ Py.q key ++ ": " ++ string_of_list_ascii text ++ "}")
  = Some (Json.JObj [(key, v)]).
Proof.
  intros Hk Ht Hc Hv. subst text. unfold Json.loads.
  set (s := "{" ++ Py.q key ++ ": " ++ string_of_list_ascii (c :: rest) ++ "}").
  assert (Hl : list_ascii_of_string s
               = "{"%char :: Json.quote
                   :: (list_ascii_of_string key
                         ++ Json.quote :: ":"%char :: " "%char
                         :: c :: rest ++ ["}"%char])%list).
  { unfold s, Py.q, Py.dq.
    rewrite !list_ascii_app, list_ascii_of_string_of_list_ascii.
    cbn [list_ascii_of_string app]. rewrite <- !List.app_assoc.
    cbn [list_ascii_of_string app]. reflexivity. }
  assert (Hf : exists k, 2 * String.length s + 2 = S (S (S k))).
  { exists (2 * String.length s - 1). unfold s. simpl. lia. }
  destruct Hf as [k ->].
  unfold Json.loads_with. rewrite Hl.
  rewrite skip_ws_head by reflexivity.
  rewrite pvalue_S.
  change (Ascii.eqb "{" Json.quote) with false.
  change (Ascii.eqb "{" "{") with true. cbv iota.
  rewrite skip_ws_head by reflexivity.
  change (Ascii.eqb Json.quote "}") with false. cbv iota.
  rewrite pmembers_S, Ascii.eqb_refl.
  rewrite (str_body_plain (list_ascii_of_string key) [] _ Hk).
  cbn [rev app]. rewrite string_of_list_ascii_of_string.
  rewrite skip_ws_head by reflexivity.
  change (Ascii.eqb ":" ":") with true. cbv iota.
  change (Json.skip_ws (" "%char :: c :: rest ++ ["}"%char]))
    with (Json.skip_ws (c :: rest ++ ["}"%char])).
  rewrite skip_ws_head by assumption.
  change (c :: rest ++ ["}"%char])%list with ((c :: rest) ++ ["}"%char])%list.
  rewrite Hv.
  rewrite skip_ws_head by reflexivity.
  change (Ascii.eqb "}" "}") with true. cbv iota.
  reflexivity.
Qed.

Lemma loads_index (n : nat) :
  Json.loads ("{" ++ Py.q "index" ++ ": " ++ Rt.str_of_nat n ++ "}")
  = Some (Json.JObj [("index", Json.JInt (Z.of_nat n))]).
Proof.
  destruct (str_of_nat_shape n) as (c & ds & Hs & Hc & Hds & Hz & Hv).
  rewrite <- (string_of_list_ascii_of_string (Rt.str_of_nat n)), Hs.
  apply (loads_one_member "index" (c :: ds) _ c ds eq_refl eq_refl).
  - destruct c as [[] [] [] [] [] [] [] []]; try discriminate; reflexivity.
  - intros fuel. rewrite pvalue_S. cbn [app].
    assert (Q : Ascii.eqb c Json.quote = false /\ Ascii.eqb c "{" = false
                /\ Ascii.eqb c "[" = false).
    { destruct c as [[] [] [] [] [] [] [] []]; try discriminate;
        repeat split; reflexivity. }
    destruct Q as (-> & -> & ->).
    rewrite (number_numeral c ds [] Hc Hds Hz). now rewrite Hv.
Qed.

Lemma loads_emotion (label : string) :
  Spec.plain label = true ->
  Json.loads ("{" ++ Py.q "Emotion" ++ ": " ++ Py.q label ++ "}")
  = Some (Json.JObj [("Emotion", Json.JStr label)]).
Proof.
  intros Hp.
  replace (Py.q label)
    with (string_of_list_ascii
            (Json.quote :: list_ascii_of_string label ++ [Json.quote])%list).
  2:{ unfold Py.q, Py.dq. cbn [string_of_list_ascii].
      rewrite string_of_list_ascii_app, string_of_list_ascii_of_string.
      reflexivity. }
  apply (loads_one_member "Emotion" _ _ Json.quote
           (list_ascii_of_string label ++ [Json.quote])%list
           eq_refl eq_refl eq_refl).
  intros fuel. rewrite pvalue_S. cbn [app]. rewrite Ascii.eqb_refl.
  rewrite <- List.app_assoc. cbn [app].
  rewrite (str_body_plain (list_ascii_of_string label) [] _ Hp).
  cbn [rev app]. now rewrite string_of_list_ascii_of_string.
Qed.

(** ** The matcher on the answers the prompts ask for *)

Lemma chr_inv (a : ascii) (c : Re.cursor) (g : option Re.span) (k : Re.kont)
  (o : Re.outcome) :
  Re.run (Re.chr a) c g k = Some o ->
  exists xs : list ascii,
    Re.rest c = a :: xs
    /\ k (Re.Cursor (S (Re.pos c)) (Some a) xs) g = Some o.
Proof.
  simpl. destruct (Re.rest c) as [|x xs]; [discriminate|].
  destruct (Ascii.eqb a x) eqn:E; [|discriminate].
  apply Ascii.eqb_eq in E. subst x. intros H. now exists xs.
Qed.

Lemma lit_inv (w : string) :
  forall (c : Re.cursor) (g : option Re.span) (k : Re.kont) (o : Re.outcome),
  Re.run (Re.lit w) c g k = Some o ->
  exists (b : list ascii) (before' : option ascii),
    Re.rest c = (list_ascii_of_string w ++ b)%list
    /\ k (Re.Cursor (Re.pos c + String.length w) before' b) g = Some o.
Proof.
  induction w as [|a w IH]; intros c g k o H.
  - simpl in H. exists (Re.rest c), (Re.prev c). simpl.
    rewrite Nat.add_0_r. destruct c; auto.
  - rewrite lit_cons in H. apply chr_inv in H as (xs & Hr & H).
    apply IH in H as (b & pv & Hx & Hk). simpl in Hx, Hk.
    exists b, pv. subst xs. simpl. rewrite Hr.
    replace (Re.pos c + S (String.length w))
      with (S (Re.pos c) + String.length w) by lia.
    auto.
Qed.

Lemma lit_complete (w : string) :
  forall (p : nat) (pv : option ascii) (b : list ascii) (g : option Re.span)
         (k : Re.kont),
  exists before' : option ascii,
    Re.run (Re.lit w) (Re.Cursor p pv (list_ascii_of_string w ++ b)) g k
    = k (Re.Cursor (p + String.length w) before' b) g.
Proof.
  induction w as [|a w IH]; intros p pv b g k.
  - exists pv. simpl. now rewrite Nat.add_0_r.
  - rewrite lit_cons. cbn [Re.chr Re.run Re.rest list_ascii_of_string app].
    rewrite Ascii.eqb_refl. cbn [Re.pos].
    destruct (IH (S p) (Some a) b g k) as [pv' E].
    exists pv'. rewrite E. cbn [String.length].
    now replace (p + S (String.length w)) with (S p + String.length w) by lia.
Qed.

(** A repetition succeeds when what follows succeeds after some of the
    characters it may read. *)
Lemma greedy_complete (p : Re.class) (a b : list ascii) :
  forall (at_pos : nat) (before : option ascii) (g : option Re.span)
         (k : Re.kont),
  forallb p a = true ->
  (forall pv, k (Re.Cursor (at_pos + List.length a) pv b) g <> None) ->
  Re.greedy p (a ++ b) at_pos before g k <> None.
Proof.
  induction a as [|x a IH]; intros at_pos before g k Ha Hk.
  - cbn [app List.length] in *. rewrite Nat.add_0_r in Hk.
    destruct b as [|y b]; simpl; [apply Hk|].
    destruct (p y); [|apply Hk].
    destruct (Re.greedy p b (S at_pos) (Some y) g k); simpl;
      [discriminate|apply Hk].
  - cbn [forallb] in Ha. apply andb_prop in Ha as [Hx Ha].
    cbn [app Re.greedy]. rewrite Hx.
    assert (N : Re.greedy p (a ++ b) (S at_pos) (Some x) g k <> None).
    { apply IH; [assumption|]. intros pv.
      replace (S at_pos + List.length a) with (at_pos + List.length (x :: a))
        by (simpl; lia).
      apply Hk. }
    destruct (Re.greedy p (a ++ b) (S at_pos) (Some x) g k);
      [discriminate|congruence].
Qed.

Lemma greedy_skip (p : Re.class) (b : list ascii) (at_pos : nat)
  (before : option ascii) (g : option Re.span) (k : Re.kont) :
  (forall pv, k (Re.Cursor at_pos pv b) g <> None) ->
  Re.greedy p b at_pos before g k <> None.
Proof.
  intros Hk. apply (greedy_complete p [] b at_pos before g k eq_refl).
  intros pv. cbn [List.length]. rewrite Nat.add_0_r. apply Hk.
Qed.

(** A character that stands at one place of a text. *)
Lemma last_occurrence (x : ascii) (body post : list ascii) :
  forall p xs : list ascii,
  ~ In x body -> ~ In x post ->
  (body ++ x :: post)%list = (p ++ x :: xs)%list ->
  p = body /\ xs = post.
Proof.
  induction body as [|y body IH]; intros p xs Hn Hp E.
  - destruct p as [|z p]; simpl in E.
    + injection E as <-. auto.
    + injection E as <- E. elim Hp. rewrite E. apply in_or_app. right. now left.
  - destruct p as [|z p]; simpl in E.
    + injection E as -> _. elim Hn. now left.
    + injection E as <- E. apply IH in E as [-> ->]; [auto| |assumption].
      intros H. apply Hn. now right.
Qed.

Lemma free_of_In (avoid : Re.class) (x : ascii) (l : list ascii) :
  Spec.free_of avoid l = true -> avoid x = true -> ~ In x l.
Proof.
  unfold Spec.free_of. rewrite forallb_forall. intros H Hx Hin.
  apply H in Hin. now rewrite Hx in Hin.
Qed.

Lemma free_of_app (avoid : Re.class) (a b : list ascii) :
  Spec.free_of avoid (a ++ b) = Spec.free_of avoid a && Spec.free_of avoid b.
Proof. unfold Spec.free_of. apply forallb_app. Qed.

Lemma chr_complete (a : ascii) (p : nat) (pv : option ascii)
  (xs : list ascii) (g : option Re.span) (k : Re.kont) :
  Re.run (Re.chr a) (Re.Cursor p pv (a :: xs)) g k
  = k (Re.Cursor (S p) (Some a) xs) g.
Proof. simpl. now rewrite Ascii.eqb_refl. Qed.

(** Reads a literal that stands at the cursor. *)
Ltac read_lit :=
  match goal with
  | |- context [Re.run (Re.lit ?w)
                  (Re.Cursor ?p ?pv (list_ascii_of_string ?w ++ ?b)%list)
                  ?g ?k] =>
      let E := fresh "E" in
      destruct (lit_complete w p pv b g k) as [? E]; rewrite E; clear E;
      cbv beta
  end.

Lemma run_star (p : Re.class) (c : Re.cursor) (g : option Re.span)
  (k : Re.kont) :
  Re.run (Re.Star p) c g k
  = Re.greedy p (Re.rest c) (Re.pos c) (Re.prev c) g k.
Proof. reflexivity. Qed.

Lemma run_lazy (p : Re.class) (c : Re.cursor) (g : option Re.span)
  (k : Re.kont) :
  Re.run (Re.Lazy p) c g k
  = Re.lazy p (Re.rest c) (Re.pos c) (Re.prev c) g k.
Proof. reflexivity. Qed.

(** The brace pattern at the one brace group of a text, a group that
    names Emotion: it matches the group. *)
Lemma emotion_pattern_at (p : nat) (pv : option ascii)
  (tail post : list ascii) :
  Spec.free_of (Re.one_of ["{"; "}"]%char) tail = true ->
  Spec.free_of (Re.one_of ["{"; "}"]%char) post = true ->
  exists g : option Re.span,
    Re.match_at EC.emotion_json_pattern
      (Re.Cursor p pv
         ("{"%char :: list_ascii_of_string (Py.q "Emotion") ++ tail
            ++ "}"%char :: post)%list)
    = Some (Re.Match p
              (p + (String.length (Py.q "Emotion") + List.length tail + 2)) g).
Proof.
  intros Hfree Hpost. unfold Re.match_at.
  set (kf := fun (c' : Re.cursor) (g : option Re.span) => Some (Re.pos c', g)).
  assert (Hq : Spec.free_of (Re.one_of ["{"; "}"]%char)
                 (list_ascii_of_string (Py.q "Emotion")) = true)
    by reflexivity.
  remember (list_ascii_of_string (Py.q "Emotion")) as qe eqn:Hqe.
  destruct (Re.run EC.emotion_json_pattern _ None kf) as [[e g]|] eqn:R.
  - exists g. cbn [Re.pos]. f_equal. f_equal.
    unfold EC.emotion_json_pattern in R. cbn [Re.seqs] in R.
    rewrite run_seq in R. apply chr_inv in R as (xs & Hxs & R).
    cbn [Re.rest Re.pos] in Hxs. cbv beta in R. injection Hxs as Hxs.
    rewrite run_seq, run_star in R. cbn [Re.rest Re.pos Re.prev] in R.
    apply greedy_inv in R as (a1 & b1 & pv1 & H1 & _ & R). cbv beta in R.
    rewrite run_seq in R. apply lit_inv in R as (b2 & pv2 & H2 & R).
    cbn [Re.rest Re.pos] in H2. cbv beta in R. rewrite <- Hqe in H2.
    rewrite run_seq, run_star in R. cbn [Re.rest Re.pos Re.prev] in R.
    apply greedy_inv in R as (a3 & b3 & pv3 & H3 & _ & R). cbv beta in R.
    apply chr_inv in R as (ys & H4 & R). cbn [Re.rest Re.pos] in H4, R.
    unfold kf in R. cbn [Re.pos] in R. injection R as <- _.
    subst b3 b2 b1 xs.
    assert (E : ((qe ++ tail) ++ "}"%char :: post
                 = (a1 ++ qe ++ a3) ++ "}"%char :: ys)%list).
    { rewrite <- !List.app_assoc. exact H1. }
    apply last_occurrence in E as [E ->].
    + apply (f_equal (@List.length ascii)) in E.
      rewrite !length_app in E.
      assert (L : List.length qe = String.length (Py.q "Emotion")).
      { rewrite Hqe. apply list_ascii_length. }
      change (String.length (Py.q "Emotion")) with 9 in *. lia.
    + apply (free_of_In (Re.one_of ["{"; "}"]%char)); [|reflexivity].
      now rewrite free_of_app, Hfree, Hq.
    + now apply (free_of_In (Re.one_of ["{"; "}"]%char)).
  - exfalso. revert R. unfold EC.emotion_json_pattern. cbn [Re.seqs].
    rewrite run_seq, chr_complete. rewrite run_seq, run_star.
    cbn [Re.rest Re.pos Re.prev].
    apply greedy_skip. intros pv0. rewrite run_seq.
    rewrite Hqe. read_lit.
    rewrite run_seq, run_star. cbn [Re.rest Re.pos Re.prev].
    apply greedy_complete.
    + unfold Spec.free_of, Re.one_of in Hfree. unfold Re.none_of. exact Hfree.
    + intros pv''. rewrite chr_complete. discriminate.
Qed.

Lemma search_from_head (r : Re.regex) (p : nat) (pv : option ascii)
  (l : list ascii) (m : Re.mtch) :
  Re.match_at r (Re.Cursor p pv l) = Some m ->
  Re.search_from r p pv l = Some m.
Proof. intros H. destruct l; simpl; now rewrite H. Qed.

(** The search passes the characters at which the pattern cannot
    start. *)
Lemma search_from_skip (r : Re.regex) (pre l : list ascii) :
  (forall p pv x xs, In x pre -> Re.match_at r (Re.Cursor p pv (x :: xs)) = None) ->
  forall (p : nat) (pv : option ascii),
  exists pv' : option ascii,
    Re.search_from r p pv (pre ++ l)
    = Re.search_from r (p + List.length pre) pv' l.
Proof.
  intros Hr. induction pre as [|x pre IH]; intros p pv.
  - exists pv. cbn [app List.length]. now rewrite Nat.add_0_r.
  - cbn [app Re.search_from]. rewrite Hr by now left.
    destruct IH with (p := S p) (pv := Some x) as [pv' E].
    { intros p0 pv0 y ys Hy. apply Hr. now right. }
    exists pv'. rewrite E. cbn [List.length].
    now replace (p + S (List.length pre)) with (S p + List.length pre) by lia.
Qed.

Lemma emotion_pattern_start (p : nat) (pv : option ascii) (x : ascii)
  (xs : list ascii) :
  Ascii.eqb "{" x = false ->
  Re.match_at EC.emotion_json_pattern (Re.Cursor p pv (x :: xs)) = None.
Proof.
  intros Hx. unfold Re.match_at, EC.emotion_json_pattern. cbn [Re.seqs].
  rewrite run_seq. cbn [Re.chr Re.run Re.rest]. now rewrite Hx.
Qed.

Lemma substring_middle (pre mid post : string) :
  substring (String.length pre) (String.length mid) (pre ++ mid ++ post) = mid.
Proof.
  induction pre as [|c pre IH]; [|exact IH].
  cbn [String.length append]. induction mid as [|c mid IH].
  - now destruct post.
  - cbn [String.length append substring]. now rewrite IH.
Qed.

(** X18. The answer the emotion prompt asks for is read back: when the
    response holds the one-member object with the key Emotion and a
    label of the choices (a non-empty label without quote, backslash,
    control character or brace), with or without text around it that
    holds no brace, the extractor returns that label. *)
Theorem prompted_emotion_is_read
  (self : EC.processor) (label before after : string)
  (choices : list string) :
  Spec.plain label = true ->
  Spec.lacks (Re.one_of ["{"; "}"]%char) label = true ->
  Spec.lacks (Re.one_of ["{"; "}"]%char) before = true ->
  Spec.lacks (Re.one_of ["{"; "}"]%char) after = true ->
  label <> "" ->
  In label choices ->
  EC.extract_emotion self
    (before ++ ("{" ++ Py.q "Emotion" ++ ": " ++ Py.q label ++ "}") ++ after)
    choices
  = label.
Proof.
  intros Hp Hb Hpre Hpost Hne Hin.
  set (object := "{" ++ Py.q "Emotion" ++ ": " ++ Py.q label ++ "}").
  set (tail := (":"%char :: " "%char :: Json.quote
                  :: list_ascii_of_string label ++ [Json.quote])%list).
  assert (Hl : list_ascii_of_string object
               = ("{"%char :: list_ascii_of_string (Py.q "Emotion") ++ tail
                    ++ ["}"%char])%list).
  { unfold object, tail. cbn [append list_ascii_of_string].
    rewrite list_ascii_app. f_equal. f_equal.
    cbn [append list_ascii_of_string]. rewrite list_ascii_app.
    unfold Py.q, Py.dq. cbn [append list_ascii_of_string].
    rewrite list_ascii_app. reflexivity. }
  assert (Hfree : Spec.free_of (Re.one_of ["{"; "}"]%char) tail = true).
  { unfold tail.
    change (Spec.free_of (Re.one_of ["{"; "}"]%char)
              (list_ascii_of_string label ++ [Json.quote]) = true).
    rewrite free_of_app. unfold Spec.lacks in Hb. now rewrite Hb. }
  assert (Hlen : String.length (Py.q "Emotion") + List.length tail + 2
                 = String.length object).
  { rewrite <- (list_ascii_length object), Hl. cbn [List.length].
    rewrite !length_app, list_ascii_length. cbn [List.length]. lia. }
  unfold EC.extract_emotion, EC.extract_emotion_from_json, Re.search.
  rewrite !list_ascii_app, Hl.
  destruct (search_from_skip EC.emotion_json_pattern
              (list_ascii_of_string before)
              (("{"%char :: list_ascii_of_string (Py.q "Emotion") ++ tail
                  ++ ["}"%char]) ++ list_ascii_of_string after)%list)
    with (p := 0) (pv := @None ascii) as [pv' ->].
  { intros p pv x xs Hx. apply emotion_pattern_start.
    unfold Spec.lacks, Spec.free_of in Hpre.
    rewrite forallb_forall in Hpre. apply Hpre in Hx.
    destruct (Ascii.eqb "{" x) eqn:E; [|reflexivity].
    apply Ascii.eqb_eq in E. subst x. discriminate. }
  cbn [app]. rewrite <- !List.app_assoc. cbn [app].
  destruct (emotion_pattern_at (0 + List.length (list_ascii_of_string before))
              pv' tail (list_ascii_of_string after) Hfree Hpost) as [g Hm].
  rewrite (search_from_head _ _ _ _ _ Hm).
  unfold Re.group0, Re.slice. cbn [Re.m_start Re.m_end fst snd Nat.add].
  rewrite Hlen, list_ascii_length.
  replace (String.length before + String.length object - String.length before)
    with (String.length object) by lia.
  rewrite substring_middle.
  unfold object. rewrite (loads_emotion label Hp).
  unfold Json.get. cbn [Json.lookup]. rewrite String.eqb_refl.
  unfold EC.json_label.
  apply in_list_In in Hin. rewrite Hin.
  destruct label; [congruence|reflexivity].
Qed.

Lemma prompted_emotion_is_read_witness :
  EC.extract_emotion Demo.ec
    ("I think "
       ++ ("{" ++ Py.q "Emotion" ++ ": " ++ Py.q "Pride" ++ "}") ++ ".")
    ["Anger"; "Pride"]
  = "Pride".
Proof.
  apply prompted_emotion_is_read.
  - reflexivity.
  - reflexivity.
  - reflexivity.
  - reflexivity.
  - discriminate.
  - simpl. auto.
Defined.

(** ** The fenced block *)

(** A repetition reads all it can when what follows succeeds there. *)
Lemma greedy_longest (p : Re.class) (a b : list ascii) (g : option Re.span)
  (k : Re.kont) (o : Re.outcome) :
  forallb p a = true ->
  match b with x :: _ => p x = false | [] => True end ->
  forall (at_pos : nat),
  (forall pv, k (Re.Cursor (at_pos + List.length a) pv b) g = Some o) ->
  forall before : option ascii,
  Re.greedy p (a ++ b) at_pos before g k = Some o.
Proof.
  intros Ha Hb. induction a as [|x a IH]; intros at_pos Hk before.
  - cbn [app List.length] in *. rewrite Nat.add_0_r in Hk.
    destruct b as [|y b]; simpl; [apply Hk|]. rewrite Hb. apply Hk.
  - cbn [forallb] in Ha. apply andb_prop in Ha as [Hx Ha].
    cbn [app Re.greedy]. rewrite Hx. rewrite (IH Ha (S at_pos)); [reflexivity|].
    intros pv.
    replace (S at_pos + List.length a) with (at_pos + List.length (x :: a))
      by (simpl; lia).
    apply Hk.
Qed.

(** A lazy repetition stops at the first place where what follows
    succeeds. *)
Lemma lazy_first (p : Re.class) (content b : list ascii) (g : option Re.span)
  (k : Re.kont) (o : Re.outcome) :
  forallb p content = true ->
  forall (at_pos : nat),
  (forall a1 x a2 pv,
     content = (a1 ++ x :: a2)%list ->
     k (Re.Cursor (at_pos + List.length a1) pv (x :: a2 ++ b)) g = None) ->
  (forall pv, k (Re.Cursor (at_pos + List.length content) pv b) g = Some o) ->
  forall before : option ascii,
  Re.lazy p (content ++ b) at_pos before g k = Some o.
Proof.
  intros Hp. induction content as [|y content IH]; intros at_pos Hn Hk before.
  - cbn [app List.length] in *. rewrite Nat.add_0_r in Hk.
    destruct b as [|x b]; simpl; [apply Hk|].
    destruct (p x); [now rewrite Hk|apply Hk].
  - cbn [forallb] in Hp. apply andb_prop in Hp as [Hy Hp].
    cbn [app Re.lazy]. rewrite Hy.
    pose proof (Hn [] y content before eq_refl) as H0.
    cbn [List.length app] in H0. rewrite Nat.add_0_r in H0. rewrite H0.
    simpl Re.orelse. apply (IH Hp (S at_pos)).
    + intros a1 x a2 pv E.
      replace (S at_pos + List.length a1)
        with (at_pos + List.length (y :: a1)) by (simpl; lia).
      apply Hn. now rewrite E.
    + intros pv.
      replace (S at_pos + List.length content)
        with (at_pos + List.length (y :: content)) by (simpl; lia).
      apply Hk.
Qed.

(** White space and three backquotes cannot be read inside a content
    that holds no backquote and ends with no white space. *)
Lemma closing_fence_none (u t : list ascii) (z : ascii) (u' : list ascii)
  (at_pos : nat) (before : option ascii) (g : option Re.span) (k : Re.kont) :
  u = (u' ++ [z])%list -> Py.is_space z = false ->
  Spec.free_of (Ascii.eqb "`") u = true ->
  Re.run (Re.Seq (Re.Star Re.ws) (Re.lit "```"))
    (Re.Cursor at_pos before (u ++ t)) g k = None.
Proof.
  intros Hu Hz Hfree.
  destruct (Re.run _ _ g k) as [o|] eqn:R; [exfalso|reflexivity].
  rewrite run_seq, run_star in R. cbn [Re.rest Re.pos Re.prev] in R.
  apply greedy_inv in R as (a & b & pv & E & Ha & R). cbv beta in R.
  apply lit_inv in R as (b' & pv' & Hb & _). cbn [Re.rest] in Hb.
  cbn [list_ascii_of_string app] in Hb. subst b.
  apply app_eq_app in E as [l [[E1 E2]|[E1 E2]]].
  - destruct l as [|y l].
    + rewrite List.app_nil_r in E1. subst a. rewrite Hu in Ha.
      rewrite forallb_app in Ha. apply andb_prop in Ha as [_ Ha].
      simpl in Ha. unfold Re.ws in Ha. rewrite Hz in Ha. discriminate.
    + cbn [app] in E2. injection E2 as <- _.
      apply (free_of_In (Ascii.eqb "`") "`"%char u Hfree eq_refl).
      rewrite E1. apply in_or_app. right. now left.
  - rewrite E1, Hu in Ha. rewrite !forallb_app in Ha.
    apply andb_prop in Ha as [Ha _]. apply andb_prop in Ha as [_ Ha].
    simpl in Ha. unfold Re.ws in Ha. rewrite Hz in Ha. discriminate.
Qed.

(** A tail of a text that ends with [z] ends with [z]. *)
Lemma tail_ends (ct' : list ascii) (z : ascii) :
  forall a1 x a2,
  (ct' ++ [z])%list = (a1 ++ x :: a2)%list ->
  exists u', (x :: a2 = u' ++ [z])%list.
Proof.
  intros a1 x a2 E.
  destruct (@exists_last _ (x :: a2)) as (u' & y & Hy); [discriminate|].
  exists u'. rewrite Hy in E |- *. rewrite List.app_assoc in E.
  apply app_inj_tail in E as [_ ->]. reflexivity.
Qed.

Lemma free_of_suffix (avoid : Re.class) (a b : list ascii) :
  Spec.free_of avoid (a ++ b) = true -> Spec.free_of avoid b = true.
Proof. rewrite free_of_app. intros H. now apply andb_prop in H. Qed.

(** The fence pattern at a fenced block: group 1 is the content,
    without the white space around it. *)
Lemma fence_at (p : nat) (pv : option ascii)
  (w1 ct' w2 after : list ascii) (x z : ascii) (ct : list ascii) :
  forallb Py.is_space w1 = true -> forallb Py.is_space w2 = true ->
  ct = (ct' ++ [z])%list -> Py.is_space z = false ->
  (exists ct'', ct = x :: ct'') -> Py.is_space x = false ->
  Spec.free_of (Ascii.eqb "`") ct = true ->
  Re.match_at ED.fence_pattern
    (Re.Cursor p pv
       (list_ascii_of_string "```json" ++ w1 ++ ct ++ w2
          ++ list_ascii_of_string "```" ++ after)%list)
  = Some (Re.Match p
            (p + 7 + List.length w1 + List.length ct + List.length w2 + 3)
            (Some (p + 7 + List.length w1,
                   p + 7 + List.length w1 + List.length ct))).
Proof.
  intros Hw1 Hw2 Hct Hz [ct'' Hx'] Hx Hfree.
  unfold Re.match_at, ED.fence_pattern. cbn [Re.seqs Re.pos].
  set (kf := fun (c' : Re.cursor) (g : option Re.span) => Some (Re.pos c', g)).
  set (o := (p + 7 + List.length w1 + List.length ct + List.length w2 + 3,
             Some (p + 7 + List.length w1,
                   p + 7 + List.length w1 + List.length ct))).
  assert (R : Re.run
                (Re.Seq (Re.lit "```json")
                   (Re.Seq (Re.Star Re.ws)
                      (Re.Seq (Re.Grp (Re.Lazy Re.dot_all))
                         (Re.Seq (Re.Star Re.ws) (Re.lit "```")))))
                (Re.Cursor p pv
                   (list_ascii_of_string "```json" ++ w1 ++ ct ++ w2
                      ++ list_ascii_of_string "```" ++ after)%list)
                None kf = Some o);
    [|now rewrite R].
  rewrite run_seq. read_lit. rewrite run_seq, run_star.
  cbn [Re.rest Re.pos Re.prev String.length].
  apply greedy_longest; [exact Hw1| |].
  { rewrite Hx'. cbn [app]. exact Hx. }
  intros pv1. rewrite run_seq, run_grp, run_lazy.
  cbn [Re.rest Re.pos Re.prev].
  apply lazy_first; [now apply forallb_forall| |].
  - intros a1 y a2 pv2 E. cbv beta. cbn [Re.pos].
    rewrite Hct in E. destruct (tail_ends ct' z a1 y a2 E) as [u' Hu].
    change (y :: a2 ++ w2 ++ list_ascii_of_string "```" ++ after)%list
      with ((y :: a2) ++ w2 ++ list_ascii_of_string "```" ++ after)%list.
    apply (closing_fence_none (y :: a2) _ z u'); [exact Hu|exact Hz|].
    apply (free_of_suffix (Ascii.eqb "`") a1). rewrite <- E, <- Hct.
    exact Hfree.
  - intros pv2. cbv beta. cbn [Re.pos]. rewrite run_seq, run_star.
    cbn [Re.rest Re.pos Re.prev].
    apply greedy_longest; [exact Hw2|reflexivity|].
    intros pv3. read_lit. unfold kf, o. cbn [Re.pos String.length].
    reflexivity.
Qed.

Lemma string_app_assoc (a b c : string) : (a ++ b) ++ c = a ++ b ++ c.
Proof. induction a as [|x a IH]; simpl; [reflexivity|]. now rewrite IH. Qed.

Lemma string_app_length (a b : string) :
  String.length (a ++ b) = String.length a + String.length b.
Proof. induction a as [|x a IH]; simpl; [reflexivity|]. now rewrite IH. Qed.

Lemma blank_spaces (s : string) :
  Spec.blank s = forallb Py.is_space (list_ascii_of_string s).
Proof. induction s as [|c s IH]; simpl; [reflexivity|]. now rewrite IH. Qed.

Lemma fence_start (p : nat) (pv : option ascii) (l : list ascii) :
  match l with x :: _ => Ascii.eqb "`" x = false | [] => True end ->
  Re.match_at ED.fence_pattern (Re.Cursor p pv l) = None.
Proof.
  intros Hx. unfold Re.match_at, ED.fence_pattern. cbn [Re.seqs].
  rewrite run_seq.
  change (Re.lit "```json")
    with (Re.Seq (Re.chr "`") (Re.lit "``json")).
  rewrite run_seq. cbn [Re.chr Re.run Re.rest].
  destruct l as [|x xs]; [reflexivity|]. now rewrite Hx.
Qed.

Lemma fence_asks_a_backquote : Spec.asks (Ascii.eqb "`") ED.fence_pattern.
Proof.
  intros [p pv l] Hd. cbn [Re.rest] in Hd. apply fence_start.
  destruct l as [|x xs]; [exact I|].
  apply (free_of_tail (Ascii.eqb "`")) in Hd as [Hx _]. exact Hx.
Qed.

(** The characters of the answer [{"index": n}]. *)
Lemma index_answer_shape (n : nat) :
  exists mid : list ascii,
    list_ascii_of_string
      ("{" ++ Py.q "index" ++ ": " ++ Rt.str_of_nat n ++ "}")
    = ("{"%char :: mid ++ ["}"%char])%list
    /\ Spec.free_of (Ascii.eqb "`") mid = true.
Proof.
  destruct (str_of_nat_shape n) as (c & ds & Hs & Hc & Hds & _ & _).
  exists (list_ascii_of_string (Py.q "index") ++ ":"%char :: " "%char
            :: list_ascii_of_string (Rt.str_of_nat n))%list.
  split.
  - cbn [append list_ascii_of_string]. rewrite list_ascii_app.
    cbn [append list_ascii_of_string]. rewrite list_ascii_app.
    rewrite <- !List.app_assoc. reflexivity.
  - rewrite free_of_app. cbn [andb].
    change (Spec.free_of (Ascii.eqb "`")
              (list_ascii_of_string (Rt.str_of_nat n)) = true).
    rewrite Hs. unfold Spec.free_of.
    apply forallb_forall. intros y Hy.
    assert (Dy : Py.is_digit y = true).
    { destruct Hy as [<-|Hy]; [exact Hc|].
      rewrite forallb_forall in Hds. now apply Hds. }
    destruct (Ascii.eqb "`" y) eqn:E; [|reflexivity].
    apply Ascii.eqb_eq in E. subst y. discriminate.
Qed.

(** X19. The answer the index prompt asks for is read back: a fenced
    block that holds the one-member object with the key index and a
    number gives that number, with any white space inside the fence,
    any text without backquote before the block and any text after it;
    so does the object alone, without fence. *)
Theorem prompted_index_is_read
  (self : ED.processor) (n : nat) (before ws1 ws2 after : string) :
  String.length (Rt.str_of_nat n) <= ED.int_max_str_digits ->
  Spec.lacks (Ascii.eqb "`") before = true ->
  Spec.blank ws1 = true -> Spec.blank ws2 = true ->
  let answer := "{" ++ Py.q "index" ++ ": " ++ Rt.str_of_nat n ++ "}" in
  ED.extract_index_from_response self
    (before ++ "```json" ++ ws1 ++ answer ++ ws2 ++ "```" ++ after)
  = Rt.Ret (Json.JInt (Z.of_nat n))
  /\ ED.extract_index_from_response self answer
     = Rt.Ret (Json.JInt (Z.of_nat n)).
Proof.
  intros _ Hbefore Hw1 Hw2 answer.
  destruct (index_answer_shape n) as (mid & Hl & Hmid). fold answer in Hl.
  assert (Hanswer : Json.loads answer
                    = Some (Json.JObj [("index", Json.JInt (Z.of_nat n))]))
    by apply loads_index.
  rewrite blank_spaces in Hw1, Hw2.
  split.
  - unfold ED.extract_index_from_response.
    set (text := before ++ "```json" ++ ws1 ++ answer ++ ws2 ++ "```" ++ after).
    assert (Ht : Py.truthy_str text = true).
    { unfold text. destruct before; reflexivity. }
    rewrite Ht. cbn [negb]. unfold ED.json_tiers, Re.search.
    assert (Hlist : list_ascii_of_string text
                    = (list_ascii_of_string before
                         ++ list_ascii_of_string "```json"
                         ++ list_ascii_of_string ws1
                         ++ list_ascii_of_string answer
                         ++ list_ascii_of_string ws2
                         ++ list_ascii_of_string "```"
                         ++ list_ascii_of_string after)%list).
    { unfold text. now rewrite !list_ascii_app. }
    rewrite Hlist.
    destruct (search_from_skip ED.fence_pattern (list_ascii_of_string before)
                (list_ascii_of_string "```json"
                   ++ list_ascii_of_string ws1
                   ++ list_ascii_of_string answer
                   ++ list_ascii_of_string ws2
                   ++ list_ascii_of_string "```"
                   ++ list_ascii_of_string after)%list)
      with (p := 0) (pv := @None ascii) as [pv' ->].
    { intros p pv x xs Hx. apply fence_start.
      unfold Spec.lacks, Spec.free_of in Hbefore.
      rewrite forallb_forall in Hbefore. apply Hbefore in Hx.
      now destruct (Ascii.eqb "`" x). }
    rewrite (search_from_head _ _ _ _ _
               (fence_at (0 + List.length (list_ascii_of_string before)) pv'
                  (list_ascii_of_string ws1) ("{"%char :: mid)
                  (list_ascii_of_string ws2) (list_ascii_of_string after)
                  "{"%char "}"%char (list_ascii_of_string answer)
                  Hw1 Hw2 Hl eq_refl
                  (ex_intro _ (mid ++ ["}"%char])%list Hl) eq_refl
                  ltac:(rewrite Hl; cbn [Spec.free_of forallb];
                        change (Spec.free_of (Ascii.eqb "`")
                                  (mid ++ ["}"%char]) = true);
                        rewrite free_of_app, Hmid; reflexivity))).
    unfold Re.group1, Re.slice. cbn [Re.m_group fst snd Nat.add].
    rewrite !list_ascii_length.
    replace (String.length before + 7 + String.length ws1
             + String.length answer
             - (String.length before + 7 + String.length ws1))
      with (String.length answer) by lia.
    replace (String.length before + 7 + String.length ws1)
      with (String.length ((before ++ "```json") ++ ws1))
      by (rewrite !string_app_length; reflexivity).
    replace text
      with (((before ++ "```json") ++ ws1) ++ answer
              ++ (ws2 ++ "```" ++ after))
      by (unfold text; now rewrite !string_app_assoc).
    rewrite substring_middle, Hanswer. reflexivity.
  - unfold ED.extract_index_from_response.
    assert (Ht : Py.truthy_str answer = true) by reflexivity.
    rewrite Ht. cbn [negb]. unfold ED.json_tiers.
    rewrite (search_none (Ascii.eqb "`") _ _ fence_asks_a_backquote).
    + now rewrite Hanswer.
    + unfold Spec.lacks. rewrite Hl. cbn [Spec.free_of forallb].
      change (Spec.free_of (Ascii.eqb "`") (mid ++ ["}"%char]) = true).
      now rewrite free_of_app, Hmid.
Qed.

Lemma prompted_index_is_read_witness :
  ED.extract_index_from_response Demo.ed
    ("Here: " ++ "```json" ++ " "
       ++ ("{" ++ Py.q "index" ++ ": " ++ Rt.str_of_nat 2 ++ "}")
       ++ " " ++ "```" ++ " done")
  = Rt.Ret (Json.JInt 2).
Proof.
  apply (proj1 (prompted_index_is_read Demo.ed 2 "Here: " " " " " " done"
                  ltac:(vm_compute; lia) eq_refl eq_refl eq_refl)).
Defined.
